(** * Orchestration of training and evaluation runs (main.py)

    A shallow embedding of [main.py]: command-line parsing, the training
    driver [train], the per-agent evaluation task [evaluate_fn] and the
    concurrent harness [evaluate].  Python integers are [Z], strings are
    [string], dictionaries are [gmap]s, and the side effects of the program
    (directories, log lines, simulator ports, threads) are an explicit
    world that every call threads through.

    [main.py] imports [Counter], [Trainer], [Tester], [Evaluator],
    [check_dir], [copy_file], [find_file], [init_dir], [init_log] and
    [init_test_flag] from a module [utils], and [MA2C], [RealNetEnv] from
    other modules whose text is not part of the sources at hand.  Their
    models below follow the specification and say so. *)

From Stdlib Require Import ZArith Lia.
From Stdlib Require Import Floats.SpecFloat Floats.PrimFloat Floats.FloatOps.
From Stdlib Require Import Ascii String.
From stdpp Require Import base numbers list strings pretty gmap.

Local Open Scope Z_scope.

(** ** The step counter *)

Module Counter.

(** Modelled from the spec: the class [Counter] of [utils] is missing.
    Section 3 gives the record, section 4.1 the operations: [advance]
    adds one to the current step and returns it, and saturates once the
    current step equals the total; [should_log] and [should_test] compare
    a step with the interval by remainder; [is_done] compares the current
    step with the budget. *)
Record t := mk {
  cur_step : Z;
  total_step : Z;
  test_step : Z;
  log_step : Z
}.

Definition init (total test log : Z) : t :=
  {| cur_step := 0; total_step := total; test_step := test; log_step := log |}.

Definition advance (c : t) : Z * t :=
  if cur_step c =? total_step c then (cur_step c, c)
  else (cur_step c + 1,
        {| cur_step := cur_step c + 1; total_step := total_step c;
           test_step := test_step c; log_step := log_step c |}).

Definition should_log (c : t) (step : Z) : bool := step mod log_step c =? 0.

Definition should_test (c : t) (step : Z) : bool := step mod test_step c =? 0.

Definition is_done (c : t) : bool := total_step c <=? cur_step c.

(** The counter after [n] calls of [advance]. *)
Fixpoint advances (n : nat) (c : t) : t :=
  match n with
  | O => c
  | S k => advances k (snd (advance c))
  end.

(** The steps that [n] calls of [advance] return, oldest first. *)
Fixpoint returned (n : nat) (c : t) : list Z :=
  match n with
  | O => []
  | S k => fst (advance c) :: returned k (snd (advance c))
  end.

End Counter.

(** ** Python values: strings, exceptions, floats *)

(** [s.split(c)] for a one-character separator: the pieces between the
    separators, empty pieces included; never the empty list. *)
Fixpoint str_split (c : Ascii.ascii) (s : string) : list string :=
  match s with
  | EmptyString => [EmptyString]
  | String a rest =>
      if Ascii.eqb a c then EmptyString :: str_split c rest
      else match str_split c rest with
           | piece :: pieces => String a piece :: pieces
           | [] => [String a EmptyString]
           end
  end.

(** [c in s] for a one-character [c]. *)
Fixpoint str_contains (c : Ascii.ascii) (s : string) : bool :=
  match s with
  | EmptyString => false
  | String a rest => Ascii.eqb a c || str_contains c rest
  end.

(** [s.lower()], on the letters A to Z; other characters stay. *)
Definition ascii_lower (a : Ascii.ascii) : Ascii.ascii :=
  let n := Ascii.nat_of_ascii a in
  if (65 <=? n)%nat && (n <=? 90)%nat then Ascii.ascii_of_nat (n + 32) else a.

Fixpoint str_lower (s : string) : string :=
  match s with
  | EmptyString => EmptyString
  | String a rest => String (ascii_lower a) (str_lower rest)
  end.

(** [l[-1]] on the result of a split (which is never empty). *)
Definition last_piece (l : list string) : string := default EmptyString (last l).

(** [enumerate(l)], counting from [i]. *)
Fixpoint enumerate_from {A} (i : nat) (l : list A) : list (nat * A) :=
  match l with
  | [] => []
  | x :: rest => (i, x) :: enumerate_from (S i) rest
  end.

Definition enumerate {A} (l : list A) : list (nat * A) := enumerate_from 0 l.

(** How the interpolation of an option value can fail: a [%] that starts
    neither [%%] nor a reference [%(name)s] ([InterpolationSyntaxError]),
    a reference to an option that the section does not have
    ([InterpolationMissingOptionError]), references nested too deep
    ([InterpolationDepthError]). *)
Inductive interpolation_failure :=
| BadReference
| MissingReference (name : string)
| TooDeep.

(** The exceptions the program can meet.  [InterpolationError] stands for
    the three interpolation errors of [configparser], told apart by the
    failure.  [ReadError] stands for whatever [ConfigParser.read] raises
    on a file that it opens and cannot take: [ParsingError] with
    [MissingSectionHeaderError], [DuplicateSectionError],
    [DuplicateOptionError]; the disk does not tell them apart.  [Blocked]
    is not a Python exception: it stands for a main thread left waiting
    in [join] with nothing able to move. *)
Inductive exn :=
| KeyError (key : string)
| NoSectionError (section : string)
| NoOptionError (option section : string)
| InterpolationError (failure : interpolation_failure) (option section : string)
| ValueError (text : string)
| OverflowError
| ReadError (path : string)
| CopyError (path : string)
| InvalidModeError (mode : string)
| SystemExit (code : Z)
| Blocked.

Inductive result (A : Type) :=
| Ok (a : A)
| Raise (e : exn).
Arguments Ok {A} a.
Arguments Raise {A} e.

(** [int(x)] on a Python float (an IEEE binary64 value): the integer part,
    the fraction dropped; infinities and NaN are refused.  The mantissa
    is shifted by the exponent, to the left when the exponent is
    positive and to the right, losing the low bits, when it is negative. *)
Definition int_of_float (x : float) : result Z :=
  match Prim2SF x with
  | S754_zero _ => Ok 0
  | S754_infinity _ => Raise OverflowError
  | S754_nan => Raise (ValueError "cannot convert float NaN to integer")
  | S754_finite s m e =>
      let magnitude := Z.shiftl (Z.pos m) e in
      Ok (if s then - magnitude else magnitude)
  end.

(** What lies outside the program: how Python reads a number from the
    text of a configuration option ([float(text)] and [int(text)], [None]
    for text they refuse), and whether the helper [copy_file] of [utils],
    on which the specification is silent for this case, raises when the
    file to copy does not exist. *)
Class Platform := {
  py_float : string -> option float;
  py_int : string -> option Z;
  copy_missing_raises : bool
}.

(** ** The world the program runs in *)

(** A parsed configuration file: section name, then option name, then
    the text of the option (what [configparser] stores).  What a section
    inherits from [DEFAULT] counts as part of the section. *)
Abbreviation config := (gmap string (gmap string string)).

Inductive level := INFO | ERROR.

(** What the simulator hands back when an environment is built on a port.
    The dimensions [n_s], [n_a], ... come from the simulator and are only
    passed on to the model; the record keeps what [main.py] itself
    touches: the port, the agent, and the topology ([node_names] and
    [nodes]), which it hands to the baseline controller. *)
Record Env := {
  env_port : Z;
  env_agent : string;
  env_node_names : list string;
  env_nodes : list string
}.

(** The baseline controller, made of the topology it is given. *)
Record Controller := {
  ctl_node_names : list string;
  ctl_nodes : list string
}.

(** Every effect of the program, in the order it happens. *)
Inductive event :=
| Mkdir (path : string)
| LogInit (path : string)
| CopyFile (src dst : string)
| Log (lv : level) (msg : string)
| Print (msg : string)
| EnvBind (port : Z)
| NewCounter (c : Counter.t)
| NewModel (total_step : Z) (seed : option Z)
| SummaryWriter (path : string)
| TrainStep (step : Z)
| InLoopTest (step : Z)
| OfflineTest (dir : string) (c : Counter.t)
| SaveModel (dir : string) (step : Z)
| LoadModel (dir : string) (loaded : bool)
| EvalOutput (agent output_dir policy_type : string)
| ThreadNew (i : nat) (agent_dir : string) (port : Z)
| ThreadStart (i : nat)
| ThreadJoin (i : nat)
| InThread (i : nat) (e : event)
| Uncaught (e : exn).

(** The disk and the trace.  [fs_dirs] maps each existing directory to the
    names of the files in it; [fs_conf] maps the path of each configuration
    file to its parsed content, [None] when the file is malformed;
    [fs_ckpt] holds the model directories whose parameters can be loaded. *)
Record world := {
  fs_dirs : gmap string (list string);
  fs_conf : gmap string (option config);
  fs_ckpt : gset string;
  trace : list event
}.

(** Computations: they read and change the world, and return or raise.
    The world an exception leaves behind is the one at the raise. *)
Definition M (A : Type) : Type := world -> result A * world.

#[global] Instance M_ret : MRet M := fun A a w => (Ok a, w).

#[global] Instance M_bind : MBind M := fun A B f m w =>
  match m w with
  | (Ok a, w') => f a w'
  | (Raise e, w') => (Raise e, w')
  end.

Definition raise {A} (e : exn) : M A := fun w => (Raise e, w).

Definition lift {A} (r : result A) : M A := fun w => (r, w).

Definition emit (e : event) : M unit := fun w =>
  (Ok tt, {| fs_dirs := fs_dirs w; fs_conf := fs_conf w;
             fs_ckpt := fs_ckpt w; trace := trace w ++ [e] |}).

Definition emits (es : list event) : M unit := fun w =>
  (Ok tt, {| fs_dirs := fs_dirs w; fs_conf := fs_conf w;
             fs_ckpt := fs_ckpt w; trace := trace w ++ es |}).

Definition get_world : M world := fun w => (Ok w, w).

Definition set_dirs (d : gmap string (list string)) : M unit := fun w =>
  (Ok tt, {| fs_dirs := d; fs_conf := fs_conf w;
             fs_ckpt := fs_ckpt w; trace := trace w |}).

Definition set_conf (c : gmap string (option config)) : M unit := fun w =>
  (Ok tt, {| fs_dirs := fs_dirs w; fs_conf := c;
             fs_ckpt := fs_ckpt w; trace := trace w |}).

(** [d[k]] on a dictionary. *)
Definition getitem {V} (d : gmap string V) (k : string) : M V :=
  match d !! k with
  | Some v => mret v
  | None => raise (KeyError k)
  end.

Definition logging_info (msg : string) : M unit := emit (Log INFO msg).
Definition logging_error (msg : string) : M unit := emit (Log ERROR msg).
Definition print (msg : string) : M unit := emit (Print msg).

(** ** configparser *)

(** [ConfigParser().read(path)]: a file that does not exist is skipped
    without complaint and leaves the parser empty; a file that the parser
    cannot take raises. *)
Definition config_read (path : string) : M config :=
  w ← get_world;
  match fs_conf w !! path with
  | None => mret ∅
  | Some None => raise (ReadError path)
  | Some (Some c) => mret c
  end.

(** [BasicInterpolation], which a [ConfigParser] applies to every value
    it hands out.  The value is read from left to right: [%%] gives [%],
    [%(name)s] gives the value of the option [name] of the same section,
    the name in lower case, and any other [%] is an error.  [name] is
    what stands between [%(] and the first [)], is not empty, and [)] is
    followed by [s].  [scan] reads one character at a time and remembers
    where in a reference it is. *)
Inductive scan_state :=
| Plain
| Percent
| Name (read : string)
| Closed (name : string).

Fixpoint scan (expand : string -> interpolation_failure + string)
    (st : scan_state) (rest : string) : interpolation_failure + string :=
  match rest with
  | EmptyString =>
      match st with
      | Plain => inr EmptyString
      | _ => inl BadReference
      end
  | String a rest' =>
      match st with
      | Plain =>
          if Ascii.eqb a "%" then scan expand Percent rest'
          else match scan expand Plain rest' with
               | inr out => inr (String a out)
               | inl f => inl f
               end
      | Percent =>
          if Ascii.eqb a "%" then
            match scan expand Plain rest' with
            | inr out => inr (String "%" out)
            | inl f => inl f
            end
          else if Ascii.eqb a "(" then scan expand (Name EmptyString) rest'
          else inl BadReference
      | Name read =>
          if Ascii.eqb a ")" then
            match read with
            | EmptyString => inl BadReference
            | _ => scan expand (Closed read) rest'
            end
          else scan expand (Name (read +:+ String a EmptyString)) rest'
      | Closed name =>
          if Ascii.eqb a "s" then
            match expand (str_lower name) with
            | inr v =>
                match scan expand Plain rest' with
                | inr out => inr (v +:+ out)
                | inl f => inl f
                end
            | inl f => inl f
            end
          else inl BadReference
      end
  end.

(** A value that a reference brings in is interpolated in its turn when
    it holds a [%]; [levels] is the number of levels still allowed. *)
Fixpoint interpolate_some (levels : nat) (sec : gmap string string)
    (text : string) : interpolation_failure + string :=
  match levels with
  | O => inl TooDeep
  | S levels' =>
      scan (fun var =>
              match sec !! var with
              | None => inl (MissingReference var)
              | Some v =>
                  if str_contains "%" v then interpolate_some levels' sec v
                  else inr v
              end)
           Plain text
  end.

(** [MAX_INTERPOLATION_DEPTH] is 10. *)
Definition interpolate (sec : gmap string string) (text : string)
  : interpolation_failure + string :=
  interpolate_some 10 sec text.

(** The text of [config.get(section, option)]: the option is looked up
    under its name in lower case, and its value is interpolated. *)
Definition config_get (c : config) (section option : string) : M string :=
  match c !! section with
  | None => raise (NoSectionError section)
  | Some sec =>
      match sec !! str_lower option with
      | None => raise (NoOptionError (str_lower option) section)
      | Some text =>
          match interpolate sec text with
          | inr value => mret value
          | inl failure => raise (InterpolationError failure (str_lower option) section)
          end
      end
  end.

Section Configparser.
Context `{Platform}.

Definition getfloat (c : config) (section option : string) : M float :=
  text ← config_get c section option;
  match py_float text with
  | Some x => mret x
  | None => raise (ValueError text)
  end.

Definition getint (c : config) (section option : string) : M Z :=
  text ← config_get c section option;
  match py_int text with
  | Some n => mret n
  | None => raise (ValueError text)
  end.

End Configparser.

(** ** The helpers of [utils] and the collaborators *)

(** Modelled from the spec: [init_dir] of [utils] is missing.  Section 4.3:
    for each role it creates [base_dir/role] if absent, leaves what exists
    alone, and returns the mapping from role to path; the roles of a
    training run are [log], [data] and [model] (section 3). *)
Definition role_path (base_dir role : string) : string :=
  base_dir +:+ "/" +:+ role.

Fixpoint init_dir_roles (base_dir : string) (pathes : list string)
  : M (gmap string string) :=
  match pathes with
  | [] => mret ∅
  | role :: rest =>
      let p := role_path base_dir role in
      w ← get_world;
      (if decide (is_Some (fs_dirs w !! p)) then mret tt
       else (set_dirs (<[p := []]> (fs_dirs w));; emit (Mkdir p)));;
      dirs ← init_dir_roles base_dir rest;
      mret (<[role := p]> dirs)
  end.

Definition default_pathes : list string := ["log"; "data"; "model"].

Definition init_dir (base_dir : string) (pathes : option (list string))
  : M (gmap string string) :=
  init_dir_roles base_dir (default default_pathes pathes).

(** Modelled from the spec: [init_log] of [utils] is missing; setting up
    the logging sink is outside the specification (section 1), so only
    the call is recorded. *)
Definition init_log (log_dir : string) : M unit := emit (LogInit log_dir).

(** Modelled from the spec: [check_dir] of [utils] is missing.  Section 4.6
    step 1: it tells whether the directory exists. *)
Definition check_dir (cur_dir : string) : M bool :=
  w ← get_world;
  mret (bool_decide (is_Some (fs_dirs w !! cur_dir))).

(** Modelled from the spec: [find_file] of [utils] is missing.  Section 4.6
    step 2: it locates the configuration file in the directory and
    returns its path; when there is none the failure is logged (section 7)
    and it returns nothing.  The wording of the log line is not given. *)
Definition find_file (cur_dir : string) : M (option string) :=
  w ← get_world;
  let names := default [] (fs_dirs w !! cur_dir) in
  match filter (fun name => is_Some (fs_conf w !! (cur_dir +:+ name))) names with
  | name :: _ => mret (Some (cur_dir +:+ name))
  | [] => logging_error ("Evaluation: no configuration file in " +:+ cur_dir);;
          mret None
  end.

Section Utils.
Context `{Platform}.

(** Modelled from the spec: [copy_file] of [utils] is missing.  Section
    4.3: it copies the configuration file into the data directory as it
    is.  What it does when the file does not exist is not specified and
    is left to [copy_missing_raises]. *)
Definition copy_file (src_path dst_dir : string) : M unit :=
  w ← get_world;
  match fs_conf w !! src_path with
  | Some content =>
      let name := last_piece (str_split "/"%char src_path) in
      let dst := dst_dir +:+ "/" +:+ name in
      set_conf (<[dst := content]> (fs_conf w));;
      set_dirs (alter (fun names => names ++ [name]) dst_dir (fs_dirs w));;
      emit (CopyFile src_path dst)
  | None =>
      if copy_missing_raises then raise (CopyError src_path) else mret tt
  end.

End Utils.

(** Modelled from the spec: [init_test_flag] of [utils] is missing.  Section
    4.2 gives its table and says it fails on any other string. *)
Definition init_test_flag (test_mode : string) : result (bool * bool) :=
  if String.eqb test_mode "no_test" then Ok (false, false)
  else if String.eqb test_mode "in_train_test" then Ok (true, false)
  else if String.eqb test_mode "after_train_test" then Ok (false, true)
  else if String.eqb test_mode "all_test" then Ok (true, true)
  else Raise (InvalidModeError test_mode).

(** Modelled from the spec: [RealNetEnv] and [RealNetController] of [envs]
    are missing.  Section 6: building an environment takes a configuration
    section and a port, and binds the simulator to that port; section 4.4:
    the controller is scoped to the topology of the environment.  The
    topology is that of the network the simulator loads, of which the
    specification says nothing; the nodes are kept by name, and the
    environment of this model has none. *)
Definition RealNetEnv (cfg : gmap string string) (port : Z) : M Env :=
  emit (EnvBind port);;
  mret {| env_port := port; env_agent := "";
          env_node_names := []; env_nodes := [] |}.

Definition RealNetController (node_names nodes : list string) : M Controller :=
  mret {| ctl_node_names := node_names; ctl_nodes := nodes |}.

(** Modelled from the spec: the class [MA2C] of [agents] is missing.
    Section 6: a model is built from the dimensions, a step budget, a
    configuration section and an optional seed; [save] tags the stored
    parameters with a step, [load] tells whether parameters were loaded.
    A failed load is logged (section 7); the wording is not given. *)
Record Model := { model_total_step : Z; model_seed : option Z }.

Definition MA2C (total_step : Z) (model_config : gmap string string)
    (seed : option Z) : M Model :=
  emit (NewModel total_step seed);;
  mret {| model_total_step := total_step; model_seed := seed |}.

Definition model_save (m : Model) (model_dir : string) (step : Z) : M unit :=
  emit (SaveModel model_dir step).

Definition model_load (m : Model) (model_dir : string) : M bool :=
  w ← get_world;
  if decide (model_dir ∈ fs_ckpt w) then
    emit (LoadModel model_dir true);; mret true
  else
    emit (LoadModel model_dir false);;
    logging_error ("Evaluation: no trained parameters in " +:+ model_dir);;
    mret false.

(** Modelled from the spec: [Trainer] of [utils] is missing.  Section 4.5:
    while the counter is not done, one step of interaction, the counter
    advances, and when in-loop testing is on and the new step is a test
    step, an evaluation pass.  [fuel] bounds the number of turns; [run]
    gives it the steps still to go, which is enough (see
    [loop_final_done]). *)
Fixpoint trainer_loop (fuel : nat) (in_test : bool) (c : Counter.t)
  : M Counter.t :=
  if Counter.is_done c then mret c
  else match fuel with
       | O => mret c
       | S fuel' =>
           let '(step, c') := Counter.advance c in
           emit (TrainStep step);;
           (if in_test && Counter.should_test c' step
            then emit (InLoopTest step) else mret tt);;
           trainer_loop fuel' in_test c'
       end.

Definition trainer_run (env : Env) (m : Model) (c : Counter.t)
    (in_test : bool) (output_path : string) : M Counter.t :=
  trainer_loop (Z.to_nat (Counter.total_step c - Counter.cur_step c)) in_test c.

(** Modelled from the spec: [Tester] of [utils] is missing.  Section 4.5:
    one offline pass over the trained model, with the same environment
    and the counter as training left it. *)
Definition tester_run_offline (env : Env) (m : Model) (c : Counter.t)
    (output_path : string) : M unit :=
  emit (OfflineTest output_path c).

(** Modelled from the spec: [Evaluator] of [utils] is missing.  Section 4.6
    step 5: it runs the policy and writes results for the agent into the
    output directory. *)
Definition evaluator_run (env : Env) (m : Model) (output_dir policy_type : string)
  : M unit :=
  emit (EvalOutput (env_agent env) output_dir policy_type).

(** ** main.py: the command line *)

(** What [argparse] makes of the command line.  For a command line it
    accepts: the subcommand with its options, [None] for an option left
    out.  [RawHelp]: [-h] or [--help] was asked for, before or after the
    subcommand.  [RawRefused]: [argparse] turns the command line down for
    a reason other than the test mode: a subcommand or an option it does
    not know, an option without its value.  How [argparse] reads the
    words of the command line is not modelled. *)
Inductive raw_command :=
| RawTrain (test_mode config_dir : option string)
| RawEvaluate (agents evaluation_policy_type : option string)
| RawHelp
| RawRefused.

Record raw_args := {
  raw_base_dir : option string;
  raw_option : option raw_command
}.

Record train_args := {
  tr_base_dir : string;
  tr_test_mode : string;
  tr_config_dir : string
}.

Record evaluate_args := {
  ev_base_dir : string;
  ev_agents : string;
  ev_evaluation_policy_type : string
}.

Inductive args :=
| ArgsTrain (a : train_args)
| ArgsEvaluate (a : evaluate_args).

Definition default_base_dir : string :=
  "/Users/tchu/Documents/rl_test/signal_control_results/eval_sep2019/large_grid".

Definition default_config_dir : string := "./config/config_test_large.ini".

Definition test_mode_choices : list string :=
  ["no_test"; "in_train_test"; "after_train_test"; "all_test"].

(** [parse_args]: defaults are filled in; [argparse] exits with status 0
    after printing the help it was asked for, and with status 2 on a
    [--test-mode] outside [choices] and on any other command line it
    turns down; a command line without [train] or [evaluate] prints the
    help and exits with 1. *)
Definition parse_args (raw : raw_args) : result args :=
  let base_dir := default default_base_dir (raw_base_dir raw) in
  match raw_option raw with
  | None => Raise (SystemExit 1)
  | Some (RawTrain test_mode config_dir) =>
      let mode := default "no_test" test_mode in
      if bool_decide (mode ∈ test_mode_choices) then
        Ok (ArgsTrain {| tr_base_dir := base_dir;
                         tr_test_mode := mode;
                         tr_config_dir := default default_config_dir config_dir |})
      else Raise (SystemExit 2)
  | Some (RawEvaluate agents policy) =>
      Ok (ArgsEvaluate {| ev_base_dir := base_dir;
                          ev_agents := default "naive" agents;
                          ev_evaluation_policy_type := default "default" policy |})
  | Some RawHelp => Raise (SystemExit 0)
  | Some RawRefused => Raise (SystemExit 2)
  end.

(** ** main.py: environments *)

(** [init_env(config, port=1, naive_policy=False)]: an argument left out
    is [None] here and takes the default of the signature. *)
Definition init_env (cfg : gmap string string) (port : option Z)
    (naive_policy : option bool) : M (Env * option Controller) :=
  let port := default 1 port in
  let naive_policy := default false naive_policy in
  if negb naive_policy then
    env ← RealNetEnv cfg port;
    mret (env, None)
  else
    env ← RealNetEnv cfg port;
    policy ← RealNetController (env_node_names env) (env_nodes env);
    mret (env, Some policy).

(** ** main.py: training *)

Section Train.
Context `{Platform}.

(** [train(args)].  The log line after the environment is built carries
    dimensions that come from the simulator; its text is kept without
    them.  The one counter object that the trainer, the tester and the
    final save share is passed from one to the next. *)
Definition train (a : train_args) : M unit :=
  let base_dir := tr_base_dir a in
  dirs ← init_dir base_dir None;
  log_dir ← getitem dirs "log";
  init_log log_dir;;
  let config_dir := tr_config_dir a in
  data_dir ← getitem dirs "data";
  copy_file config_dir data_dir;;
  config ← config_read config_dir;
  '(in_test, post_test) ← lift (init_test_flag (tr_test_mode a));
  (* init env *)
  env_config ← getitem config "ENV_CONFIG";
  '(env, _) ← init_env env_config None None;
  logging_info "Training: s dim, a dim, s dim ls, a dim ls";;
  (* init step counter *)
  total_step ← (x ← getfloat config "TRAIN_CONFIG" "total_step"; lift (int_of_float x));
  test_step ← (x ← getfloat config "TRAIN_CONFIG" "test_interval"; lift (int_of_float x));
  log_step ← (x ← getfloat config "TRAIN_CONFIG" "log_interval"; lift (int_of_float x));
  let global_counter := Counter.init total_step test_step log_step in
  emit (NewCounter global_counter);;
  (* init centralized or multi agent *)
  seed ← getint config "ENV_CONFIG" "seed";
  model_config ← getitem config "MODEL_CONFIG";
  model ← MA2C total_step model_config (Some seed);
  log_dir ← getitem dirs "log";
  emit (SummaryWriter log_dir);;
  data_dir ← getitem dirs "data";
  global_counter ← trainer_run env model global_counter in_test data_dir;
  (* post-training test *)
  (if post_test : bool then
     data_dir ← getitem dirs "data";
     tester_run_offline env model global_counter data_dir
   else mret tt);;
  (* save model *)
  let final_step := Counter.cur_step global_counter in
  logging_info ("Training: save final model at step " +:+ pretty final_step +:+ " ...");;
  model_dir ← getitem dirs "model";
  model_save model model_dir final_step.

End Train.

(** ** main.py: evaluation *)

Definition with_trace (w : world) (t : list event) : world :=
  {| fs_dirs := fs_dirs w; fs_conf := fs_conf w; fs_ckpt := fs_ckpt w; trace := t |}.

(** [evaluate_fn(agent_dir, output_dir, port, policy_type)]: the body of
    one worker.  A bare [return] is a normal return. *)
Definition evaluate_fn (agent_dir output_dir : string) (port : Z)
    (policy_type : string) : M unit :=
  let agent := last_piece (str_split "/"%char agent_dir) in
  exists_dir ← check_dir agent_dir;
  if negb exists_dir then
    logging_error ("Evaluation: " +:+ agent +:+ " does not exist!")
  else
    (* load config file for env *)
    config_dir ← find_file (agent_dir +:+ "/data/");
    match config_dir with
    | None => mret tt
    | Some config_dir =>
        config ← config_read config_dir;
        (* init env *)
        env_config ← getitem config "ENV_CONFIG";
        '(env, _) ← init_env env_config (Some port) None;
        logging_info "Evaluation: s dim, a dim, s dim ls, a dim ls";;
        (* load model for agent *)
        model_config ← getitem config "MODEL_CONFIG";
        model ← MA2C 0 model_config None;
        loaded ← model_load model (agent_dir +:+ "/model/");
        if negb loaded then mret tt
        else
          print ("agent " +:+ agent);;
          print ("env.agent " +:+ env_agent env);;
          let env := {| env_port := env_port env; env_agent := agent;
                        env_node_names := env_node_names env;
                        env_nodes := env_nodes env |} in
          (* collect evaluation data *)
          evaluator_run env model output_dir policy_type
    end.

(** *** Threads *)

(** A [threading.Thread] running [evaluate_fn]: the arguments it was
    created with and what its body still has to do.  The workers read the
    disk and only add events, so the events of a worker are those of
    [evaluate_fn] on the disk the harness started from; an exception that
    escapes the body ends the thread with a traceback and goes no
    further. *)
Record thread := {
  th_agent_dir : string;
  th_port : Z;
  th_pending : list event
}.

Definition worker_script (w : world) (agent_dir output_dir : string)
    (port : Z) (policy_type : string) : list event :=
  let '(r, w') := evaluate_fn agent_dir output_dir port policy_type (with_trace w []) in
  trace w' ++ match r with
              | Ok _ => []
              | Raise e => [Uncaught e]
              end.

(** Where the main thread is in [evaluate]: in the loop that creates and
    starts the threads, in the loop that joins them, or back from it. *)
Inductive main_pc :=
| Spawning (rest : list (nat * string))
| Joining (k : nat)
| Returned.

Record harness := {
  pc : main_pc;
  pool : list thread;
  out : list event
}.

(** The scheduler picks the main thread or the worker [i]. *)
Inductive choice :=
| RunMain
| RunWorker (i : nat).

Section Harness.
Variable w : world.
Variables base_dir output_dir policy_type : string.

Definition finish_one (t : thread) (rest : list event) : thread :=
  {| th_agent_dir := th_agent_dir t; th_port := th_port t; th_pending := rest |}.

(** One step of the chosen thread, [None] when it cannot move: the main
    thread in [join] on a worker that still runs, a worker that has
    ended or was never started.  One turn of the loop that creates the
    threads is one step of the main thread: what other threads do between
    its three events changes nothing of what any thread does. *)
Definition hstep (ch : choice) (s : harness) : option harness :=
  match ch with
  | RunMain =>
      match pc s with
      | Spawning [] =>
          Some {| pc := Joining 0; pool := pool s; out := out s |}
      | Spawning ((i, agent) :: rest) =>
          let agent_dir := base_dir +:+ "/" +:+ agent in
          let port := Z.of_nat i in
          let t := {| th_agent_dir := agent_dir; th_port := port;
                      th_pending := worker_script w agent_dir output_dir
                                      port policy_type |} in
          Some {| pc := Spawning rest;
                  pool := pool s ++ [t];
                  out := out s ++ [Print ("agent " +:+ agent);
                                   ThreadNew i agent_dir port;
                                   ThreadStart i] |}
      | Joining k =>
          match pool s !! k with
          | None => Some {| pc := Returned; pool := pool s; out := out s |}
          | Some t =>
              match th_pending t with
              | [] => Some {| pc := Joining (S k); pool := pool s;
                              out := out s ++ [ThreadJoin k] |}
              | _ :: _ => None
              end
          end
      | Returned => None
      end
  | RunWorker i =>
      match pool s !! i with
      | Some t =>
          match th_pending t with
          | e :: rest =>
              Some {| pc := pc s;
                      pool := <[i := finish_one t rest]> (pool s);
                      out := out s ++ [InThread i e] |}
          | [] => None
          end
      | None => None
      end
  end.

(** A schedule is run choice by choice; a choice that cannot move is
    skipped. *)
Definition hrun (sched : list choice) (s : harness) : harness :=
  foldl (fun s ch => default s (hstep ch s)) s sched.

(** After the schedule, the rest of the run: the main thread moves
    whenever it can, and while it waits in [join] the worker it waits
    for moves. *)
Fixpoint finish (fuel : nat) (s : harness) : harness :=
  match fuel with
  | O => s
  | S fuel' =>
      match hstep RunMain s with
      | Some s' => finish fuel' s'
      | None =>
          match pc s with
          | Joining k =>
              match hstep (RunWorker k) s with
              | Some s' => finish fuel' s'
              | None => s
              end
          | _ => s
          end
      end
  end.

(** The number of steps a state is away from the end of the run. *)
Definition script_len (ia : nat * string) : nat :=
  length (worker_script w (base_dir +:+ "/" +:+ ia.2) output_dir
            (Z.of_nat ia.1) policy_type).

Definition pending_total (ts : list thread) : nat :=
  sum_list (map (fun t => length (th_pending t)) ts).

Definition remaining (s : harness) : nat :=
  (match pc s with
   | Spawning rest =>
       sum_list (map script_len rest) + 2 * length rest + length (pool s) + 2
   | Joining k => length (pool s) - k + 1
   | Returned => 0
   end + pending_total (pool s))%nat.

Definition harness_init (agents : list string) : harness :=
  {| pc := Spawning (enumerate agents); pool := []; out := [] |}.

End Harness.

(** [evaluate(args)], under a schedule for the threads.  [dirs['eva_data']]
    is looked up once; the dictionary does not change in the loop. *)
Definition evaluate (sched : list choice) (a : evaluate_args) : M unit :=
  let base_dir := ev_base_dir a in
  dirs ← init_dir base_dir (Some ["eva_data"; "eva_log"]);
  eva_log ← getitem dirs "eva_log";
  init_log eva_log;;
  let agents := str_split ","%char (ev_agents a) in
  print "agents";;
  (* enforce the same evaluation seeds across agents *)
  let policy_type := ev_evaluation_policy_type a in
  logging_info ("Evaluation: policy type: " +:+ policy_type);;
  eva_data ← getitem dirs "eva_data";
  w ← get_world;
  let s := hrun w base_dir eva_data policy_type sched (harness_init agents) in
  let s := finish w base_dir eva_data policy_type
             (remaining w base_dir eva_data policy_type s) s in
  emits (out s);;
  match pc s with
  | Returned => mret tt
  | _ => raise Blocked
  end.

(** ** main.py: the entry point *)

Section Main.
Context `{Platform}.

Definition main (sched : list choice) (raw : raw_args) : M unit :=
  a ← lift (parse_args raw);
  match a with
  | ArgsTrain a => train a
  | ArgsEvaluate a => evaluate sched a
  end.

End Main.

(** ** Sample inputs *)

Module Sample.

(** [float(text)] and [int(text)] on the few texts the samples use; the
    first float is the binary64 value nearest to 100.9. *)
Definition sample_float (text : string) : option float :=
  if String.eqb text "100.9" then Some 0x1.939999999999ap+6%float
  else if String.eqb text "100" then Some 100%float
  else if String.eqb text "20" then Some 20%float
  else if String.eqb text "10" then Some 10%float
  else if String.eqb text "3" then Some 3%float
  else if String.eqb text "2" then Some 2%float
  else if String.eqb text "inf" then Some infinity
  else None.

Definition sample_int (text : string) : option Z :=
  if String.eqb text "42" then Some 42 else None.

#[export] Instance strict : Platform :=
  {| py_float := sample_float; py_int := sample_int; copy_missing_raises := true |}.

Definition lenient : Platform :=
  {| py_float := sample_float; py_int := sample_int; copy_missing_raises := false |}.

Definition schedule (total test log : string) : gmap string string :=
  <["total_step" := total]> (<["test_interval" := test]> (<["log_interval" := log]> ∅)).

(** A complete configuration: a budget of 100.9 steps, a test every 20
    steps, a log line every 10. *)
Definition full_config : config :=
  <["ENV_CONFIG" := <["seed" := "42"]> ∅]>
    (<["TRAIN_CONFIG" := schedule "100.9" "20" "10"]>
       (<["MODEL_CONFIG" := ∅]> ∅)).

Definition short_config : config :=
  <["ENV_CONFIG" := <["seed" := "42"]> ∅]>
    (<["TRAIN_CONFIG" := schedule "3" "2" "10"]>
       (<["MODEL_CONFIG" := ∅]> ∅)).

(** No [ENV_CONFIG] section at all. *)
Definition no_env_config : config :=
  <["TRAIN_CONFIG" := schedule "100.9" "20" "10"]> (<["MODEL_CONFIG" := ∅]> ∅).

(** No [TRAIN_CONFIG] section. *)
Definition no_train_config : config :=
  <["ENV_CONFIG" := <["seed" := "42"]> ∅]> (<["MODEL_CONFIG" := ∅]> ∅).

(** An empty disk with the given configuration files. *)
Definition disk (files : gmap string (option config)) : world :=
  {| fs_dirs := ∅; fs_conf := files; fs_ckpt := ∅; trace := [] |}.

Definition train_with (mode : string) : train_args :=
  {| tr_base_dir := "run"; tr_test_mode := mode; tr_config_dir := "c.ini" |}.

(** Under [exp]: agent [a] was trained (configuration and parameters in
    place), agent [b] has a directory and a configuration but no
    parameters, agent [c] has an empty directory, and no other agent
    exists. *)
Definition trained : world :=
  {| fs_dirs := {[ "exp/a" := []; "exp/a/data/" := ["log.txt"; "c.ini"];
                   "exp/b" := []; "exp/b/data/" := ["c.ini"];
                   "exp/c" := [] ]};
     fs_conf := {[ "exp/a/data/c.ini" := Some full_config;
                   "exp/b/data/c.ini" := Some full_config ]};
     fs_ckpt := {[ "exp/a/model/" ]};
     trace := [] |}.



Definition evaluate_agents (agents : string) : evaluate_args :=
  {| ev_base_dir := "exp"; ev_agents := agents;
     ev_evaluation_policy_type := "default" |}.

End Sample.

(** * What the statements talk about *)

(** ** Runs *)

(** [wp m w Q]: running [m] in the world [w] ends with a result and a world
    that satisfy [Q]. *)
Definition wp {A} (m : M A) (w : world) (Q : result A -> world -> Prop) : Prop :=
  Q (m w).1 (m w).2.

(** The world [w] after the events [es]. *)
Definition add_events (w : world) (es : list event) : world :=
  {| fs_dirs := fs_dirs w; fs_conf := fs_conf w; fs_ckpt := fs_ckpt w;
     trace := trace w ++ es |}.

(** A [train] command line with the given [--test-mode]. *)
Definition train_command (base : option string) (mode : string)
    (cfg : option string) : raw_args :=
  {| raw_base_dir := base; raw_option := Some (RawTrain (Some mode) cfg) |}.

(** The dictionary that [init_dir] returns. *)
Fixpoint dirs_of (base : string) (roles : list string) : gmap string string :=
  match roles with
  | [] => ∅
  | role :: rest => <[role := role_path base role]> (dirs_of base rest)
  end.

(** ** Floats *)

(** The exact value of a finite float as a fraction [num / den]. *)
Definition float_fraction (x : float) : option (Z * Z) :=
  match Prim2SF x with
  | S754_zero _ => Some (0, 1)
  | S754_finite s m e =>
      let num := if s then Z.neg m else Z.pos m in
      Some (if 0 <=? e then (num * 2 ^ e, 1) else (num, 2 ^ (- e)))
  | S754_infinity _ | S754_nan => None
  end.

(** [n] is [num / den] with the fraction dropped, towards zero. *)
Definition integer_part (n num den : Z) : Prop :=
  Z.abs n * den <= Z.abs num < (Z.abs n + 1) * den /\ 0 <= n * num.

(** [n] is the float [x] with its fraction dropped. *)
Definition truncated (x : float) (n : Z) : Prop :=
  exists num den,
    float_fraction x = Some (num, den) /\ 0 < den /\ integer_part n num den.

(** ** The training loop *)

(** The events of the training loop, its steps, and the counter it ends
    with. *)
Fixpoint loop_events (fuel : nat) (in_test : bool) (c : Counter.t) : list event :=
  if Counter.is_done c then []
  else match fuel with
       | O => []
       | S fuel' =>
           let '(step, c') := Counter.advance c in
           TrainStep step ::
           (if in_test && Counter.should_test c' step then [InLoopTest step] else [])
           ++ loop_events fuel' in_test c'
       end.

Fixpoint loop_steps (fuel : nat) (c : Counter.t) : list Z :=
  if Counter.is_done c then []
  else match fuel with
       | O => []
       | S fuel' =>
           let '(step, c') := Counter.advance c in
           step :: loop_steps fuel' c'
       end.

Fixpoint loop_final (fuel : nat) (c : Counter.t) : Counter.t :=
  if Counter.is_done c then c
  else match fuel with
       | O => c
       | S fuel' => loop_final fuel' (snd (Counter.advance c))
       end.

(** ** Kinds of events *)

Definition is_main (e : event) : bool :=
  match e with
  | InThread _ _ => false
  | _ => true
  end.

(** The events of the main thread, and those of worker [i]. *)
Definition main_events (l : list event) : list event :=
  filter (fun e => is_main e = true) l.

Definition in_thread (i : nat) (e : event) : option event :=
  match e with
  | InThread j e' => if decide (j = i) then Some e' else None
  | _ => None
  end.

Definition thread_events (i : nat) (l : list event) : list event :=
  omap (in_thread i) l.




Definition is_output (e : event) : bool :=
  match e with
  | EvalOutput _ _ _ => true
  | _ => false
  end.

(** If the event binds a simulator port, the port is 1. *)
Definition binds_default_port (e : event) : bool :=
  match e with
  | EnvBind p => p =? 1
  | _ => true
  end.

Definition no_in_loop_test (e : event) : bool :=
  match e with
  | InLoopTest _ => false
  | _ => true
  end.

(** Events that are neither a training step nor a test nor a save. *)
Definition quiet (e : event) : bool :=
  match e with
  | TrainStep _ | InLoopTest _ | OfflineTest _ _ | SaveModel _ _ => false
  | _ => true
  end.

(** Events that come before the model is built. *)
Definition before_model (e : event) : bool :=
  match e with
  | NewModel _ _ | SummaryWriter _ | TrainStep _ | InLoopTest _
  | OfflineTest _ _ | SaveModel _ _ => false
  | _ => true
  end.

(** ** The harness *)

Section HarnessVocabulary.
Variable w : world.
Variables base_dir output_dir policy_type : string.
Variable agents : list string.

(** What the worker of the [i]-th agent does, start to end. *)
Definition script (i : nat) (agent : string) : list event :=
  worker_script w (base_dir +:+ "/" +:+ agent) output_dir (Z.of_nat i) policy_type.

(** What the main thread does in the loop that creates the workers. *)
Definition spawn_events (ias : list (nat * string)) : list event :=
  flat_map (fun ia => [Print ("agent " +:+ ia.2);
                       ThreadNew ia.1 (base_dir +:+ "/" +:+ ia.2) (Z.of_nat ia.1);
                       ThreadStart ia.1]) ias.

Definition finished (t : thread) : Prop := th_pending t = [].

(** What holds of the harness at every point of every schedule: the
    [i]-th thread of the pool belongs to the [i]-th agent, has port [i],
    and what it did so far and what it still has to do make up its
    script; the main thread has created the threads in the order of the
    list, joins them in that order, moves past a join only when the
    thread joined is finished, and is back only when all are. *)
Record hinv (s : harness) : Prop := {
  inv_pool : forall i t, pool s !! i = Some t ->
    exists agent, agents !! i = Some agent
      /\ th_agent_dir t = base_dir +:+ "/" +:+ agent
      /\ th_port t = Z.of_nat i
      /\ thread_events i (out s) ++ th_pending t = script i agent;
  inv_fresh : forall i, (length (pool s) <= i)%nat -> thread_events i (out s) = [];
  inv_pc :
    match pc s with
    | Spawning rest =>
        rest = drop (length (pool s)) (enumerate agents)
        /\ main_events (out s)
           = spawn_events (take (length (pool s)) (enumerate agents))
    | Joining k =>
        length (pool s) = length agents
        /\ (k <= length agents)%nat
        /\ (forall j t, (j < k)%nat -> pool s !! j = Some t -> finished t)
        /\ main_events (out s)
           = spawn_events (enumerate agents) ++ map ThreadJoin (seq 0 k)
    | Returned =>
        length (pool s) = length agents
        /\ (forall j t, pool s !! j = Some t -> finished t)
        /\ main_events (out s)
           = spawn_events (enumerate agents)
             ++ map ThreadJoin (seq 0 (length agents))
    end
}.

End HarnessVocabulary.

(** The disk the workers of [evaluate] see: the one [evaluate] was called
    on, with the evaluation directories made. *)
Definition evaluate_disk (a : evaluate_args) (w : world) : world :=
  with_trace (init_dir (ev_base_dir a) (Some ["eva_data"; "eva_log"]) w).2 [].

(** What [evaluate] does before it creates the first worker. *)
Definition setup_events (a : evaluate_args) (created : list string) : list event :=
  map Mkdir created
  ++ [LogInit (role_path (ev_base_dir a) "eva_log"); Print "agents";
      Log INFO ("Evaluation: policy type: " +:+ ev_evaluation_policy_type a)].

(** Every port is assigned before any worker starts. *)
Definition ports_assigned_before_any_start (tr : list event) : Prop :=
  forall a b i j d p,
    tr !! a = Some (ThreadNew j d p) ->
    tr !! b = Some (ThreadStart i) ->
    (a < b)%nat.

(** ** Tasks *)

(** The configuration file that [find_file] finds in a directory. *)
Definition find_config (w : world) (cur_dir : string) : option string :=
  match filter (fun name => is_Some (fs_conf w !! (cur_dir +:+ name)))
               (default [] (fs_dirs w !! cur_dir)) with
  | name :: _ => Some (cur_dir +:+ name)
  | [] => None
  end.

(** How a task ends, read off the disk: the agent's directory is missing,
    its data directory holds no configuration, the configuration cannot
    be used (an exception escapes, before or after the simulator was
    bound), the parameters cannot be loaded, or the evaluation runs. *)
Inductive verdict :=
| NoAgentDir
| NoConfig
| BadConfig (e : exn) (bound : bool)
| NoParameters
| Ready.

Definition task_verdict (w : world) (agent_dir : string) : verdict :=
  if bool_decide (is_Some (fs_dirs w !! agent_dir)) then
    match find_config w (agent_dir +:+ "/data/") with
    | None => NoConfig
    | Some path =>
        match fs_conf w !! path with
        | Some None => BadConfig (ReadError path) false
        | Some (Some c) =>
            match c !! "ENV_CONFIG", c !! "MODEL_CONFIG" with
            | None, _ => BadConfig (KeyError "ENV_CONFIG") false
            | Some _, None => BadConfig (KeyError "MODEL_CONFIG") true
            | Some _, Some _ =>
                if decide (agent_dir +:+ "/model/" ∈ fs_ckpt w)
                then Ready else NoParameters
            end
        | None => BadConfig (KeyError "ENV_CONFIG") false
        end
    end
  else NoAgentDir.

Definition task_result (v : verdict) : result unit :=
  match v with
  | BadConfig e _ => Raise e
  | _ => Ok tt
  end.

Definition bound_events (port : Z) : list event :=
  [EnvBind port; Log INFO "Evaluation: s dim, a dim, s dim ls, a dim ls"].

(** The events of a task, by the way it ends. *)
Definition task_events (v : verdict) (agent_dir output_dir : string)
    (port : Z) (policy_type : string) : list event :=
  let agent := last_piece (str_split "/"%char agent_dir) in
  match v with
  | NoAgentDir => [Log ERROR ("Evaluation: " +:+ agent +:+ " does not exist!")]
  | NoConfig =>
      [Log ERROR ("Evaluation: no configuration file in " +:+ agent_dir +:+ "/data/")]
  | BadConfig _ bound => if bound then bound_events port else []
  | NoParameters =>
      bound_events port
      ++ [NewModel 0 None; LoadModel (agent_dir +:+ "/model/") false;
          Log ERROR ("Evaluation: no trained parameters in " +:+ agent_dir +:+ "/model/")]
  | Ready =>
      bound_events port
      ++ [NewModel 0 None; LoadModel (agent_dir +:+ "/model/") true;
          Print ("agent " +:+ agent); Print "env.agent ";
          EvalOutput agent output_dir policy_type]
  end.

(** The traceback the thread prints when an exception ends the task. *)
Definition crash_report (v : verdict) : list event :=
  match v with
  | BadConfig e _ => [Uncaught e]
  | _ => []
  end.


(** ** Configurations *)

(** The configuration file is missing or malformed, or lacks one of the
    sections that [train] reads. *)
Definition config_broken (w : world) (path : string) : Prop :=
  match fs_conf w !! path with
  | None | Some None => True
  | Some (Some c) =>
      c !! "ENV_CONFIG" = None \/ c !! "TRAIN_CONFIG" = None
      \/ c !! "MODEL_CONFIG" = None
  end.

Section PlatformVocabulary.
Context `{Platform}.

(** The float that [getfloat] reads under a key (in lower case) of
    [TRAIN_CONFIG]: the value stored there, interpolated, as [float] reads
    it. *)
Definition reads_float (cfg : config) (key : string) (x : float) : Prop :=
  exists sec text value,
    cfg !! "TRAIN_CONFIG" = Some sec /\ sec !! key = Some text
    /\ interpolate sec text = inr value
    /\ py_float value = Some x.

(** A broken configuration ends the run with the directories on the disk
    as they were and no simulator port bound. *)
Definition aborts_before_resources (a : train_args) (w : world) : Prop :=
  config_broken w (tr_config_dir a) ->
  fs_dirs (train a w).2 = fs_dirs w
  /\ forall p, EnvBind p ∈ trace (train a w).2 -> EnvBind p ∈ trace w.

End PlatformVocabulary.

(** ** Strings *)

(** [c.join(l)] for a one-character [c]: what [split] undoes. *)
Fixpoint str_join (c : Ascii.ascii) (l : list string) : string :=
  match l with
  | [] => EmptyString
  | [piece] => piece
  | piece :: rest => piece +:+ String c (str_join c rest)
  end.

(** How often the character occurs in the string. *)
Fixpoint count_char (c : Ascii.ascii) (s : string) : nat :=
  match s with
  | EmptyString => 0%nat
  | String a rest => ((if Ascii.eqb a c then 1 else 0) + count_char c rest)%nat
  end.

(** ** Traces by thread *)

(** The events of the workers 0 to [n - 1], worker by worker. *)
Definition threads_part (n : nat) (l : list event) : list event :=
  flat_map (fun i => map (InThread i) (thread_events i l)) (seq 0 n).

(** ** Resources *)

(** What a run takes or makes, by the kind of event that does it. *)
Inductive resource :=
| SnapshotOfConfig
| SimulatorPort
| StepCounter
| ModelBuilt
| LogWriter
| OfflinePass
| ModelSaved.

Definition uses (k : resource) (e : event) : bool :=
  match k, e with
  | SnapshotOfConfig, CopyFile _ _
  | SimulatorPort, EnvBind _
  | StepCounter, NewCounter _
  | ModelBuilt, NewModel _ _
  | LogWriter, SummaryWriter _
  | OfflinePass, OfflineTest _ _
  | ModelSaved, SaveModel _ _ => true
  | _, _ => false
  end.

(** How many events of a trace satisfy [p]. *)
Definition count_events (p : event -> bool) (l : list event) : nat :=
  length (filter (fun e => p e = true) l).

(** ** Training runs *)

(** The exceptions that can end a training run. *)
Definition train_failure (a : train_args) (e : exn) : Prop :=
  e = CopyError (tr_config_dir a)
  \/ e = ReadError (tr_config_dir a)
  \/ (e = InvalidModeError (tr_test_mode a) /\ tr_test_mode a ∉ test_mode_choices)
  \/ e = KeyError "ENV_CONFIG"
  \/ e = NoSectionError "TRAIN_CONFIG"
  \/ (exists key, key ∈ ["total_step"; "test_interval"; "log_interval"]
                  /\ e = NoOptionError key "TRAIN_CONFIG")
  \/ (exists failure key section, e = InterpolationError failure key section)
  \/ (exists text, e = ValueError text)
  \/ e = OverflowError
  \/ e = NoOptionError "seed" "ENV_CONFIG"
  \/ e = KeyError "MODEL_CONFIG".

Section TrainVocabulary.
Context `{Platform}.

(** The integer that [int(config.getfloat('TRAIN_CONFIG', key))] gives. *)
Definition reads_step (cfg : config) (key : string) (n : Z) : Prop :=
  exists x, reads_float cfg key x /\ int_of_float x = Ok n.

(** The integer that [config.getint('ENV_CONFIG', 'seed')] gives. *)
Definition reads_seed (cfg : config) (seed : Z) : Prop :=
  exists env text value,
    cfg !! "ENV_CONFIG" = Some env /\ env !! "seed" = Some text
    /\ interpolate env text = inr value
    /\ py_int value = Some seed.

(** What [train] needs to go through: the configuration file parses and
    has the three sections, the schedule options are finite numbers, the
    seed is an integer, and the test mode is one of the four. *)
Definition train_ready (a : train_args) (w : world) (in_test post_test : bool)
    (total test log seed : Z) : Prop :=
  exists cfg,
    fs_conf w !! tr_config_dir a = Some (Some cfg)
    /\ init_test_flag (tr_test_mode a) = Ok (in_test, post_test)
    /\ reads_step cfg "total_step" total
    /\ reads_step cfg "test_interval" test
    /\ reads_step cfg "log_interval" log
    /\ reads_seed cfg seed
    /\ is_Some (cfg !! "MODEL_CONFIG").

End TrainVocabulary.

(** The events of a training run that goes through, the directories that
    [init_dir] had to make given. *)
Definition train_events (a : train_args) (created : list string)
    (in_test post_test : bool) (total test log seed : Z) : list event :=
  let base := tr_base_dir a in
  let c0 := Counter.init total test log in
  let fuel := Z.to_nat (Counter.total_step c0 - Counter.cur_step c0) in
  let final := loop_final fuel c0 in
  map Mkdir created
  ++ [LogInit (role_path base "log");
      CopyFile (tr_config_dir a)
        (role_path base "data" +:+ "/"
         +:+ last_piece (str_split "/"%char (tr_config_dir a)));
      EnvBind 1;
      Log INFO "Training: s dim, a dim, s dim ls, a dim ls";
      NewCounter c0;
      NewModel total (Some seed);
      SummaryWriter (role_path base "log")]
  ++ loop_events fuel in_test c0
  ++ (if post_test then [OfflineTest (role_path base "data") final] else [])
  ++ [Log INFO ("Training: save final model at step "
                +:+ pretty (Counter.cur_step final) +:+ " ...");
      SaveModel (role_path base "model") (Counter.cur_step final)].

(** ** Tasks and kinds of runs *)

(** What a task needs to go through: the agent directory, a
    configuration file in its data directory that parses and has the two
    sections, and parameters to load. *)
Definition task_ready (w : world) (agent_dir : string) : Prop :=
  is_Some (fs_dirs w !! agent_dir)
  /\ (exists path c,
        find_config w (agent_dir +:+ "/data/") = Some path
        /\ fs_conf w !! path = Some (Some c)
        /\ is_Some (c !! "ENV_CONFIG") /\ is_Some (c !! "MODEL_CONFIG"))
  /\ agent_dir +:+ "/model/" ∈ fs_ckpt w.

(** Events that only training gives rise to, and events that only an
    evaluation does. *)
Definition of_training (e : event) : bool :=
  match e with
  | CopyFile _ _ | NewCounter _ | SummaryWriter _ | TrainStep _ | InLoopTest _
  | OfflineTest _ _ | SaveModel _ _ => true
  | _ => false
  end.

Definition of_evaluation (e : event) : bool :=
  match e with
  | LoadModel _ _ | EvalOutput _ _ _ | ThreadNew _ _ _ | ThreadStart _
  | ThreadJoin _ | InThread _ _ | Uncaught _ => true
  | _ => false
  end.

(** No training event, in the main thread or inside a worker. *)
Definition no_training (e : event) : bool :=
  match e with
  | InThread _ e' => negb (of_training e')
  | _ => negb (of_training e)
  end.

(** * Proofs *)

(** ** Properties of the step counter *)

Section CounterFacts.

Import Counter.

Lemma advance_total c : total_step (snd (advance c)) = total_step c.
Proof. unfold advance. destruct (cur_step c =? total_step c); reflexivity. Qed.

Lemma advance_returns_cur c : fst (advance c) = cur_step (snd (advance c)).
Proof. unfold advance. destruct (cur_step c =? total_step c); reflexivity. Qed.

Lemma advance_cur_below c :
  cur_step c <= total_step c ->
  cur_step (snd (advance c)) = Z.min (cur_step c + 1) (total_step c).
Proof.
  intros Hle. unfold advance.
  destruct (Z.eqb_spec (cur_step c) (total_step c)); simpl; lia.
Qed.

Lemma advances_total n : forall c, total_step (advances n c) = total_step c.
Proof.
  induction n as [|n IH]; intros c; simpl; [reflexivity|].
  rewrite IH. apply advance_total.
Qed.

Lemma advances_cur n : forall c,
  cur_step c <= total_step c ->
  cur_step (advances n c) = Z.min (cur_step c + Z.of_nat n) (total_step c).
Proof.
  induction n as [|n IH]; intros c Hle.
  - simpl. lia.
  - cbn [advances]. rewrite IH.
    + rewrite advance_total, advance_cur_below by assumption. lia.
    + rewrite advance_total, advance_cur_below by assumption. lia.
Qed.

(** C1: a counter created with a positive budget never passes the budget
    and never goes back, however often [advance] is called: after [m]
    calls and after [n >= m] calls the current step has not decreased, it
    is at most [total_step], and [total_step] itself is untouched.  After
    [n] calls the step is [n] or, from then on, the budget: [advance]
    stays at the budget and does not wrap. *)
Theorem counter_monotone_bounded (total test log : Z) (m n : nat) :
  0 < total ->
  (m <= n)%nat ->
  let c0 := init total test log in
  cur_step (advances m c0) <= cur_step (advances n c0)
  /\ cur_step (advances n c0) <= total_step (advances n c0)
  /\ total_step (advances n c0) = total
  /\ 0 <= cur_step (advances m c0)
  /\ cur_step (advances n c0) = Z.min (Z.of_nat n) total
  /\ (cur_step (advances n c0) = total ->
      advance (advances n c0) = (total, advances n c0)).
Proof.
  intros Hpos Hmn c0.
  assert (H0 : cur_step c0 <= total_step c0) by (simpl; lia).
  rewrite !advances_total, !advances_cur by assumption.
  simpl. repeat (split; [lia|]).
  intros Hsat. unfold advance.
  rewrite advances_total, advances_cur by assumption. simpl.
  rewrite Hsat, Z.eqb_refl. reflexivity.
Qed.

End CounterFacts.

Lemma counter_monotone_bounded_witness :
  let c0 := Counter.init 3 2 1 in
  Counter.cur_step (Counter.advances 2 c0) <= Counter.cur_step (Counter.advances 7 c0)
  /\ Counter.cur_step (Counter.advances 7 c0) <= Counter.total_step (Counter.advances 7 c0)
  /\ Counter.total_step (Counter.advances 7 c0) = 3
  /\ 0 <= Counter.cur_step (Counter.advances 2 c0)
  /\ Counter.cur_step (Counter.advances 7 c0) = Z.min (Z.of_nat 7) 3
  /\ (Counter.cur_step (Counter.advances 7 c0) = 3 ->
      Counter.advance (Counter.advances 7 c0) = (3, Counter.advances 7 c0)).
Proof. apply (counter_monotone_bounded 3 2 1 2 7); lia. Defined.

(** ** The log and test schedule *)

Section ScheduleFacts.

Import Counter.

Lemma mod_zero_multiple (step interval : Z) :
  0 < interval -> (step mod interval = 0 <-> exists k, step = k * interval).
Proof.
  intros Hpos. split.
  - intros Hmod. exists (step / interval).
    pose proof (Z.div_mod step interval ltac:(lia)). lia.
  - intros [k ->]. apply Z.mod_mul. lia.
Qed.

(** C3: with positive intervals, [should_log] holds of a step exactly
    when the remainder of the step by the log interval is zero, and
    [should_test] likewise with the test interval; that is, exactly at
    the multiples of the interval.  In the run with a budget of 100, a
    test every 20 and a log line every 10, the steps that [advance]
    returns are 1 to 100, the test steps among them are 20, 40, 60, 80
    and 100, and the log steps are the multiples of 10. *)
Theorem should_log_test_schedule (c : t) (step : Z) :
  0 < log_step c ->
  0 < test_step c ->
  (should_log c step = true <-> step mod log_step c = 0)
  /\ (should_test c step = true <-> step mod test_step c = 0)
  /\ (should_log c step = true <-> exists k, step = k * log_step c)
  /\ (should_test c step = true <-> exists k, step = k * test_step c)
  /\ let c0 := init 100 20 10 in
     returned 100 c0 = map Z.of_nat (seq 1 100)
     /\ is_done (advances 99 c0) = false
     /\ is_done (advances 100 c0) = true
     /\ filter (fun s => should_test c0 s = true) (returned 100 c0)
        = [20; 40; 60; 80; 100]
     /\ filter (fun s => should_log c0 s = true) (returned 100 c0)
        = [10; 20; 30; 40; 50; 60; 70; 80; 90; 100]
     /\ (forall s, 1 <= s <= 100 ->
           (should_test c0 s = true <-> s ∈ [20; 40; 60; 80; 100]))
     /\ (forall s, should_log c0 s = true <-> exists k, s = k * 10).
Proof.
  intros Hlog Htest.
  assert (Hl : should_log c step = true <-> step mod log_step c = 0)
    by (unfold should_log; apply Z.eqb_eq).
  assert (Ht : should_test c step = true <-> step mod test_step c = 0)
    by (unfold should_test; apply Z.eqb_eq).
  split; [exact Hl|]. split; [exact Ht|].
  split; [rewrite Hl; apply mod_zero_multiple; exact Hlog|].
  split; [rewrite Ht; apply mod_zero_multiple; exact Htest|].
  cbv zeta.
  split; [vm_compute; reflexivity|].
  split; [vm_compute; reflexivity|].
  split; [vm_compute; reflexivity|].
  split; [vm_compute; reflexivity|].
  split; [vm_compute; reflexivity|].
  split.
  - intros s Hs. unfold should_test. cbn [test_step init].
    rewrite Z.eqb_eq, (mod_zero_multiple s 20) by lia.
    rewrite !elem_of_cons, elem_of_nil. split.
    + intros [k ->]. lia.
    + intros Hin. exists (s / 20).
      destruct Hin as [->|[->|[->|[->|[->|[]]]]]]; reflexivity.
  - intros s. unfold should_log. cbn [log_step init].
    rewrite Z.eqb_eq. apply mod_zero_multiple. lia.
Qed.

End ScheduleFacts.

Lemma should_log_test_schedule_witness :
  let c := Counter.init 100 20 10 in
  (Counter.should_log c 30 = true <-> 30 mod Counter.log_step c = 0)
  /\ (Counter.should_test c 30 = true <-> 30 mod Counter.test_step c = 0).
Proof.
  pose proof (should_log_test_schedule (Counter.init 100 20 10) 30
                ltac:(simpl; lia) ltac:(simpl; lia)) as (Hl & Ht & _).
  split; assumption.
Defined.

(** ** The test mode *)

Section TestMode.
Context `{Platform}.

Lemma init_test_flag_choice (mode : string) :
  mode ∈ test_mode_choices -> exists flags, init_test_flag mode = Ok flags.
Proof.
  unfold test_mode_choices. rewrite !elem_of_cons, elem_of_nil.
  intros [->|[->|[->|[->|[]]]]]; eexists; reflexivity.
Qed.

Lemma init_test_flag_other (mode : string) :
  mode ∉ test_mode_choices ->
  init_test_flag mode = Raise (InvalidModeError mode).
Proof.
  unfold test_mode_choices. rewrite !elem_of_cons, elem_of_nil.
  intros Hnot. unfold init_test_flag.
  repeat match goal with
         | |- context [String.eqb mode ?s] =>
             destruct (String.eqb_spec mode s) as [->|_]; [exfalso; tauto|]
         end.
  reflexivity.
Qed.

(** C2: [init_test_flag] maps [no_test], [in_train_test],
    [after_train_test] and [all_test] to (false, false), (true, false),
    (false, true) and (true, true); it returns on each of the four and
    fails on every other string.  A [--test-mode] outside the four is
    turned down by [parse_args]: [main] exits with status 2 and leaves
    the world as it found it, no directory made, no event, no port. *)
Theorem test_mode_resolved (mode : string) :
  init_test_flag "no_test" = Ok (false, false)
  /\ init_test_flag "in_train_test" = Ok (true, false)
  /\ init_test_flag "after_train_test" = Ok (false, true)
  /\ init_test_flag "all_test" = Ok (true, true)
  /\ (mode ∈ test_mode_choices ->
      (exists flags, init_test_flag mode = Ok flags)
      /\ forall base cfg, exists a,
           parse_args (train_command base mode cfg) = Ok (ArgsTrain a)
           /\ tr_test_mode a = mode)
  /\ (mode ∉ test_mode_choices ->
      init_test_flag mode = Raise (InvalidModeError mode)
      /\ forall base cfg sched w,
           parse_args (train_command base mode cfg) = Raise (SystemExit 2)
           /\ main sched (train_command base mode cfg) w
              = (Raise (SystemExit 2), w)).
Proof.
  repeat (split; [reflexivity|]).
  split.
  - intros Hin. split; [apply init_test_flag_choice, Hin|].
    intros base cfg. unfold parse_args, train_command. cbn.
    rewrite bool_decide_eq_true_2 by exact Hin.
    eexists. split; reflexivity.
  - intros Hnot. split; [apply init_test_flag_other, Hnot|].
    intros base cfg sched w.
    assert (Hp : parse_args (train_command base mode cfg) = Raise (SystemExit 2)).
    { unfold parse_args, train_command. cbn.
      rewrite bool_decide_eq_false_2 by exact Hnot. reflexivity. }
    split; [exact Hp|].
    unfold main, lift, mbind, M_bind. rewrite Hp. reflexivity.
Qed.

End TestMode.

Lemma test_mode_resolved_witness :
  init_test_flag "all_test" = Ok (true, true)
  /\ init_test_flag "every_test" = Raise (InvalidModeError "every_test")
  /\ main (H := Sample.strict) [] (train_command None "every_test" None)
       (Sample.disk ∅)
     = (Raise (SystemExit 2), Sample.disk ∅).
Proof.
  pose proof (test_mode_resolved (H := Sample.strict) "every_test")
    as (_ & _ & _ & Hall & _ & Hbad).
  split; [exact Hall|].
  assert (Hnot : "every_test" ∉ test_mode_choices)
    by (apply (bool_decide_unpack _); vm_compute; exact I).
  destruct (Hbad Hnot) as [Hflag Hmain].
  split; [exact Hflag|].
  apply (Hmain None None [] (Sample.disk ∅)).
Defined.

(** ** Floats and their integer part *)

Lemma integer_part_unique (n n' num den : Z) :
  0 < den -> integer_part n num den -> integer_part n' num den -> n = n'.
Proof.
  unfold integer_part. intros Hden [[H1 H2] H3] [[H1' H2'] H3'].
  assert (Hlt : Z.abs n < Z.abs n' + 1).
  { apply (Z.mul_lt_mono_pos_r den); lia. }
  assert (Hlt' : Z.abs n' < Z.abs n + 1).
  { apply (Z.mul_lt_mono_pos_r den); lia. }
  assert (Habs : Z.abs n = Z.abs n') by lia.
  destruct (Z.lt_trichotomy num 0) as [Hnum|[->|Hnum]].
  - assert (n <= 0) by nia. assert (n' <= 0) by nia. lia.
  - assert (Z.abs n * den <= 0) by (simpl in H1; lia).
    assert (Z.abs n = 0) by nia. lia.
  - assert (0 <= n) by nia. assert (0 <= n') by nia. lia.
Qed.

Lemma integer_part_quot (num den : Z) :
  0 < den -> integer_part (num ÷ den) num den.
Proof.
  intros Hden. unfold integer_part.
  pose proof (Z.quot_rem' num den) as Hqr.
  destruct (Z.le_gt_cases 0 num) as [Hpos|Hneg].
  - pose proof (Z.rem_bound_pos num den Hpos Hden) as Hr.
    pose proof (Z.quot_pos num den Hpos Hden) as Hq.
    set (q := num ÷ den) in *. set (r := Z.rem num den) in *.
    clearbody q r.
    rewrite (Z.abs_eq q), (Z.abs_eq num) by lia.
    split; [lia|]. apply Z.mul_nonneg_nonneg; lia.
  - pose proof (Z.rem_bound_pos_neg num den ltac:(lia) ltac:(lia)) as Hr.
    assert (Hq : num ÷ den <= 0).
    { rewrite <- (Z.opp_involutive num), Z.quot_opp_l by lia.
      pose proof (Z.quot_pos (- num) den ltac:(lia) Hden) as Hq'.
      set (q' := - num ÷ den) in *. clearbody q'. lia. }
    set (q := num ÷ den) in *. set (r := Z.rem num den) in *.
    clearbody q r.
    rewrite (Z.abs_neq q), (Z.abs_neq num) by lia.
    split; [lia|]. apply Z.mul_nonpos_nonpos; lia.
Qed.

Lemma int_of_float_finite (x : float) (num den : Z) :
  float_fraction x = Some (num, den) ->
  0 < den /\ int_of_float x = Ok (num ÷ den).
Proof.
  unfold float_fraction, int_of_float.
  destruct (Prim2SF x) as [s| s | |s m e]; try discriminate.
  - intros [= <- <-]. split; [lia|reflexivity].
  - destruct (Z.leb_spec 0 e) as [He|He]; intros [= <- <-].
    + split; [lia|]. rewrite Z.quot_1_r, Z.shiftl_mul_pow2 by lia.
      destruct s; f_equal; lia.
    + assert (Hden : 0 < 2 ^ (- e)) by (apply Z.pow_pos_nonneg; lia).
      split; [exact Hden|].
      rewrite Z.shiftl_div_pow2 by lia.
      destruct s; f_equal.
      * change (Z.neg m) with (- Z.pos m).
        rewrite Z.quot_opp_l by lia.
        rewrite Z.quot_div_nonneg by lia. reflexivity.
      * rewrite Z.quot_div_nonneg by lia. reflexivity.
Qed.

(** ** Running a computation step by step *)

Lemma wp_bind {A B} (m : M A) (f : A -> M B) w Q :
  wp m w (fun r w1 => match r with
                      | Ok a => wp (f a) w1 Q
                      | Raise e => Q (Raise e) w1
                      end) ->
  wp (m ≫= f) w Q.
Proof. unfold wp, mbind, M_bind. destruct (m w) as [[a|e] w1]; simpl; auto. Qed.

Lemma init_dir_roles_run (roles : list string) : forall base w,
  exists d created,
    init_dir_roles base roles w
    = (Ok (dirs_of base roles),
       {| fs_dirs := d; fs_conf := fs_conf w; fs_ckpt := fs_ckpt w;
          trace := trace w ++ map Mkdir created |})
    /\ fs_dirs w ⊆ d
    /\ (forall role, role ∈ roles -> is_Some (d !! role_path base role))
    /\ (forall p, p ∈ created ->
          fs_dirs w !! p = None /\ p ∈ map (role_path base) roles).
Proof.
  induction roles as [|role rest IH]; intros base w.
  - exists (fs_dirs w), []. cbn. rewrite app_nil_r. destruct w; cbn.
    split; [reflexivity|]. split; [reflexivity|].
    split; intros ? Hin; inversion Hin.
  - cbn [init_dir_roles]. unfold mbind, M_bind, get_world at 1. cbn beta iota.
    destruct (decide (is_Some (fs_dirs w !! role_path base role))) as [Hex|Hnew].
    + cbn. destruct (IH base w) as (d & created & Hrun & Hsub & Hroles & Hcreated).
      rewrite Hrun. exists d, created.
      split; [reflexivity|]. split; [exact Hsub|]. split.
      * intros r [->|Hin]%elem_of_cons; [|auto].
        destruct Hex as [x Hx]. exists x. eapply lookup_weaken; eauto.
      * intros p Hp. destruct (Hcreated p Hp). split; [done|].
        cbn. apply elem_of_cons; auto.
    + cbn.
      set (w1 := {| fs_dirs := <[role_path base role:=[]]> (fs_dirs w) |}).
      destruct (IH base w1) as (d & created & Hrun & Hsub & Hroles & Hcreated).
      rewrite Hrun. exists d, (role_path base role :: created).
      assert (Hnone : fs_dirs w !! role_path base role = None).
      { destruct (fs_dirs w !! role_path base role) eqn:E; [|done].
        exfalso. apply Hnew. eauto. }
      split; [cbn; rewrite <- app_assoc; reflexivity|].
      split; [etrans; [|exact Hsub]; cbn; by apply insert_subseteq|].
      split.
      * intros r [->|Hin]%elem_of_cons; [|auto].
        exists []. eapply lookup_weaken; [|exact Hsub]. cbn. apply lookup_insert_eq.
      * intros p [->|Hp]%elem_of_cons; [split; [done|cbn; apply elem_of_cons; auto]|].
        destruct (Hcreated p Hp) as [Hn Hin]. cbn in Hn.
        split; [|cbn; apply elem_of_cons; auto].
        destruct (decide (role_path base role = p)) as [<-|Hne]; [done|].
        by rewrite lookup_insert_ne in Hn.
Qed.

Lemma init_dir_run base roles w :
  exists d created,
    init_dir base roles w
    = (Ok (dirs_of base (default default_pathes roles)),
       {| fs_dirs := d; fs_conf := fs_conf w; fs_ckpt := fs_ckpt w;
          trace := trace w ++ map Mkdir created |})
    /\ fs_dirs w ⊆ d
    /\ (forall role, role ∈ default default_pathes roles ->
          is_Some (d !! role_path base role))
    /\ (forall p, p ∈ created ->
          fs_dirs w !! p = None
          /\ p ∈ map (role_path base) (default default_pathes roles)).
Proof. apply init_dir_roles_run. Qed.

Lemma trainer_loop_run fuel in_test : forall c w,
  trainer_loop fuel in_test c w
  = (Ok (loop_final fuel c),
     {| fs_dirs := fs_dirs w; fs_conf := fs_conf w; fs_ckpt := fs_ckpt w;
        trace := trace w ++ loop_events fuel in_test c |}).
Proof.
  induction fuel as [|fuel IH]; intros c w.
  - cbn. destruct (Counter.is_done c); cbn; rewrite app_nil_r; destruct w; reflexivity.
  - cbn [trainer_loop loop_events loop_final].
    destruct (Counter.is_done c); [cbn; rewrite app_nil_r; destruct w; reflexivity|].
    destruct (Counter.advance c) as [step c'] eqn:Hadv. cbn [snd].
    unfold mbind, M_bind. cbn.
    destruct (in_test && Counter.should_test c' step); cbn; rewrite IH; cbn;
      rewrite <- !app_assoc; reflexivity.
Qed.

Lemma wp_ret {A} (a : A) w Q : Q (Ok a) w -> wp (mret a) w Q.
Proof. exact id. Qed.

Lemma wp_raise {A} e w (Q : result A -> world -> Prop) :
  Q (Raise e) w -> wp (raise e) w Q.
Proof. exact id. Qed.

Lemma wp_lift {A} (r : result A) w Q : Q r w -> wp (lift r) w Q.
Proof. exact id. Qed.

Lemma wp_emit e w Q : Q (Ok tt) (add_events w [e]) -> wp (emit e) w Q.
Proof. exact id. Qed.

Lemma wp_getitem {V} (d : gmap string V) k w Q :
  match d !! k with
  | Some v => Q (Ok v) w
  | None => Q (Raise (KeyError k)) w
  end ->
  wp (getitem d k) w Q.
Proof. unfold wp, getitem. destruct (d !! k); exact id. Qed.

Lemma wp_init_dir base roles w Q :
  (forall d created,
     fs_dirs w ⊆ d ->
     (forall role, role ∈ default default_pathes roles ->
                   is_Some (d !! role_path base role)) ->
     Q (Ok (dirs_of base (default default_pathes roles)))
       {| fs_dirs := d; fs_conf := fs_conf w; fs_ckpt := fs_ckpt w;
          trace := trace w ++ map Mkdir created |}) ->
  wp (init_dir base roles) w Q.
Proof.
  intros HQ. unfold wp.
  destruct (init_dir_run base roles w) as (d & created & -> & Hsub & Hroles & _).
  apply HQ; assumption.
Qed.

Lemma wp_config_read path w Q :
  match fs_conf w !! path with
  | None => Q (Ok ∅) w
  | Some None => Q (Raise (ReadError path)) w
  | Some (Some c) => Q (Ok c) w
  end ->
  wp (config_read path) w Q.
Proof.
  unfold wp, config_read, mbind, M_bind, get_world.
  destruct (fs_conf w !! path) as [[c|]|]; exact id.
Qed.

Lemma wp_init_env cfg port naive w Q :
  Q (Ok ({| env_port := default 1 port; env_agent := "";
            env_node_names := []; env_nodes := [] |},
         if default false naive
         then Some {| ctl_node_names := []; ctl_nodes := [] |} else None))
    (add_events w [EnvBind (default 1 port)]) ->
  wp (init_env cfg port naive) w Q.
Proof.
  unfold wp, init_env. destruct (default false naive); exact id.
Qed.

Lemma wp_trainer_run env m c in_test path w Q :
  Q (Ok (loop_final (Z.to_nat (Counter.total_step c - Counter.cur_step c)) c))
    (add_events w (loop_events (Z.to_nat (Counter.total_step c - Counter.cur_step c))
                     in_test c)) ->
  wp (trainer_run env m c in_test path) w Q.
Proof. unfold wp, trainer_run. rewrite trainer_loop_run. exact id. Qed.

Section WpPlatform.
Context `{Platform}.

Lemma wp_copy_file src dst_dir w Q :
  match fs_conf w !! src with
  | Some content =>
      let name := last_piece (str_split "/"%char src) in
      let dst := dst_dir +:+ "/" +:+ name in
      Q (Ok tt)
        {| fs_dirs := alter (fun names => names ++ [name]) dst_dir (fs_dirs w);
           fs_conf := <[dst := content]> (fs_conf w);
           fs_ckpt := fs_ckpt w;
           trace := trace w ++ [CopyFile src dst] |}
  | None =>
      if copy_missing_raises then Q (Raise (CopyError src)) w else Q (Ok tt) w
  end ->
  wp (copy_file src dst_dir) w Q.
Proof.
  unfold wp, copy_file, mbind, M_bind, get_world.
  destruct (fs_conf w !! src); [exact id|].
  destruct copy_missing_raises; exact id.
Qed.

Lemma wp_config_get c section option w Q :
  match c !! section with
  | None => Q (Raise (NoSectionError section)) w
  | Some sec =>
      match sec !! str_lower option with
      | None => Q (Raise (NoOptionError (str_lower option) section)) w
      | Some text =>
          match interpolate sec text with
          | inr value => Q (Ok value) w
          | inl failure =>
              Q (Raise (InterpolationError failure (str_lower option) section)) w
          end
      end
  end ->
  wp (config_get c section option) w Q.
Proof.
  unfold wp, config_get. destruct (c !! section) as [sec|]; [|exact id].
  destruct (sec !! str_lower option) as [text|]; [|exact id].
  destruct (interpolate sec text); exact id.
Qed.

Lemma wp_getfloat c section option w Q :
  wp (config_get c section option) w
     (fun r w1 => match r with
                  | Ok text => match py_float text with
                               | Some x => Q (Ok x) w1
                               | None => Q (Raise (ValueError text)) w1
                               end
                  | Raise e => Q (Raise e) w1
                  end) ->
  wp (getfloat c section option) w Q.
Proof.
  unfold wp, getfloat, mbind, M_bind.
  destruct (config_get c section option w) as [[text|e] w1]; cbn; [|exact id].
  destruct (py_float text); exact id.
Qed.

Lemma wp_getint c section option w Q :
  wp (config_get c section option) w
     (fun r w1 => match r with
                  | Ok text => match py_int text with
                               | Some x => Q (Ok x) w1
                               | None => Q (Raise (ValueError text)) w1
                               end
                  | Raise e => Q (Raise e) w1
                  end) ->
  wp (getint c section option) w Q.
Proof.
  unfold wp, getint, mbind, M_bind.
  destruct (config_get c section option w) as [[text|e] w1]; cbn; [|exact id].
  destruct (py_int text); exact id.
Qed.

End WpPlatform.

Ltac wp_norm :=
  cbn [fs_dirs fs_conf fs_ckpt trace add_events with_trace fst snd negb];
  rewrite <- ?app_assoc; cbn [app].

(** The option names of [main.py] are in lower case already. *)
Ltac lower_names :=
  repeat match goal with
         | |- context [str_lower ?name] =>
             let lowered := eval vm_compute in (str_lower name) in
             change (str_lower name) with lowered
         end.

Ltac wp_step :=
  lazymatch goal with
  | |- wp (mbind _ _) _ _ => apply wp_bind
  | |- wp (mret _) _ _ => apply wp_ret
  | |- wp (raise _) _ _ => apply wp_raise
  | |- wp (lift _) _ _ => apply wp_lift
  | |- wp (emit _) _ _ => apply wp_emit
  | |- wp (logging_info _) _ _ => apply wp_emit
  | |- wp (logging_error _) _ _ => apply wp_emit
  | |- wp (print _) _ _ => apply wp_emit
  | |- wp (init_log _) _ _ => apply wp_emit
  | |- wp (MA2C _ _ _) _ _ => unfold MA2C
  | |- wp (model_save _ _ _) _ _ => apply wp_emit
  | |- wp (tester_run_offline _ _ _ _) _ _ => apply wp_emit
  | |- wp (getitem _ _) _ _ => apply wp_getitem
  | |- wp (init_dir _ _) _ _ => apply wp_init_dir; intros ? ? ? ?
  | |- wp (config_read _) _ _ => apply wp_config_read
  | |- wp (init_env _ _ _) _ _ => apply wp_init_env
  | |- wp (trainer_run _ _ _ _ _) _ _ => apply wp_trainer_run
  | |- wp (copy_file _ _) _ _ => apply wp_copy_file
  | |- wp (config_get _ _ _) _ _ => apply wp_config_get; lower_names
  | |- wp (getfloat _ _ _) _ _ => apply wp_getfloat
  | |- wp (getint _ _ _) _ _ => apply wp_getint
  | |- wp (if ?b then _ else _) _ _ => destruct b eqn:?
  | |- wp (let '(_, _) := ?p in _) _ _ => destruct p eqn:?
  | |- match ?x with _ => _ end => destruct x eqn:?
  | |- if ?x then _ else _ => destruct x eqn:?
  end; wp_norm.

(** ** The harness: what holds at every point of every schedule *)

Lemma main_events_app l1 l2 :
  main_events (l1 ++ l2) = main_events l1 ++ main_events l2.
Proof. apply filter_app. Qed.

Lemma thread_events_app i l1 l2 :
  thread_events i (l1 ++ l2) = thread_events i l1 ++ thread_events i l2.
Proof. apply omap_app. Qed.

Lemma enumerate_from_lookup {A} (l : list A) : forall k i,
  enumerate_from k l !! i = (fun x => ((k + i)%nat, x)) <$> l !! i.
Proof.
  induction l as [|x l IH]; intros k i; [reflexivity|].
  destruct i as [|i]; cbn.
  - by rewrite Nat.add_0_r.
  - rewrite IH. by rewrite Nat.add_succ_r.
Qed.

Lemma enumerate_lookup {A} (l : list A) i :
  enumerate l !! i = (fun x => (i, x)) <$> l !! i.
Proof. apply (enumerate_from_lookup l 0%nat i). Qed.

Lemma enumerate_from_length {A} (l : list A) : forall k,
  length (enumerate_from k l) = length l.
Proof. induction l as [|x l IH]; intros k; cbn; [reflexivity|by rewrite IH]. Qed.

Lemma enumerate_length {A} (l : list A) : length (enumerate l) = length l.
Proof. apply enumerate_from_length. Qed.

Section HarnessFacts.
Variable w : world.
Variables base_dir output_dir policy_type : string.
Variable agents : list string.

Local Abbreviation inv := (hinv w base_dir output_dir policy_type agents).
Local Abbreviation step := (hstep w base_dir output_dir policy_type).
Local Abbreviation run := (hrun w base_dir output_dir policy_type).
Local Abbreviation to_go := (remaining w base_dir output_dir policy_type).
Local Abbreviation run_on := (finish w base_dir output_dir policy_type).

Lemma hinv_init : inv (harness_init agents).
Proof.
  split; cbn.
  - intros i t Hi. by rewrite lookup_nil in Hi.
  - reflexivity.
  - split; reflexivity.
Qed.

Lemma spawn_events_snoc ias ia :
  spawn_events base_dir (ias ++ [ia])
  = spawn_events base_dir ias ++ [Print ("agent " +:+ ia.2);
                         ThreadNew ia.1 (base_dir +:+ "/" +:+ ia.2) (Z.of_nat ia.1);
                         ThreadStart ia.1].
Proof. unfold spawn_events. rewrite flat_map_app. reflexivity. Qed.

Lemma hinv_main s s' : inv s -> step RunMain s = Some s' -> inv s'.
Proof.
  intros [Hpool Hfresh Hpc] Hstep. unfold hstep in Hstep.
  destruct (pc s) as [[|[i agent] rest]|k|] eqn:Hpcs.
  - (* the spawning loop is over *)
    injection Hstep as <-. destruct Hpc as [Hrest Hmain].
    assert (Hlen : length (pool s) = length agents).
    { symmetry in Hrest. apply drop_nil_inv in Hrest. rewrite enumerate_length in Hrest.
      assert (Hle : (length (pool s) <= length agents)%nat).
      { destruct (pool s) as [|t0 ts] eqn:Hp using rev_ind; [cbn; lia|].
        rewrite length_app. cbn.
        destruct (Hpool (length ts) t0) as (agent & Hag & _).
        { by rewrite lookup_app_r, Nat.sub_diag. }
        apply lookup_lt_Some in Hag. lia. }
      lia. }
    split; cbn [pc pool out]; [exact Hpool|exact Hfresh|].
    split; [exact Hlen|]. split; [lia|]. split; [intros j t Hj; lia|].
    rewrite Hmain, Hlen, app_nil_r. rewrite take_ge; [reflexivity|].
    rewrite enumerate_length. lia.
  - (* one more thread is created and started *)
    injection Hstep as <-. destruct Hpc as [Hrest Hmain].
    assert (Hlk : enumerate agents !! length (pool s) = Some (i, agent)).
    { rewrite <- (Nat.add_0_r (length (pool s))), <- lookup_drop, <- Hrest. reflexivity. }
    assert (Hia : agents !! length (pool s) = Some agent /\ i = length (pool s)).
    { rewrite enumerate_lookup in Hlk.
      destruct (agents !! length (pool s)); inversion Hlk; subst; auto. }
    destruct Hia as [Hagent ->].
    split; cbn [pc pool out].
    + intros j t Hj.
      rewrite !thread_events_app. cbn. rewrite app_nil_r.
      destruct (decide (j < length (pool s))%nat) as [Hlt|Hge].
      * rewrite lookup_app_l in Hj by exact Hlt. apply Hpool, Hj.
      * rewrite lookup_app_r in Hj by lia.
        destruct (j - length (pool s))%nat as [|n] eqn:Hn; [|discriminate Hj].
        assert (j = length (pool s)) as -> by lia.
        injection Hj as <-. cbn. exists agent.
        rewrite Hfresh by lia. auto.
    + intros j Hj. rewrite length_app in Hj. cbn in Hj.
      rewrite thread_events_app. cbn. rewrite Hfresh by lia. reflexivity.
    + rewrite length_app. cbn. rewrite Nat.add_1_r. split.
      * apply (drop_S _ _ _) in Hlk. rewrite <- Hrest in Hlk. by injection Hlk.
      * rewrite main_events_app, Hmain. erewrite take_S_r by exact Hlk.
        rewrite spawn_events_snoc. reflexivity.
  - (* join *)
    destruct Hpc as (Hlen & Hk & Hdone & Hmain).
    destruct (pool s !! k) as [t|] eqn:Hlk.
    + destruct (th_pending t) eqn:Hpend; [|discriminate].
      injection Hstep as <-. split; cbn [pc pool out].
      * intros j t' Hj. rewrite thread_events_app. cbn. rewrite app_nil_r. apply Hpool, Hj.
      * intros j Hj. rewrite thread_events_app. cbn. rewrite Hfresh by exact Hj. reflexivity.
      * split; [exact Hlen|]. apply lookup_lt_Some in Hlk as Hklt.
        split; [lia|]. split.
        -- intros j t' Hj Hjt. destruct (decide (j = k)) as [->|Hne].
           ++ rewrite Hlk in Hjt. injection Hjt as <-. exact Hpend.
           ++ apply (Hdone j); [lia|exact Hjt].
        -- rewrite main_events_app, Hmain. rewrite seq_S, map_app, app_assoc. reflexivity.
    + injection Hstep as <-. apply lookup_ge_None in Hlk.
      assert (k = length agents) as -> by lia.
      split; cbn [pc pool out]; [exact Hpool|exact Hfresh|].
      split; [exact Hlen|]. split; [|exact Hmain].
      intros j t Hj. apply (Hdone j); [|exact Hj].
      apply lookup_lt_Some in Hj. lia.
  - discriminate.
Qed.

Lemma thread_events_own i e : thread_events i [InThread i e] = [e].
Proof. unfold thread_events. cbn. by rewrite decide_True. Qed.

Lemma thread_events_other i j e : i <> j -> thread_events j [InThread i e] = [].
Proof. intros Hne. unfold thread_events. cbn. by rewrite decide_False. Qed.

Lemma hinv_worker i s s' :
  inv s -> step (RunWorker i) s = Some s' -> inv s'.
Proof.
  intros [Hpool Hfresh Hpc] Hstep. unfold hstep in Hstep.
  destruct (pool s !! i) as [t|] eqn:Hlk; [|discriminate].
  destruct (th_pending t) as [|e rest] eqn:Hpend; [discriminate|].
  injection Hstep as <-.
  apply lookup_lt_Some in Hlk as Hilt.
  assert (Hother : forall j t', j <> i ->
            <[i:=finish_one t rest]> (pool s) !! j = Some t' -> pool s !! j = Some t').
  { intros j t' Hne Hj. by rewrite list_lookup_insert_ne in Hj. }
  assert (Hbusy : forall t', pool s !! i = Some t' -> ~ finished t').
  { intros t' Ht'. rewrite Hlk in Ht'. injection Ht' as <-.
    unfold finished. rewrite Hpend. discriminate. }
  split; cbn [pc pool out].
  - intros j t' Hj. rewrite thread_events_app.
    destruct (decide (j = i)) as [->|Hne].
    + rewrite list_lookup_insert_eq in Hj by exact Hilt. injection Hj as <-.
      destruct (Hpool i t Hlk) as (agent & Hag & Hdir & Hport & Hscript).
      exists agent. cbn [th_agent_dir th_port th_pending finish_one].
      rewrite thread_events_own, <- app_assoc. cbn [app].
      rewrite Hpend in Hscript. auto.
    + rewrite thread_events_other, app_nil_r by auto.
      apply Hpool, Hother; assumption.
  - intros j Hj. rewrite length_insert in Hj.
    rewrite thread_events_app, thread_events_other by lia.
    rewrite Hfresh by exact Hj. reflexivity.
  - rewrite main_events_app, length_insert. cbn. rewrite app_nil_r.
    destruct (pc s) as [rest'|k|]; [exact Hpc| |].
    + destruct Hpc as (Hlen & Hk & Hdone & Hmain).
      repeat (split; [assumption|]). split; [|exact Hmain].
      intros j t' Hj Hjt. destruct (decide (j = i)) as [->|Hne].
      * exfalso. apply (Hbusy t Hlk). apply (Hdone i); assumption.
      * apply (Hdone j); [exact Hj|]. apply Hother; assumption.
    + destruct Hpc as (Hlen & Hdone & Hmain).
      exfalso. apply (Hbusy t Hlk). apply (Hdone i). exact Hlk.
Qed.

Lemma hinv_step ch s s' :
  inv s -> step ch s = Some s' -> inv s'.
Proof. destruct ch; [apply hinv_main|apply hinv_worker]. Qed.

Lemma hinv_hrun sched : forall s,
  inv s -> inv (run sched s).
Proof.
  induction sched as [|ch sched IH]; intros s Hs; [exact Hs|].
  cbn. apply IH.
  destruct (step ch s) as [s'|] eqn:Hstep; cbn.
  - eapply hinv_step; eassumption.
  - exact Hs.
Qed.

(** Every step brings the run one step closer to its end. *)
Lemma pending_total_insert ts i t e rest :
  ts !! i = Some t -> th_pending t = e :: rest ->
  pending_total ts = S (pending_total (<[i:=finish_one t rest]> ts)).
Proof.
  revert i. induction ts as [|t0 ts IH]; intros i Hi Hp; [discriminate|].
  destruct i as [|i]; cbn in *.
  - injection Hi as ->. unfold pending_total. cbn. rewrite Hp. reflexivity.
  - unfold pending_total in *. cbn. rewrite (IH i Hi Hp). rewrite Nat.add_succ_r. reflexivity.
Qed.

Lemma pending_total_snoc ts t :
  pending_total (ts ++ [t]) = (pending_total ts + length (th_pending t))%nat.
Proof.
  unfold pending_total. induction ts as [|t0 ts IH]; cbn.
  - rewrite Nat.add_0_r. reflexivity.
  - rewrite IH. rewrite Nat.add_assoc. reflexivity.
Qed.

Lemma remaining_step ch s s' :
  step ch s = Some s' ->
  to_go s
  = S (to_go s').
Proof.
  unfold hstep, remaining. destruct ch as [|i].
  - destruct (pc s) as [[|[i agent] rest]|k|] eqn:Hpcs.
    + intros [= <-]. cbn [pc pool length map sum_list]. lia.
    + intros [= <-]. cbn [pc pool]. rewrite pending_total_snoc, length_app.
      cbn [length map sum_list th_pending]. unfold script_len, id. cbn [fst snd]. lia.
    + destruct (pool s !! k) as [t|] eqn:Hlk.
      * destruct (th_pending t); [|discriminate]. intros [= <-]. cbn [pc pool].
        apply lookup_lt_Some in Hlk. lia.
      * intros [= <-]. cbn [pc pool]. apply lookup_ge_None in Hlk. lia.
    + discriminate.
  - destruct (pool s !! i) as [t|] eqn:Hlk; [|discriminate].
    destruct (th_pending t) as [|e rest] eqn:Hp; [discriminate|].
    intros [= <-]. cbn [pc pool]. rewrite length_insert.
    rewrite (pending_total_insert _ _ _ _ _ Hlk Hp). lia.
Qed.

(** With the main thread moving when it can and the awaited worker
    otherwise, the run comes to its end: no state is stuck before. *)
Lemma finish_returns fuel : forall s,
  inv s ->
  (to_go s <= fuel)%nat ->
  pc (run_on fuel s) = Returned
  /\ inv (run_on fuel s).
Proof.
  induction fuel as [|fuel IH]; intros s Hs Hrem.
  - cbn. split; [|exact Hs]. unfold remaining in Hrem.
    destruct (pc s); [lia|lia|reflexivity].
  - cbn [finish].
    destruct (step RunMain s) as [s'|] eqn:Hmain.
    + apply IH; [eapply hinv_step; eassumption|].
      apply remaining_step in Hmain. lia.
    + unfold hstep in Hmain.
      destruct (pc s) as [[|[i agent] rest]|k|] eqn:Hpcs; try discriminate.
      * destruct (pool s !! k) as [t|] eqn:Hlk; [|discriminate].
        destruct (th_pending t) as [|e rest] eqn:Hp; [discriminate|].
        assert (Hw : step (RunWorker k) s
                     = Some {| pc := pc s;
                               pool := <[k:=finish_one t rest]> (pool s);
                               out := out s ++ [InThread k e] |}).
        { unfold hstep. rewrite Hlk, Hp. reflexivity. }
        rewrite Hw. apply IH; [eapply hinv_step; eassumption|].
        apply remaining_step in Hw. lia.
      * split; [first [exact Hpcs|reflexivity]|exact Hs].
Qed.

End HarnessFacts.

(** ** One evaluation task *)

Lemma wp_check_dir cur_dir w Q :
  Q (Ok (bool_decide (is_Some (fs_dirs w !! cur_dir)))) w ->
  wp (check_dir cur_dir) w Q.
Proof. exact id. Qed.

Lemma wp_find_file cur_dir w Q :
  match find_config w cur_dir with
  | Some path => Q (Ok (Some path)) w
  | None =>
      Q (Ok None)
        (add_events w [Log ERROR ("Evaluation: no configuration file in " +:+ cur_dir)])
  end ->
  wp (find_file cur_dir) w Q.
Proof.
  unfold wp, find_file, find_config, mbind, M_bind, get_world.
  destruct (filter _ _); exact id.
Qed.

Lemma wp_model_load m model_dir w Q :
  (if decide (model_dir ∈ fs_ckpt w)
   then Q (Ok true) (add_events w [LoadModel model_dir true])
   else Q (Ok false)
          (add_events w [LoadModel model_dir false;
                         Log ERROR ("Evaluation: no trained parameters in " +:+ model_dir)])) ->
  wp (model_load m model_dir) w Q.
Proof.
  unfold wp, model_load, mbind, M_bind, get_world.
  destruct (decide (model_dir ∈ fs_ckpt w)); cbn.
  - exact id.
  - unfold add_events. cbn. rewrite <- app_assoc. exact id.
Qed.

Ltac wp_eval_step :=
  lazymatch goal with
  | |- wp (check_dir _) _ _ => apply wp_check_dir; wp_norm
  | |- wp (find_file _) _ _ => apply wp_find_file; wp_norm
  | |- wp (model_load _ _) _ _ => apply wp_model_load; wp_norm
  | |- wp (evaluator_run _ _ _ _) _ _ => apply wp_emit; wp_norm
  | |- _ => wp_step
  end.

Ltac world_eq :=
  split; [reflexivity|];
  unfold add_events, task_events, bound_events;
  cbn [fs_dirs fs_conf fs_ckpt trace app];
  rewrite <- ?app_assoc, ?app_nil_r; reflexivity.

Lemma evaluate_fn_run agent_dir output_dir port policy_type w :
  evaluate_fn agent_dir output_dir port policy_type w
  = (task_result (task_verdict w agent_dir),
     add_events w (task_events (task_verdict w agent_dir) agent_dir output_dir
                     port policy_type)).
Proof.
  enough (Hwp : wp (evaluate_fn agent_dir output_dir port policy_type) w
                  (fun r w' =>
                     r = task_result (task_verdict w agent_dir)
                     /\ w' = add_events w (task_events (task_verdict w agent_dir)
                                             agent_dir output_dir port policy_type))).
  { unfold wp in Hwp. destruct Hwp as [Hr Hw].
    destruct (evaluate_fn agent_dir output_dir port policy_type w) as [r w'].
    cbn in Hr, Hw. by subst. }
  destruct w as [D C K T]. unfold evaluate_fn, task_verdict.
  do 2 wp_eval_step. cbn [fs_dirs].
  destruct (bool_decide (is_Some (D !! agent_dir))); cbn [negb].
  - wp_eval_step. wp_eval_step.
    destruct (find_config _ _) as [path|] eqn:Hfind; wp_norm.
    + wp_eval_step. wp_eval_step.
      destruct (C !! path) as [[c|]|] eqn:Hpath; wp_norm.
      * wp_eval_step. wp_eval_step.
        destruct (c !! "ENV_CONFIG") eqn:Henv; wp_norm.
        -- do 6 wp_eval_step.
           destruct (c !! "MODEL_CONFIG") eqn:Hmodel; wp_norm.
           ++ do 6 wp_eval_step; repeat wp_eval_step; world_eq.
           ++ world_eq.
        -- world_eq.
      * world_eq.
      * wp_eval_step. wp_eval_step. rewrite lookup_empty. world_eq.
    + wp_eval_step. world_eq.
  - wp_eval_step. world_eq.
Qed.

Lemma worker_script_run w agent_dir output_dir port policy_type :
  worker_script w agent_dir output_dir port policy_type
  = task_events (task_verdict w agent_dir) agent_dir output_dir port policy_type
    ++ crash_report (task_verdict w agent_dir).
Proof.
  unfold worker_script. rewrite evaluate_fn_run.
  change (task_verdict (with_trace w []) agent_dir) with (task_verdict w agent_dir).
  cbn [add_events with_trace trace app].
  destruct (task_verdict w agent_dir); reflexivity.
Qed.


Lemma worker_script_port w agent_dir output_dir port policy_type p :
  EnvBind p ∈ worker_script w agent_dir output_dir port policy_type -> p = port.
Proof.
  rewrite worker_script_run.
  destruct (task_verdict w agent_dir) as [| |e [|]| |]; cbn;
    rewrite ?elem_of_cons, ?elem_of_nil; intros Hin;
    repeat match goal with
           | H : _ \/ _ |- _ => destruct H as [H|H]
           | H : EnvBind _ = EnvBind _ |- _ => injection H as ->
           | H : False |- _ => destruct H
           | H : _ = _ |- _ => discriminate H
           end; reflexivity.
Qed.

(** ** The harness as a whole *)

Lemma wp_get_world w Q : Q (Ok w) w -> wp get_world w Q.
Proof. exact id. Qed.

Lemma wp_emits es w Q : Q (Ok tt) (add_events w es) -> wp (emits es) w Q.
Proof. exact id. Qed.

Lemma evaluate_run sched a w :
  let base := ev_base_dir a in
  let agents := str_split ","%char (ev_agents a) in
  let eva_data := role_path base "eva_data" in
  let policy_type := ev_evaluation_policy_type a in
  let disk := evaluate_disk a w in
  exists created s,
    evaluate sched a w
    = (Ok tt, with_trace disk (trace w ++ setup_events a created ++ out s))
    /\ fs_conf disk = fs_conf w
    /\ fs_ckpt disk = fs_ckpt w
    /\ fs_dirs w ⊆ fs_dirs disk
    /\ pc s = Returned
    /\ hinv disk base eva_data policy_type agents s.
Proof.
  cbv zeta. unfold evaluate_disk.
  destruct (init_dir_run (ev_base_dir a) (Some ["eva_data"; "eva_log"]) w)
    as (d & created & Hrun & Hsub & Hroles & _).
  unfold evaluate, mbind, M_bind. rewrite Hrun.
  cbn [default from_option id dirs_of snd with_trace fs_dirs fs_conf fs_ckpt trace].
  unfold getitem at 1. rewrite lookup_insert_ne, lookup_insert_eq by done.
  cbn [mret M_ret init_log emit print logging_info fs_dirs fs_conf fs_ckpt trace].
  unfold getitem at 1. rewrite lookup_insert_eq.
  cbn [mret M_ret get_world].
  set (disk := {| fs_dirs := d; fs_conf := fs_conf w; fs_ckpt := fs_ckpt w; trace := [] |}).
  set (w1 := {| fs_dirs := d |}).
  set (agents := str_split ","%char (ev_agents a)).
  set (eva := role_path (ev_base_dir a) "eva_data").
  set (pol := ev_evaluation_policy_type a).
  set (s0 := hrun w1 (ev_base_dir a) eva pol sched (harness_init agents)).
  assert (Hsame : forall ch s, hstep w1 (ev_base_dir a) eva pol ch s
                               = hstep disk (ev_base_dir a) eva pol ch s)
    by reflexivity.
  assert (Hs0 : hinv disk (ev_base_dir a) eva pol agents s0).
  { apply (hinv_hrun disk). apply hinv_init. }
  destruct (finish_returns disk (ev_base_dir a) eva pol agents
              (remaining w1 (ev_base_dir a) eva pol s0) s0 Hs0 (le_n _))
    as [Hret Hfin].
  change (finish disk (ev_base_dir a) eva pol)
    with (finish w1 (ev_base_dir a) eva pol) in Hret, Hfin.
  exists created,
    (finish w1 (ev_base_dir a) eva pol (remaining w1 (ev_base_dir a) eva pol s0) s0).
  rewrite Hret. split; [|auto].
  unfold setup_events, emits, with_trace.
  cbn [mret M_ret fs_dirs fs_conf fs_ckpt trace w1].
  rewrite <- !app_assoc. reflexivity.
Qed.

Lemma main_events_all l : Forall (fun e => is_main e = true) l -> main_events l = l.
Proof.
  intros Hall. unfold main_events. induction Hall as [|e l He _ IH]; [reflexivity|].
  rewrite filter_cons_True by exact He. by rewrite IH.
Qed.

Lemma thread_events_main i l :
  Forall (fun e => is_main e = true) l -> thread_events i l = [].
Proof.
  intros Hall. unfold thread_events. induction Hall as [|e l He _ IH]; [reflexivity|].
  cbn. rewrite IH. destruct e; try reflexivity. discriminate He.
Qed.

Lemma setup_events_main a created :
  Forall (fun e => is_main e = true) (setup_events a created).
Proof.
  unfold setup_events. apply Forall_app. split.
  - apply Forall_forall. intros e [p [-> _]]%list_elem_of_fmap. reflexivity.
  - repeat constructor.
Qed.

Lemma elem_of_thread_events i e l :
  InThread i e ∈ l <-> e ∈ thread_events i l.
Proof.
  unfold thread_events. rewrite list_elem_of_omap. split.
  - intros Hin. exists (InThread i e). split; [exact Hin|]. cbn. by rewrite decide_True.
  - intros (x & Hx & Hsome). destruct x; try discriminate Hsome. cbn in Hsome.
    destruct (decide (i0 = i)) as [->|]; [|discriminate]. by injection Hsome as ->.
Qed.

Lemma elem_of_main_events e l :
  is_main e = true -> (e ∈ l <-> e ∈ main_events l).
Proof.
  intros He. unfold main_events. rewrite list_elem_of_filter. tauto.
Qed.

(** The run of [evaluate] under any schedule: it returns; the main
    thread sets up, creates and starts one worker per agent in the order
    of the list, then joins them in that order; each worker has run the
    whole of its own task. *)
Lemma evaluate_spec sched a w :
  let base := ev_base_dir a in
  let agents := str_split ","%char (ev_agents a) in
  let eva_data := role_path base "eva_data" in
  let policy_type := ev_evaluation_policy_type a in
  let disk := evaluate_disk a w in
  exists created es,
    evaluate sched a w = (Ok tt, with_trace disk (trace w ++ es))
    /\ main_events es
       = setup_events a created ++ spawn_events base (enumerate agents)
         ++ map ThreadJoin (seq 0 (length agents))
    /\ (forall i agent, agents !! i = Some agent ->
          thread_events i es
          = worker_script disk (base +:+ "/" +:+ agent) eva_data (Z.of_nat i) policy_type)
    /\ (forall i, (length agents <= i)%nat -> thread_events i es = []).
Proof.
  cbv zeta.
  destruct (evaluate_run sched a w) as (created & s & Hrun & _ & _ & _ & Hpc & Hinv).
  exists created, (setup_events a created ++ out s).
  split; [exact Hrun|].
  destruct Hinv as [Hpool Hfresh Hpcinv]. rewrite Hpc in Hpcinv.
  destruct Hpcinv as (Hlen & Hdone & Hmain).
  split; [|split].
  - rewrite main_events_app, Hmain, main_events_all by apply setup_events_main.
    reflexivity.
  - intros i agent Hi.
    rewrite thread_events_app, thread_events_main by apply setup_events_main.
    destruct (lookup_lt_is_Some_2 (pool s) i) as [t Ht].
    { rewrite Hlen. eapply lookup_lt_Some, Hi. }
    destruct (Hpool i t Ht) as (agent' & Hag & _ & _ & Hscript).
    rewrite Hi in Hag. injection Hag as <-.
    rewrite (Hdone i t Ht), app_nil_r in Hscript. exact Hscript.
  - intros i Hi.
    rewrite thread_events_app, thread_events_main by apply setup_events_main.
    apply Hfresh. lia.
Qed.

(** ** Ports *)

Lemma spawn_events_new base ias i d p :
  ThreadNew i d p ∈ spawn_events base ias ->
  exists agent, (i, agent) ∈ ias /\ d = base +:+ "/" +:+ agent /\ p = Z.of_nat i.
Proof.
  unfold spawn_events. rewrite list_elem_of_In, in_flat_map.
  intros ([j agent] & Hin & Hev). cbn in Hev.
  destruct Hev as [Hev|[Hev|[Hev|[]]]]; try discriminate Hev.
  injection Hev as <- <- <-. exists agent.
  rewrite list_elem_of_In. auto.
Qed.

Lemma setup_events_no_new a created i d p : ThreadNew i d p ∉ setup_events a created.
Proof.
  unfold setup_events. rewrite elem_of_app, list_elem_of_fmap, !elem_of_cons, elem_of_nil.
  intros [(x & Hx & _)|[Hx|[Hx|[Hx|[]]]]]; discriminate Hx.
Qed.

(** C4, as stated, fails: with two agents the first worker is started
    before the thread of the second is created with its port. *)
Lemma second_port_after_first_start :
  ~ ports_assigned_before_any_start
      (trace (evaluate [] (Sample.evaluate_agents "a,b") Sample.trained).2).
Proof.
  intros Hclaim.
  assert (Hlt : (9 < 7)%nat); [|lia].
  apply (Hclaim 9%nat 7%nat 0%nat 1%nat "exp/b" 1); reflexivity.
Qed.

(** C4, amended: under every schedule the main thread creates the worker
    of the [i]-th agent (counting from 0) with port [i] and starts it at
    once, one agent after the other in the order of the list, so a later
    port is handed out when earlier workers already run; each worker
    binds its simulator to its own port, and no two workers are given the
    same port. *)
Theorem ports_follow_positions (sched : list choice) (a : evaluate_args) (w : world) :
  let base := ev_base_dir a in
  let agents := str_split ","%char (ev_agents a) in
  exists created es,
    trace (evaluate sched a w).2 = trace w ++ es
    /\ main_events es
       = setup_events a created ++ spawn_events base (enumerate agents)
         ++ map ThreadJoin (seq 0 (length agents))
    /\ (forall i agent, agents !! i = Some agent ->
          ThreadNew i (base +:+ "/" +:+ agent) (Z.of_nat i) ∈ es)
    /\ (forall i d p, ThreadNew i d p ∈ es ->
          p = Z.of_nat i /\ exists agent, agents !! i = Some agent
                                          /\ d = base +:+ "/" +:+ agent)
    /\ (forall i p, InThread i (EnvBind p) ∈ es -> p = Z.of_nat i)
    /\ (forall i j d d' p, ThreadNew i d p ∈ es -> ThreadNew j d' p ∈ es -> i = j).
Proof.
  cbv zeta.
  destruct (evaluate_spec sched a w) as (created & es & Hrun & Hmain & Hthreads & Hnone).
  exists created, es. rewrite Hrun. cbn [snd with_trace trace].
  split; [reflexivity|]. split; [exact Hmain|].
  assert (Hnew : forall i d p, ThreadNew i d p ∈ es ->
            p = Z.of_nat i /\ exists agent,
              str_split ","%char (ev_agents a) !! i = Some agent
              /\ d = ev_base_dir a +:+ "/" +:+ agent).
  { intros i d p Hin.
    apply (elem_of_main_events (ThreadNew i d p) es eq_refl) in Hin. rewrite Hmain in Hin.
    rewrite !elem_of_app in Hin. destruct Hin as [Hin|[Hin|Hin]].
    - exfalso. eapply setup_events_no_new, Hin.
    - apply spawn_events_new in Hin as (agent & Hin & -> & ->).
      split; [reflexivity|]. exists agent. split; [|reflexivity].
      apply list_elem_of_lookup in Hin as [k Hk].
      rewrite enumerate_lookup in Hk.
      destruct (str_split ","%char (ev_agents a) !! k) eqn:Hlk; [|discriminate].
      cbn in Hk. injection Hk as -> ->. exact Hlk.
    - apply list_elem_of_fmap in Hin as (k & Hk & _). discriminate Hk. }
  split; [|split; [exact Hnew|split]].
  - intros i agent Hi.
    apply (elem_of_main_events (ThreadNew i _ _) es eq_refl). rewrite Hmain, !elem_of_app.
    right. left. unfold spawn_events. rewrite list_elem_of_In, in_flat_map.
    exists (i, agent). split.
    + rewrite <- list_elem_of_In. apply list_elem_of_lookup. exists i.
      rewrite enumerate_lookup, Hi. reflexivity.
    + cbn. auto.
  - intros i p Hin. apply elem_of_thread_events in Hin.
    destruct (str_split ","%char (ev_agents a) !! i) as [agent|] eqn:Hi.
    + rewrite (Hthreads i agent Hi) in Hin. eapply worker_script_port, Hin.
    + apply lookup_ge_None in Hi. rewrite (Hnone i Hi) in Hin.
      by apply elem_of_nil in Hin.
  - intros i j d d' p Hi Hj.
    destruct (Hnew i d p Hi) as [-> _]. destruct (Hnew j d' _ Hj) as [Heq _]. lia.
Qed.

Lemma ports_follow_positions_witness :
  exists es,
    trace (evaluate [RunMain; RunWorker 0] (Sample.evaluate_agents "a,b")
             Sample.trained).2 = es
    /\ ThreadNew 1 "exp/b" 1 ∈ es
    /\ forall p, InThread 1 (EnvBind p) ∈ es -> p = 1.
Proof.
  destruct (ports_follow_positions [RunMain; RunWorker 0]
              (Sample.evaluate_agents "a,b") Sample.trained)
    as (created & es & Htrace & _ & Hnew & _ & Hbind & _).
  exists es. split; [rewrite Htrace; reflexivity|]. split.
  - apply (Hnew 1%nat "b"). reflexivity.
  - intros p Hin. apply (Hbind 1%nat p Hin).
Defined.

(** ** Failures stay inside their task *)








(** C6: each of the three failures of a task ends [evaluate_fn] by a plain
    return after an ERROR line, with no evaluation output: the agent's
    directory does not exist; the data directory holds no configuration
    file; the parameters cannot be loaded.  Under every schedule the
    harness then still returns normally, and every worker has run the
    whole of its own task, which the disk under its own directory alone
    decides. *)
Theorem task_failures_are_contained (w : world) (agent_dir output_dir : string)
    (port : Z) (policy_type : string) :
  let agent := last_piece (str_split "/"%char agent_dir) in
  (fs_dirs w !! agent_dir = None ->
   evaluate_fn agent_dir output_dir port policy_type w
   = (Ok tt, add_events w [Log ERROR ("Evaluation: " +:+ agent +:+ " does not exist!")]))
  /\ (is_Some (fs_dirs w !! agent_dir) ->
      find_config w (agent_dir +:+ "/data/") = None ->
      evaluate_fn agent_dir output_dir port policy_type w
      = (Ok tt, add_events w
                  [Log ERROR ("Evaluation: no configuration file in "
                              +:+ agent_dir +:+ "/data/")]))
  /\ (is_Some (fs_dirs w !! agent_dir) ->
      forall path c env_config model_config,
        find_config w (agent_dir +:+ "/data/") = Some path ->
        fs_conf w !! path = Some (Some c) ->
        c !! "ENV_CONFIG" = Some env_config ->
        c !! "MODEL_CONFIG" = Some model_config ->
        agent_dir +:+ "/model/" ∉ fs_ckpt w ->
        evaluate_fn agent_dir output_dir port policy_type w
        = (Ok tt, add_events w
                    [EnvBind port;
                     Log INFO "Evaluation: s dim, a dim, s dim ls, a dim ls";
                     NewModel 0 None;
                     LoadModel (agent_dir +:+ "/model/") false;
                     Log ERROR ("Evaluation: no trained parameters in "
                                +:+ agent_dir +:+ "/model/")]))
  /\ (forall sched a w0,
        (evaluate sched a w0).1 = Ok tt
        /\ exists es,
             trace (evaluate sched a w0).2 = trace w0 ++ es
             /\ forall i sibling,
                  str_split ","%char (ev_agents a) !! i = Some sibling ->
                  thread_events i es
                  = worker_script (evaluate_disk a w0)
                      (ev_base_dir a +:+ "/" +:+ sibling)
                      (role_path (ev_base_dir a) "eva_data") (Z.of_nat i)
                      (ev_evaluation_policy_type a)).
Proof.
  cbv zeta. repeat split.
  - intros Hdir. rewrite evaluate_fn_run. unfold task_verdict.
    rewrite Hdir, bool_decide_eq_false_2 by (intros [x Hx]; discriminate Hx).
    reflexivity.
  - intros Hdir Hfind. rewrite evaluate_fn_run. unfold task_verdict.
    rewrite bool_decide_eq_true_2, Hfind by exact Hdir. reflexivity.
  - intros Hdir path c env_config model_config Hfind Hpath Henv Hmodel Hckpt.
    rewrite evaluate_fn_run. unfold task_verdict.
    rewrite bool_decide_eq_true_2, Hfind, Hpath, Henv, Hmodel by exact Hdir.
    rewrite decide_False by exact Hckpt. reflexivity.
  - destruct (evaluate_spec sched a w0) as (created & es & Hrun & _).
    rewrite Hrun. reflexivity.
  - destruct (evaluate_spec sched a w0) as (created & es & Hrun & _ & Hthreads & _).
    exists es. rewrite Hrun. split; [reflexivity|exact Hthreads].
Qed.

Lemma task_failures_are_contained_witness :
  evaluate_fn "exp/zz" "exp/eva_data" 0 "default" Sample.trained
  = (Ok tt, add_events Sample.trained [Log ERROR "Evaluation: zz does not exist!"])
  /\ evaluate_fn "exp/c" "exp/eva_data" 1 "default" Sample.trained
     = (Ok tt, add_events Sample.trained
                 [Log ERROR "Evaluation: no configuration file in exp/c/data/"])
  /\ evaluate_fn "exp/b" "exp/eva_data" 2 "default" Sample.trained
     = (Ok tt, add_events Sample.trained
                 [EnvBind 2;
                  Log INFO "Evaluation: s dim, a dim, s dim ls, a dim ls";
                  NewModel 0 None;
                  LoadModel "exp/b/model/" false;
                  Log ERROR "Evaluation: no trained parameters in exp/b/model/"]).
Proof.
  split; [|split].
  - apply (task_failures_are_contained Sample.trained "exp/zz" "exp/eva_data" 0 "default").
    reflexivity.
  - apply (task_failures_are_contained Sample.trained "exp/c" "exp/eva_data" 1 "default").
    + eexists; reflexivity.
    + reflexivity.
  - apply (proj1 (proj2 (proj2
      (task_failures_are_contained Sample.trained "exp/b" "exp/eva_data" 2 "default")))
      ltac:(eexists; reflexivity)
      "exp/b/data/c.ini" Sample.full_config (<["seed" := "42"]> ∅) ∅).
    + reflexivity.
    + reflexivity.
    + reflexivity.
    + reflexivity.
    + apply (bool_decide_unpack _). vm_compute. exact I.
Defined.

(** ** The training run *)

Lemma train_dirs_log base :
  dirs_of base (default default_pathes None) !! "log" = Some (role_path base "log").
Proof. reflexivity. Qed.

Lemma train_dirs_data base :
  dirs_of base (default default_pathes None) !! "data" = Some (role_path base "data").
Proof. reflexivity. Qed.

Lemma train_dirs_model base :
  dirs_of base (default default_pathes None) !! "model" = Some (role_path base "model").
Proof. reflexivity. Qed.

Lemma wp_getitem_some {V} (d : gmap string V) k v w Q :
  d !! k = Some v -> Q (Ok v) w -> wp (getitem d k) w Q.
Proof. intros Hk HQ. apply wp_getitem. rewrite Hk. exact HQ. Qed.

(** A file copied next to itself or elsewhere reads as before. *)
Lemma lookup_after_copy (C : gmap string (option config)) src dst content :
  C !! src = Some content -> <[dst := content]> C !! src = Some content.
Proof.
  intros Hsrc. destruct (decide (dst = src)) as [->|Hne].
  - apply lookup_insert_eq.
  - by rewrite lookup_insert_ne.
Qed.

(** Every event of the training loop is a step or, when in-loop testing
    is on, a test. *)
Lemma loop_events_forall (ok : event -> bool) fuel in_test : forall c,
  (forall step, ok (TrainStep step) = true) ->
  (in_test = true -> forall step, ok (InLoopTest step) = true) ->
  Forall (fun e => ok e = true) (loop_events fuel in_test c).
Proof.
  induction fuel as [|fuel IH]; intros c Hstep Htest; cbn [loop_events].
  - destruct (Counter.is_done c); constructor.
  - destruct (Counter.is_done c); [constructor|].
    destruct (Counter.advance c) as [step c'].
    constructor; [apply Hstep|]. apply Forall_app. split; [|apply IH; assumption].
    destruct in_test; cbn [andb]; [|constructor].
    destruct (Counter.should_test c' step); repeat constructor. apply Htest. reflexivity.
Qed.

Lemma mkdirs_forall (ok : event -> bool) created :
  (forall p, ok (Mkdir p) = true) ->
  Forall (fun e => ok e = true) (map Mkdir created).
Proof. intros Hok. apply Forall_forall. intros e [p [-> _]]%list_elem_of_fmap. apply Hok. Qed.

(** The loop stops with the budget used up. *)
Lemma loop_final_done fuel : forall c,
  (Z.to_nat (Counter.total_step c - Counter.cur_step c) <= fuel)%nat ->
  Counter.is_done (loop_final fuel c) = true.
Proof.
  induction fuel as [|fuel IH]; intros c Hfuel; cbn [loop_final].
  - destruct (Counter.is_done c) eqn:Hdone; [exact Hdone|].
    unfold Counter.is_done in *. lia.
  - destruct (Counter.is_done c) eqn:Hdone; [exact Hdone|].
    apply IH. unfold Counter.is_done in Hdone.
    unfold Counter.advance.
    destruct (Z.eqb_spec (Counter.cur_step c) (Counter.total_step c)); cbn; lia.
Qed.

Ltac wp_train_step :=
  lazymatch goal with
  | |- wp (getitem (dirs_of _ _) "log") _ _ =>
      eapply wp_getitem_some; [apply train_dirs_log|]; wp_norm
  | |- wp (getitem (dirs_of _ _) "data") _ _ =>
      eapply wp_getitem_some; [apply train_dirs_data|]; wp_norm
  | |- wp (getitem (dirs_of _ _) "model") _ _ =>
      eapply wp_getitem_some; [apply train_dirs_model|]; wp_norm
  | |- match <[_ := ?content]> _ !! ?src with _ => _ end =>
      rewrite (lookup_after_copy _ src _ content) by assumption
  | |- match ∅ !! _ with _ => _ end => rewrite lookup_empty
  | |- match ?x with _ => _ end =>
      first [ match goal with H : x = _ |- _ => rewrite H end
            | destruct x eqn:? ]
  | |- _ => wp_step
  end.

Ltac forall_events :=
  repeat first
    [ exact I
    | apply Forall_nil
    | apply Forall_cons; split; [reflexivity|]
    | apply Forall_app; split
    | apply mkdirs_forall; intros; reflexivity
    | apply loop_events_forall;
      [intros; reflexivity|intros; first [reflexivity|discriminate]] ].

Ltac here_or_further :=
  repeat first [ apply list_elem_of_here | apply list_elem_of_further ].

Lemma loop_events_elem e fuel in_test : forall c,
  e ∈ loop_events fuel in_test c ->
  (exists step, e = TrainStep step)
  \/ (in_test = true /\ exists step, e = InLoopTest step).
Proof.
  induction fuel as [|fuel IH]; intros c; cbn [loop_events].
  - destruct (Counter.is_done c); intros Hin; by apply elem_of_nil in Hin.
  - destruct (Counter.is_done c); [intros Hin; by apply elem_of_nil in Hin|].
    destruct (Counter.advance c) as [step c'].
    rewrite elem_of_cons, elem_of_app. intros [->|[Hin|Hin]]; [eauto| |eauto].
    destruct in_test; cbn [andb] in Hin; [|by apply elem_of_nil in Hin].
    destruct (Counter.should_test c' step); [|by apply elem_of_nil in Hin].
    apply list_elem_of_singleton in Hin as ->. eauto.
Qed.

(** Case analysis on an event known to be in a trace. *)
Ltac events_inv Hin :=
  repeat first
    [ apply elem_of_nil in Hin; destruct Hin
    | apply elem_of_app in Hin as [Hin|Hin]
    | apply elem_of_cons in Hin as [Hin|Hin]
    | apply list_elem_of_fmap in Hin as (? & Hin & _)
    | apply loop_events_elem in Hin as [(? & Hin)|(_ & ? & Hin)] ];
  try discriminate Hin.

Lemma str_split_nonempty c s : exists first rest, str_split c s = first :: rest.
Proof.
  induction s as [|ch s (first & rest & IH)]; cbn [str_split].
  - eauto.
  - destruct (Ascii.eqb ch c); [eauto|]. rewrite IH. eauto.
Qed.

Section TrainFacts.
Context `{Platform}.

Lemma train_binds_default_port a w :
  wp (train a) w
     (fun _ w' =>
        exists es,
          trace w' = trace w ++ es
          /\ Forall (fun e => binds_default_port e = true) es
          /\ (forall c env,
                fs_conf w !! tr_config_dir a = Some (Some c) ->
                c !! "ENV_CONFIG" = Some env ->
                tr_test_mode a ∈ test_mode_choices ->
                EnvBind 1 ∈ es)).
Proof.
  destruct w as [D C K T]. unfold train.
  repeat wp_train_step.
  all: eexists; (split; [reflexivity|]).
  all: split; [forall_events|].
  all: cbn [fs_conf]; intros c env Hc Henv Hmode.
  all: try (apply elem_of_app; right; here_or_further; fail).
  all: try congruence.
  all: try (apply init_test_flag_choice in Hmode as [flags Hflags]; congruence).
  all: try (rewrite Hc in *; simplify_eq; rewrite lookup_empty in *; congruence).
Qed.

End TrainFacts.

(** C9: [init_env] called without a port binds the simulator to port 1,
    the default of its signature.  [train] calls it that way: whatever
    the arguments and the disk, every port bound during a training run
    is 1, and the run does bind it once the configuration has an
    [ENV_CONFIG] section.  In an evaluation the first worker is given
    port 0. *)
Theorem training_binds_port_one `{Platform} (a : train_args) (w : world) :
  (forall cfg naive w0,
     exists env ctl,
       init_env cfg None naive w0 = (Ok (env, ctl), add_events w0 [EnvBind 1])
       /\ env_port env = 1)
  /\ (exists es,
        trace (train a w).2 = trace w ++ es
        /\ (forall p, EnvBind p ∈ es -> p = 1)
        /\ (forall c env,
              fs_conf w !! tr_config_dir a = Some (Some c) ->
              c !! "ENV_CONFIG" = Some env ->
              tr_test_mode a ∈ test_mode_choices ->
              EnvBind 1 ∈ es))
  /\ (forall sched ea w0,
        exists first es,
          str_split ","%char (ev_agents ea) !! 0%nat = Some first
          /\ trace (evaluate sched ea w0).2 = trace w0 ++ es
          /\ ThreadNew 0 (ev_base_dir ea +:+ "/" +:+ first) 0 ∈ es).
Proof.
  split; [|split].
  - intros cfg naive w0. unfold init_env.
    (destruct naive as [[|]|]; cbn; eauto).
  - destruct (train_binds_default_port a w) as (es & Htrace & Hports & Hbound).
    exists es. split; [exact Htrace|]. split; [|exact Hbound].
    intros p Hin. rewrite Forall_forall in Hports.
    specialize (Hports _ Hin). cbn in Hports. lia.
  - intros sched ea w0.
    destruct (str_split_nonempty ","%char (ev_agents ea)) as (first & rest & Hsplit).
    destruct (evaluate_spec sched ea w0) as (created & es & Hrun & Hmain & _).
    exists first, es. rewrite Hrun, Hsplit. split; [reflexivity|].
    split; [reflexivity|].
    apply (elem_of_main_events (ThreadNew 0 _ _) es eq_refl).
    rewrite Hmain, Hsplit. apply elem_of_app. right. cbn. here_or_further.
Qed.

Lemma training_binds_port_one_witness :
  EnvBind 1 ∈ trace (train (H := Sample.strict) (Sample.train_with "no_test")
                       (Sample.disk {[ "c.ini" := Some Sample.full_config ]})).2.
Proof.
  destruct (training_binds_port_one (H := Sample.strict) (Sample.train_with "no_test")
              (Sample.disk {[ "c.ini" := Some Sample.full_config ]}))
    as (_ & (es & Htrace & _ & Hbound) & _).
  rewrite Htrace. apply elem_of_app. right.
  apply (Hbound Sample.full_config (<["seed" := "42"]> ∅)).
  - reflexivity.
  - reflexivity.
  - apply (bool_decide_unpack _); exact I.
Defined.

(** ** The schedule read from the configuration *)

Lemma int_of_float_truncated (x : float) (n : Z) :
  int_of_float x = Ok n -> truncated x n.
Proof.
  intros Hint. destruct (float_fraction x) as [[num den]|] eqn:Hfrac.
  - destruct (int_of_float_finite x num den Hfrac) as [Hden Hq].
    rewrite Hq in Hint. injection Hint as <-.
    exists num, den. split; [exact Hfrac|]. split; [exact Hden|].
    apply integer_part_quot, Hden.
  - unfold float_fraction, int_of_float in *.
    destruct (Prim2SF x); discriminate.
Qed.

Section ScheduleRead.
Context `{Platform}.

Lemma train_counter a w :
  wp (train a) w
     (fun _ w' =>
        exists es,
          trace w' = trace w ++ es
          /\ forall c0, NewCounter c0 ∈ es ->
               exists cfg x1 x2 x3,
                 fs_conf w !! tr_config_dir a = Some (Some cfg)
                 /\ reads_float cfg "total_step" x1
                 /\ reads_float cfg "test_interval" x2
                 /\ reads_float cfg "log_interval" x3
                 /\ int_of_float x1 = Ok (Counter.total_step c0)
                 /\ int_of_float x2 = Ok (Counter.test_step c0)
                 /\ int_of_float x3 = Ok (Counter.log_step c0)
                 /\ Counter.cur_step c0 = 0
                 /\ forall n seed, NewModel n seed ∈ es -> n = Counter.total_step c0).
Proof.
  destruct w as [D C K T]. unfold train.
  repeat wp_train_step.
  all: eexists; (split; [reflexivity|]).
  all: intros c0 Hin; events_inv Hin.
  all: injection Hin as ->.
  all: cbn [fs_conf]; eexists _, _, _, _.
  all: split; [reflexivity || eassumption|].
  all: repeat (split; [unfold reads_float; do 3 eexists; repeat split; eassumption|]).
  all: repeat (split; [eassumption || reflexivity|]).
  all: intros n seed Hin; events_inv Hin; injection Hin as -> _; reflexivity.
Qed.

(** With the three schedule options readable the counter is built, and
    from their integer parts. *)
Lemma train_builds_counter a w cfg x1 x2 x3 n1 n2 n3 :
  fs_conf w !! tr_config_dir a = Some (Some cfg) ->
  tr_test_mode a ∈ test_mode_choices ->
  is_Some (cfg !! "ENV_CONFIG") ->
  reads_float cfg "total_step" x1 ->
  reads_float cfg "test_interval" x2 ->
  reads_float cfg "log_interval" x3 ->
  int_of_float x1 = Ok n1 ->
  int_of_float x2 = Ok n2 ->
  int_of_float x3 = Ok n3 ->
  wp (train a) w
     (fun _ w' =>
        exists es,
          trace w' = trace w ++ es /\ NewCounter (Counter.init n1 n2 n3) ∈ es).
Proof.
  intros Hcfg [flags Hmode]%init_test_flag_choice [env Henv]
    (sec1 & t1 & v1 & Hsec1 & Ht1 & Hv1 & Hx1)
    (sec2 & t2 & v2 & Hsec2 & Ht2 & Hv2 & Hx2)
    (sec3 & t3 & v3 & Hsec3 & Ht3 & Hv3 & Hx3) Hn1 Hn2 Hn3.
  assert (sec2 = sec1) as -> by congruence.
  assert (sec3 = sec1) as -> by congruence.
  clear Hsec2 Hsec3.
  destruct w as [D C K T]. cbn [fs_conf] in Hcfg. unfold train.
  repeat wp_train_step.
  all: eexists; (split; [reflexivity|]).
  all: repeat first [ apply list_elem_of_here
                    | apply list_elem_of_further
                    | apply elem_of_app; right ].
Qed.

(** C10: [int] on a float drops the fraction, towards zero, and succeeds
    on every finite float; [train] builds its counter from the three
    schedule options read that way.  When the configuration has
    [ENV_CONFIG], the test mode is one of the four, and [getfloat] reads
    [total_step], [test_interval] and [log_interval] as floats that [int]
    takes, the run builds the counter whose budget and intervals are
    their integer parts.  And the budget and the two intervals of every
    counter a training run creates are the integer parts of the floats
    that [getfloat] read under the three options, and the model is given
    the same truncated budget.  The float nearest to 100.9 gives 100,
    and -3.7 gives -3. *)
Theorem schedule_is_truncated (a : train_args) (w : world) :
  (forall x n, int_of_float x = Ok n -> truncated x n)
  /\ (forall x, float_fraction x <> None -> exists n, int_of_float x = Ok n)
  /\ (exists es,
        trace (train a w).2 = trace w ++ es
        /\ (forall cfg x1 x2 x3 n1 n2 n3,
              fs_conf w !! tr_config_dir a = Some (Some cfg) ->
              tr_test_mode a ∈ test_mode_choices ->
              is_Some (cfg !! "ENV_CONFIG") ->
              reads_float cfg "total_step" x1 ->
              reads_float cfg "test_interval" x2 ->
              reads_float cfg "log_interval" x3 ->
              int_of_float x1 = Ok n1 ->
              int_of_float x2 = Ok n2 ->
              int_of_float x3 = Ok n3 ->
              NewCounter (Counter.init n1 n2 n3) ∈ es
              /\ truncated x1 n1 /\ truncated x2 n2 /\ truncated x3 n3)
        /\ forall c0, NewCounter c0 ∈ es ->
             exists cfg x1 x2 x3,
               fs_conf w !! tr_config_dir a = Some (Some cfg)
               /\ reads_float cfg "total_step" x1
               /\ reads_float cfg "test_interval" x2
               /\ reads_float cfg "log_interval" x3
               /\ truncated x1 (Counter.total_step c0)
               /\ truncated x2 (Counter.test_step c0)
               /\ truncated x3 (Counter.log_step c0)
               /\ forall n seed, NewModel n seed ∈ es -> n = Counter.total_step c0)
  /\ float_fraction 0x1.939999999999ap+6%float = Some (7100206287526298, 2 ^ 46)
  /\ 100 * 2 ^ 46 < 7100206287526298 < 101 * 2 ^ 46
  /\ int_of_float 0x1.939999999999ap+6%float = Ok 100
  /\ int_of_float (-0x1.d99999999999ap+1)%float = Ok (-3).
Proof.
  split; [exact int_of_float_truncated|]. split.
  { intros x Hfinite. destruct (float_fraction x) as [[num den]|] eqn:Hfrac; [|done].
    exists (num ÷ den). apply (int_of_float_finite x num den Hfrac). }
  split.
  - destruct (train_counter a w) as (es & Htrace & Hcounter).
    exists es. split; [exact Htrace|]. split.
    + intros cfg x1 x2 x3 n1 n2 n3 Hcfg Hmode Henv H1 H2 H3 Hn1 Hn2 Hn3.
      destruct (train_builds_counter a w cfg x1 x2 x3 n1 n2 n3
                  Hcfg Hmode Henv H1 H2 H3 Hn1 Hn2 Hn3) as (es' & Htrace' & Hin).
      unfold wp in Htrace. rewrite Htrace in Htrace'.
      apply app_inv_head in Htrace'. subst es'.
      split; [exact Hin|].
      repeat split; apply int_of_float_truncated; assumption.
    + intros c0 Hin.
      destruct (Hcounter c0 Hin)
        as (cfg & x1 & x2 & x3 & Hcfg & H1 & H2 & H3 & Hi1 & Hi2 & Hi3 & _ & Hmodel).
      exists cfg, x1, x2, x3.
      repeat (split; [assumption || (apply int_of_float_truncated; assumption)|]).
      exact Hmodel.
  - (split; [reflexivity|]). (split; [vm_compute; split; reflexivity|]).
    (split; reflexivity).
Qed.

End ScheduleRead.

Lemma schedule_is_truncated_witness :
  NewCounter (Counter.init 100 20 10)
    ∈ trace (train (H := Sample.strict) (Sample.train_with "no_test")
               (Sample.disk {[ "c.ini" := Some Sample.full_config ]})).2
  /\ truncated 0x1.939999999999ap+6%float 100.
Proof.
  destruct (schedule_is_truncated (H := Sample.strict) (Sample.train_with "no_test")
              (Sample.disk {[ "c.ini" := Some Sample.full_config ]}))
    as (_ & _ & (es & Htrace & Hbuilt & _) & _).
  change (trace (Sample.disk {[ "c.ini" := Some Sample.full_config ]}) ++ es) with es in Htrace.
  rewrite Htrace.
  destruct (Hbuilt Sample.full_config 0x1.939999999999ap+6%float 20%float 10%float
              100 20 10) as (Hin & Ht & _).
  - reflexivity.
  - apply (bool_decide_unpack _); exact I.
  - eexists; reflexivity.
  - eexists _, _, _. repeat split; reflexivity.
  - eexists _, _, _. repeat split; reflexivity.
  - eexists _, _, _. repeat split; reflexivity.
  - reflexivity.
  - reflexivity.
  - reflexivity.
  - split; [exact Hin|exact Ht].
Defined.

(** ** Testing after training *)

Lemma loop_events_no_test fuel : forall c,
  loop_events fuel false c = map TrainStep (loop_steps fuel c).
Proof.
  induction fuel as [|fuel IH]; intros c; cbn [loop_events loop_steps].
  - destruct (Counter.is_done c); reflexivity.
  - destruct (Counter.is_done c); [reflexivity|].
    destruct (Counter.advance c) as [step c']. cbn. by rewrite IH.
Qed.

Section AfterTrainTest.
Context `{Platform}.

Lemma train_after_test a w :
  tr_test_mode a = "after_train_test" ->
  wp (train a) w
     (fun r w' =>
        exists es,
          trace w' = trace w ++ es
          /\ Forall (fun e => no_in_loop_test e = true) es
          /\ (forall dir c, OfflineTest dir c ∈ es -> r = Ok tt)
          /\ (r = Ok tt ->
              exists pre steps dir c model_dir msg,
                es = pre ++ map TrainStep steps
                     ++ [OfflineTest dir c; Log INFO msg;
                         SaveModel model_dir (Counter.cur_step c)]
                /\ Counter.is_done c = true
                /\ Forall (fun e => quiet e = true) pre)).
Proof.
  intros Hmode. destruct w as [D C K T]. unfold train. rewrite Hmode.
  change (init_test_flag "after_train_test") with (Ok (false, true)).
  repeat wp_train_step.
  all: eexists; (split; [reflexivity|]).
  all: split; [forall_events|].
  all: split; [intros dir c Hin; first [reflexivity|events_inv Hin]|].
  all: try (intros Hok; discriminate Hok).
  intros _.
  rewrite loop_events_no_test.
  eexists (map Mkdir created ++ [_; _; _; _; _; _; _]), _, _, _, _, _.
  split; [rewrite <- app_assoc; reflexivity|].
  split; [apply loop_final_done; reflexivity|].
  forall_events.
Qed.

(** C8: with the test mode [after_train_test] the flags are (false,
    true).  No event of the training run is an in-loop test, and an
    offline test happens only in a run that comes to its end.  Such a run
    has exactly this shape: events that are no step, test or save; then
    the training steps; then one offline test, on a counter that is done;
    then the log line and the save of the final model at the step of that
    counter. *)
Theorem after_train_test_once (a : train_args) (w : world) :
  tr_test_mode a = "after_train_test" ->
  init_test_flag (tr_test_mode a) = Ok (false, true)
  /\ exists es,
       trace (train a w).2 = trace w ++ es
       /\ (forall step, InLoopTest step ∉ es)
       /\ (forall dir c, OfflineTest dir c ∈ es -> (train a w).1 = Ok tt)
       /\ ((train a w).1 = Ok tt ->
           exists pre steps dir c model_dir msg,
             es = pre ++ map TrainStep steps
                  ++ [OfflineTest dir c; Log INFO msg;
                      SaveModel model_dir (Counter.cur_step c)]
             /\ Counter.is_done c = true
             /\ Forall (fun e => quiet e = true) pre).
Proof.
  intros Hmode. split; [rewrite Hmode; reflexivity|].
  destruct (train_after_test a w Hmode) as (es & Htrace & Hno & Honly & Hshape).
  exists es. split; [exact Htrace|]. split; [|split; [exact Honly|exact Hshape]].
  intros step Hin. rewrite Forall_forall in Hno.
  specialize (Hno _ Hin). discriminate Hno.
Qed.

End AfterTrainTest.

Lemma after_train_test_once_witness :
  trace (train (H := Sample.strict) (Sample.train_with "after_train_test")
           (Sample.disk {[ "c.ini" := Some Sample.short_config ]})).2
  = [Mkdir "run/log"; Mkdir "run/data"; Mkdir "run/model"; LogInit "run/log";
     CopyFile "c.ini" "run/data/c.ini"; EnvBind 1;
     Log INFO "Training: s dim, a dim, s dim ls, a dim ls";
     NewCounter (Counter.init 3 2 10); NewModel 3 (Some 42);
     SummaryWriter "run/log";
     TrainStep 1; TrainStep 2; TrainStep 3;
     OfflineTest "run/data" (Counter.mk 3 3 2 10);
     Log INFO "Training: save final model at step 3 ...";
     SaveModel "run/model" 3]
  /\ forall step,
       InLoopTest step ∉
         trace (train (H := Sample.strict) (Sample.train_with "after_train_test")
                  (Sample.disk {[ "c.ini" := Some Sample.short_config ]})).2.
Proof.
  split; [reflexivity|].
  destruct (after_train_test_once (H := Sample.strict)
              (Sample.train_with "after_train_test")
              (Sample.disk {[ "c.ini" := Some Sample.short_config ]}) eq_refl)
    as (_ & es & Htrace & Hno & _).
  rewrite Htrace. exact Hno.
Defined.

(** ** Configuration errors *)

Lemma alter_is_Some {V} (f : V -> V) (m : gmap string V) i j :
  is_Some (m !! j) -> is_Some (alter f i m !! j).
Proof.
  intros [v Hv]. destruct (decide (i = j)) as [->|Hne].
  - rewrite lookup_alter_eq, Hv. by eexists.
  - rewrite lookup_alter_ne by exact Hne. by eexists.
Qed.

Section ConfigErrors.
Context `{Platform}.

(** C7, amended: when the configuration file is missing or malformed, or
    lacks a section that [train] reads, the run ends with an exception
    before the model is built and before any training step, test or save.
    By then the run directories [log], [data] and [model] exist, and when
    the file has an [ENV_CONFIG] section (and the test mode is valid) the
    simulator has been bound to port 1. *)
Theorem config_error_aborts_before_model (a : train_args) (w : world) :
  config_broken w (tr_config_dir a) ->
  (exists e, (train a w).1 = Raise e)
  /\ (forall role, role ∈ default_pathes ->
        is_Some (fs_dirs (train a w).2 !! role_path (tr_base_dir a) role))
  /\ exists es,
       trace (train a w).2 = trace w ++ es
       /\ Forall (fun e => before_model e = true) es
       /\ (forall c env,
             fs_conf w !! tr_config_dir a = Some (Some c) ->
             c !! "ENV_CONFIG" = Some env ->
             tr_test_mode a ∈ test_mode_choices ->
             EnvBind 1 ∈ es).
Proof.
  change (wp (train a) w
            (fun r w' =>
               config_broken w (tr_config_dir a) ->
               (exists e, r = Raise e)
               /\ (forall role, role ∈ default_pathes ->
                     is_Some (fs_dirs w' !! role_path (tr_base_dir a) role))
               /\ exists es,
                    trace w' = trace w ++ es
                    /\ Forall (fun e => before_model e = true) es
                    /\ (forall c env,
                          fs_conf w !! tr_config_dir a = Some (Some c) ->
                          c !! "ENV_CONFIG" = Some env ->
                          tr_test_mode a ∈ test_mode_choices ->
                          EnvBind 1 ∈ es))).
  destruct w as [D C K T]. unfold train, config_broken. cbn [fs_conf].
  (* every path through [train] *)
  repeat wp_train_step.
  all: intros Hbroken.
  (* the paths on which nothing is wrong with the configuration *)
  all: try (exfalso; intuition congruence).
  (* the others end in an exception *)
  all: (split; [eexists; reflexivity|]).
  (* the directories made by [init_dir] are there, also after the copy *)
  all: (split; [intros role Hrole; try apply alter_is_Some; auto|]).
  all: eexists; (split; [reflexivity|]).
  all: split; [forall_events|].
  (* the port is bound on the paths that got past [ENV_CONFIG] *)
  all: intros c env Hc Henv Hmode.
  all: try (apply elem_of_app; right; here_or_further; fail).
  all: try congruence.
  all: try (apply init_test_flag_choice in Hmode as [flags Hflags]; congruence).
Qed.

End ConfigErrors.

(** C7, as stated, fails.  Without an [ENV_CONFIG] section the run stops
    at the lookup of that section, after the run directories were made;
    without a [TRAIN_CONFIG] section it stops later still, after the
    simulator was bound to port 1. *)
Lemma config_error_after_resources :
  ~ aborts_before_resources (H := Sample.strict) (Sample.train_with "no_test")
      (Sample.disk {[ "c.ini" := Some Sample.no_env_config ]})
  /\ ~ aborts_before_resources (H := Sample.strict) (Sample.train_with "no_test")
        (Sample.disk {[ "c.ini" := Some Sample.no_train_config ]}).
Proof.
  split; intros Hclaim.
  - destruct Hclaim as [Hdirs _].
    { unfold config_broken.
      change (fs_conf (Sample.disk {[ "c.ini" := Some Sample.no_env_config ]}) !! "c.ini")
        with (Some (Some Sample.no_env_config)).
      left. reflexivity. }
    assert (Hlog : fs_dirs (train (H := Sample.strict) (Sample.train_with "no_test")
                     (Sample.disk {[ "c.ini" := Some Sample.no_env_config ]})).2
                   !! "run/log" = Some []) by reflexivity.
    rewrite Hdirs in Hlog. discriminate Hlog.
  - destruct Hclaim as [_ Hport].
    { unfold config_broken.
      change (fs_conf (Sample.disk {[ "c.ini" := Some Sample.no_train_config ]}) !! "c.ini")
        with (Some (Some Sample.no_train_config)).
      right. left. reflexivity. }
    specialize (Hport 1). cbn [Sample.disk trace] in Hport.
    eapply elem_of_nil, Hport.
    apply list_elem_of_lookup. exists 5%nat. reflexivity.
Qed.

Lemma config_error_aborts_before_model_witness :
  (train (H := Sample.strict) (Sample.train_with "no_test")
     (Sample.disk {[ "c.ini" := Some Sample.no_train_config ]})).1
  = Raise (NoSectionError "TRAIN_CONFIG")
  /\ (train (H := Sample.strict) (Sample.train_with "no_test") (Sample.disk ∅)).1
     = Raise (CopyError "c.ini")
  /\ (train (H := Sample.lenient) (Sample.train_with "no_test") (Sample.disk ∅)).1
     = Raise (KeyError "ENV_CONFIG")
  /\ is_Some (fs_dirs (train (H := Sample.strict) (Sample.train_with "no_test")
                (Sample.disk {[ "c.ini" := Some Sample.no_train_config ]})).2
              !! "run/model").
Proof.
  repeat (split; [reflexivity|]).
  assert (Hbroken : config_broken (Sample.disk {[ "c.ini" := Some Sample.no_train_config ]})
                      (tr_config_dir (Sample.train_with "no_test"))).
  { unfold config_broken.
    change (fs_conf (Sample.disk {[ "c.ini" := Some Sample.no_train_config ]})
            !! tr_config_dir (Sample.train_with "no_test"))
      with (Some (Some Sample.no_train_config)).
    right. left. reflexivity. }
  destruct (config_error_aborts_before_model (H := Sample.strict)
              (Sample.train_with "no_test")
              (Sample.disk {[ "c.ini" := Some Sample.no_train_config ]}) Hbroken)
    as (_ & Hdirs & _).
  apply (Hdirs "model"). apply (bool_decide_unpack _). exact I.
Defined.

(** * Further properties of the code *)

(** ** The command line *)


(** ** Splitting and joining *)

Lemma str_join_cons c a piece pieces :
  str_join c (String a piece :: pieces) = String a (str_join c (piece :: pieces)).
Proof. destruct pieces; reflexivity. Qed.

Lemma str_join_split c s : str_join c (str_split c s) = s.
Proof.
  induction s as [|a s IH]; [reflexivity|]. cbn [str_split].
  destruct (Ascii.eqb_spec a c) as [->|Hne].
  - destruct (str_split_nonempty c s) as (first & rest & Hs).
    rewrite Hs in *.
    change (str_join c (EmptyString :: first :: rest))
      with (EmptyString +:+ String c (str_join c (first :: rest))).
    rewrite IH. reflexivity.
  - destruct (str_split_nonempty c s) as (first & rest & Hs).
    rewrite Hs in *. rewrite str_join_cons, IH. reflexivity.
Qed.

Lemma str_split_length c s : length (str_split c s) = S (count_char c s).
Proof.
  induction s as [|a s IH]; [reflexivity|]. cbn [str_split count_char].
  destruct (Ascii.eqb a c); cbn [length]; [by rewrite IH|].
  destruct (str_split_nonempty c s) as (first & rest & Hs).
  rewrite Hs in *. cbn [length] in *. exact IH.
Qed.

Lemma str_split_pieces c s : Forall (fun piece => count_char c piece = 0%nat) (str_split c s).
Proof.
  induction s as [|a s IH]; [repeat constructor|]. cbn [str_split].
  destruct (Ascii.eqb a c) eqn:Hac; [constructor; [reflexivity|exact IH]|].
  destruct (str_split_nonempty c s) as (first & rest & Hs).
  rewrite Hs in *. inversion IH as [|? ? Hfirst Hrest]; subst.
  constructor; [|exact Hrest]. cbn [count_char]. rewrite Hac. exact Hfirst.
Qed.

Lemma str_split_plain c s : count_char c s = 0%nat -> str_split c s = [s].
Proof.
  induction s as [|a s IH]; [reflexivity|]. cbn [str_split count_char].
  destruct (Ascii.eqb a c); [discriminate|]. intros Hs. rewrite IH by exact Hs. reflexivity.
Qed.

Lemma str_split_app c s1 s2 :
  str_split c (s1 +:+ String c s2) = str_split c s1 ++ str_split c s2.
Proof.
  induction s1 as [|a s1 IH].
  - change (EmptyString +:+ String c s2) with (String c s2).
    cbn [str_split]. rewrite Ascii.eqb_refl. reflexivity.
  - change (String a s1 +:+ String c s2) with (String a (s1 +:+ String c s2)).
    cbn [str_split]. rewrite IH.
    destruct (Ascii.eqb a c); [reflexivity|].
    destruct (str_split_nonempty c s1) as (first & rest & Hs). rewrite Hs. reflexivity.
Qed.

Lemma str_split_join c l :
  l <> [] -> Forall (fun piece => count_char c piece = 0%nat) l ->
  str_split c (str_join c l) = l.
Proof.
  intros Hne Hall. induction Hall as [|piece l Hpiece Hall IH]; [done|].
  destruct l as [|next l].
  - cbn [str_join]. apply str_split_plain, Hpiece.
  - change (str_join c (piece :: next :: l)) with (piece +:+ String c (str_join c (next :: l))).
    rewrite str_split_app, IH by done. rewrite str_split_plain by exact Hpiece. reflexivity.
Qed.

Lemma last_piece_app l1 l2 : l2 <> [] -> last_piece (l1 ++ l2) = last_piece l2.
Proof.
  intros Hne. unfold last_piece. destruct l2 as [|x l2] using rev_ind; [done|].
  by rewrite app_assoc, !last_snoc.
Qed.

Lemma agent_name base agent :
  last_piece (str_split "/"%char (base +:+ "/" +:+ agent))
  = last_piece (str_split "/"%char agent).
Proof.
  change (base +:+ "/" +:+ agent) with (base +:+ String "/"%char agent).
  rewrite str_split_app. apply last_piece_app.
  destruct (str_split_nonempty "/"%char agent) as (first & rest & ->). done.
Qed.

(** ** Agents and workers *)

Lemma find_config_conf w cur_dir path :
  find_config w cur_dir = Some path -> is_Some (fs_conf w !! path).
Proof.
  unfold find_config.
  destruct (filter _ _) as [|name names] eqn:Hfilter; [discriminate|].
  intros [= <-].
  assert (Hin : name ∈ filter (fun name => is_Some (fs_conf w !! (cur_dir +:+ name)))
                         (default [] (fs_dirs w !! cur_dir))).
  { rewrite Hfilter. apply list_elem_of_here. }
  apply list_elem_of_filter in Hin as [Hin _]. exact Hin.
Qed.

Lemma main_thread_new a created base agents es i d p :
  main_events es
  = setup_events a created ++ spawn_events base (enumerate agents)
    ++ map ThreadJoin (seq 0 (length agents)) ->
  ThreadNew i d p ∈ es
  <-> exists agent, agents !! i = Some agent
                    /\ d = base +:+ "/" +:+ agent /\ p = Z.of_nat i.
Proof.
  intros Hmain.
  rewrite (elem_of_main_events (ThreadNew i d p) es eq_refl), Hmain, !elem_of_app.
  split.
  - intros [Hin|[Hin|Hin]].
    + exfalso. eapply setup_events_no_new, Hin.
    + apply spawn_events_new in Hin as (agent & Hin & -> & ->).
      exists agent. split; [|done].
      apply list_elem_of_lookup in Hin as [k Hk].
      rewrite enumerate_lookup in Hk.
      destruct (agents !! k) eqn:Hlk; [|discriminate].
      cbn in Hk. injection Hk as -> ->. exact Hlk.
    + apply list_elem_of_fmap in Hin as (k & Hk & _). discriminate Hk.
  - intros (agent & Hi & -> & ->). right. left.
    unfold spawn_events. rewrite list_elem_of_In, in_flat_map.
    exists (i, agent). split.
    + rewrite <- list_elem_of_In. apply list_elem_of_lookup. exists i.
      rewrite enumerate_lookup, Hi. reflexivity.
    + cbn. auto.
Qed.

(** X3: [evaluate] cuts [--agents] at every comma and nowhere else:
    joining the pieces with commas gives the text back, there is one
    piece more than there are commas, and no piece holds a comma.  Under
    every schedule a worker is created for the position [i] exactly when
    [i] is at most the number of commas, and no other worker does
    anything.  So there is always a worker, also for the empty text, and
    an empty piece gets one too. *)
Theorem one_worker_per_piece (sched : list choice) (a : evaluate_args) (w : world) :
  let agents := str_split ","%char (ev_agents a) in
  let commas := count_char ","%char (ev_agents a) in
  str_join ","%char agents = ev_agents a
  /\ length agents = S commas
  /\ Forall (fun agent => count_char ","%char agent = 0%nat) agents
  /\ exists es,
       trace (evaluate sched a w).2 = trace w ++ es
       /\ (forall i, (exists d p, ThreadNew i d p ∈ es) <-> (i <= commas)%nat)
       /\ (forall i e, InThread i e ∈ es -> (i <= commas)%nat).
Proof.
  cbv zeta.
  split; [apply str_join_split|]. split; [apply str_split_length|].
  split; [apply str_split_pieces|].
  destruct (evaluate_spec sched a w) as (created & es & Hrun & Hmain & _ & Hnone).
  exists es. rewrite Hrun. split; [reflexivity|].
  pose proof (str_split_length ","%char (ev_agents a)) as Hlen.
  split.
  - intros i. split.
    + intros (d & p & Hin).
      apply (main_thread_new _ _ _ _ _ _ _ _ Hmain) in Hin as (agent & Hi & _).
      apply lookup_lt_Some in Hi. lia.
    + intros Hi.
      destruct (lookup_lt_is_Some_2 (str_split ","%char (ev_agents a)) i) as [agent Hag];
        [lia|].
      eexists _, _. apply (main_thread_new _ _ _ _ _ _ _ _ Hmain). eauto.
  - intros i e Hin. apply elem_of_thread_events in Hin.
    destruct (decide (i <= count_char ","%char (ev_agents a))%nat) as [|Hgt]; [done|].
    rewrite Hnone in Hin by lia. by apply elem_of_nil in Hin.
Qed.

(** X4: for names that hold no comma, [--agents] set to the names joined
    by commas evaluates these names and no other: under every schedule
    the [i]-th name gets the worker [i], created on [base_dir/name] with
    port [i], that worker runs the whole of its task, and no worker
    beyond the last name does anything. *)
Theorem joined_agents_are_evaluated (sched : list choice) (base policy : string)
    (names : list string) (w : world) (i : nat) (agent : string) :
  Forall (fun name => count_char ","%char name = 0%nat) names ->
  names !! i = Some agent ->
  let a := {| ev_base_dir := base; ev_agents := str_join ","%char names;
              ev_evaluation_policy_type := policy |} in
  exists es,
    trace (evaluate sched a w).2 = trace w ++ es
    /\ ThreadNew i (base +:+ "/" +:+ agent) (Z.of_nat i) ∈ es
    /\ thread_events i es
       = worker_script (evaluate_disk a w) (base +:+ "/" +:+ agent)
           (role_path base "eva_data") (Z.of_nat i) policy
    /\ forall j, (length names <= j)%nat -> thread_events j es = [].
Proof.
  intros Hplain Hi a.
  assert (Hsplit : str_split ","%char (ev_agents a) = names).
  { apply str_split_join; [|exact Hplain]. intros ->. discriminate Hi. }
  destruct (evaluate_spec sched a w) as (created & es & Hrun & Hmain & Hthreads & Hnone).
  rewrite Hsplit in Hmain, Hthreads, Hnone.
  exists es. rewrite Hrun. split; [reflexivity|]. split; [|split].
  - apply (main_thread_new _ _ _ _ _ _ _ _ Hmain). eauto.
  - apply (Hthreads i agent Hi).
  - exact Hnone.
Qed.

Lemma joined_agents_are_evaluated_witness :
  exists es,
    trace (evaluate [RunMain; RunWorker 0] (Sample.evaluate_agents "a,b") Sample.trained).2
    = es
    /\ ThreadNew 1 "exp/b" 1 ∈ es.
Proof.
  destruct (joined_agents_are_evaluated [RunMain; RunWorker 0] "exp" "default"
              ["a"; "b"] Sample.trained 1 "b")
    as (es & Htrace & Hnew & _).
  - repeat constructor.
  - reflexivity.
  - exists es. split; [exact Htrace|exact Hnew].
Defined.

Lemma worker_script_output w agent_dir output_dir port policy_type x y z :
  EvalOutput x y z ∈ worker_script w agent_dir output_dir port policy_type ->
  x = last_piece (str_split "/"%char agent_dir) /\ y = output_dir /\ z = policy_type
  /\ task_verdict w agent_dir = Ready.
Proof.
  rewrite worker_script_run.
  destruct (task_verdict w agent_dir) as [| |e [|]| |]; cbn;
    rewrite ?elem_of_cons, ?elem_of_nil; intros Hin;
    repeat match goal with
           | H : _ \/ _ |- _ => destruct H as [H|H]
           | H : EvalOutput _ _ _ = EvalOutput _ _ _ |- _ => injection H as -> -> ->
           | H : False |- _ => destruct H
           | H : _ = _ |- _ => discriminate H
           end; auto.
Qed.

Lemma evaluate_fn_trace agent_dir output_dir port policy_type w e :
  e ∈ trace (evaluate_fn agent_dir output_dir port policy_type w).2 ->
  e ∈ trace w \/ e ∈ worker_script w agent_dir output_dir port policy_type.
Proof.
  rewrite evaluate_fn_run, worker_script_run. cbn [snd add_events trace].
  rewrite !elem_of_app. tauto.
Qed.

(** X5: [evaluate_fn] names the agent by what follows the last slash of
    [agent_dir].  For the directory [base_dir/agent] that [evaluate]
    builds, this is the last component of [agent], whatever [base_dir]
    is: [agent] itself when it holds no slash, the empty string when it
    ends in one.  It is the name in the error line when the directory is
    missing, and the name every output of the task is written under; the
    output goes to the [output_dir] and carries the [policy_type] that
    were passed in. *)
Theorem agent_name_is_last_component (base agent output_dir : string) (port : Z)
    (policy_type : string) (w : world) :
  let name := last_piece (str_split "/"%char agent) in
  let run := evaluate_fn (base +:+ "/" +:+ agent) output_dir port policy_type w in
  (count_char "/"%char agent = 0%nat -> name = agent)
  /\ last_piece (str_split "/"%char (agent +:+ "/")) = EmptyString
  /\ (fs_dirs w !! (base +:+ "/" +:+ agent) = None ->
      run = (Ok tt, add_events w [Log ERROR ("Evaluation: " +:+ name +:+ " does not exist!")]))
  /\ (forall x y z, EvalOutput x y z ∈ trace run.2 ->
        EvalOutput x y z ∈ trace w \/ x = name /\ y = output_dir /\ z = policy_type).
Proof.
  cbv zeta. split; [|split; [|split]].
  - intros Hplain. rewrite str_split_plain by exact Hplain. reflexivity.
  - change (agent +:+ "/") with (agent +:+ String "/"%char EmptyString).
    rewrite str_split_app. apply last_piece_app. done.
  - intros Hdir. rewrite evaluate_fn_run. unfold task_verdict.
    rewrite Hdir, bool_decide_eq_false_2 by (intros [x Hx]; discriminate Hx).
    cbn [task_result task_events]. rewrite agent_name. reflexivity.
  - intros x y z [Hin|Hin]%evaluate_fn_trace; [auto|]. right.
    apply worker_script_output in Hin as (-> & -> & -> & _).
    rewrite agent_name. done.
Qed.

(** X6: [evaluate_fn] raises in three cases and in no other.  In each
    the agent directory exists and a configuration file was found in its
    data directory; [read] cannot take the file and raises (a
    [ParsingError], or the error of a section or an option given twice),
    or the file lacks [ENV_CONFIG] ([KeyError]), or it has [ENV_CONFIG]
    and lacks [MODEL_CONFIG] ([KeyError]).  In the last case the
    simulator is bound to the port by then and stays so; in the first two
    the world is left as it was. *)
Theorem evaluate_fn_raises (agent_dir output_dir : string) (port : Z)
    (policy_type : string) (w : world) (e : exn) :
  let run := evaluate_fn agent_dir output_dir port policy_type w in
  (run.1 = Raise e <->
   is_Some (fs_dirs w !! agent_dir)
   /\ exists path,
        find_config w (agent_dir +:+ "/data/") = Some path
        /\ (fs_conf w !! path = Some None /\ e = ReadError path
            \/ exists c,
                 fs_conf w !! path = Some (Some c)
                 /\ (c !! "ENV_CONFIG" = None /\ e = KeyError "ENV_CONFIG"
                     \/ is_Some (c !! "ENV_CONFIG") /\ c !! "MODEL_CONFIG" = None
                        /\ e = KeyError "MODEL_CONFIG")))
  /\ (run.1 = Raise (KeyError "MODEL_CONFIG") ->
      trace run.2
      = trace w ++ [EnvBind port; Log INFO "Evaluation: s dim, a dim, s dim ls, a dim ls"])
  /\ (run.1 = Raise e -> e <> KeyError "MODEL_CONFIG" -> run.2 = w).
Proof.
  cbv zeta. rewrite evaluate_fn_run. cbn [fst snd]. unfold task_verdict.
  destruct (bool_decide (is_Some (fs_dirs w !! agent_dir))) eqn:Hdir.
  2:{ apply bool_decide_eq_false in Hdir. cbn.
      split; [|split; discriminate]. split; [discriminate|]. intros [Hd _]. done. }
  apply bool_decide_eq_true in Hdir.
  destruct (find_config w (agent_dir +:+ "/data/")) as [path|] eqn:Hfind.
  2:{ cbn. split; [|split; discriminate]. split; [discriminate|].
      intros (_ & path & Hp & _). discriminate Hp. }
  destruct (find_config_conf _ _ _ Hfind) as [content Hcontent]. rewrite Hcontent.
  assert (Hsame : add_events w [] = w).
  { destruct w. unfold add_events. cbn. by rewrite app_nil_r. }
  destruct content as [c|].
  2:{ cbn [task_result task_events]. rewrite Hsame.
      split; [|split; [discriminate|done]]. split.
      - intros [= <-]. split; [exact Hdir|]. exists path. split; [done|]. left. done.
      - intros (_ & path' & [= <-] & [[_ ->]|(c & Hc & _)]); [done|congruence]. }
  destruct (c !! "ENV_CONFIG") as [env|] eqn:Henv.
  2:{ cbn [task_result task_events]. rewrite Hsame.
      split; [|split; [discriminate|done]]. split.
      - intros [= <-]. split; [exact Hdir|]. exists path. split; [done|].
        right. exists c. split; [done|]. left. done.
      - intros (_ & path' & [= <-] & [[Hc _]|(c' & Hc & [[_ ->]|(Hs & _)])]);
          [congruence|done|].
        assert (c' = c) as -> by congruence. rewrite Henv in Hs. by destruct Hs. }
  destruct (c !! "MODEL_CONFIG") as [model|] eqn:Hmodel.
  2:{ cbn [task_result task_events bound_events add_events trace snd].
      split; [|split; [done|]].
      - split.
        + intros [= <-]. split; [exact Hdir|]. exists path. split; [done|].
          right. exists c. split; [done|]. right. eauto.
        + intros (_ & path' & [= <-] & [[Hc _]|(c' & Hc & [[Hn _]|(_ & _ & ->)])]);
            [congruence| |done].
          assert (c' = c) as -> by congruence. congruence.
      - intros [= <-] Hne. done. }
  assert (Hok : forall v, (if decide (agent_dir +:+ "/model/" ∈ fs_ckpt w)
                           then Ready else NoParameters) = v -> task_result v = Ok tt).
  { intros v <-. by destruct (decide _). }
  rewrite (Hok _ eq_refl).
  split; [|split; discriminate]. split; [discriminate|].
  intros (_ & path' & [= <-] & [[Hc _]|(c' & Hc & [[Hn _]|(_ & Hn & _)])]);
    [congruence| |]; assert (c' = c) as -> by congruence; congruence.
Qed.

Lemma worker_script_outputs w agent_dir output_dir port port' policy_type :
  filter (fun e => is_output e = true)
    (worker_script w agent_dir output_dir port policy_type)
  = filter (fun e => is_output e = true)
      (worker_script w agent_dir output_dir port' policy_type).
Proof.
  rewrite !worker_script_run.
  destruct (task_verdict w agent_dir) as [| |e [|]| |]; reflexivity.
Qed.

(** X7: [evaluate] does not look for repeated names.  An agent named at
    two positions of [--agents] gets two workers, on the same directory
    with different ports, and under every schedule the two write the same
    output to the same place. *)
Theorem repeated_agent_same_output (sched : list choice) (a : evaluate_args)
    (w : world) (i j : nat) (agent : string) :
  str_split ","%char (ev_agents a) !! i = Some agent ->
  str_split ","%char (ev_agents a) !! j = Some agent ->
  exists es,
    trace (evaluate sched a w).2 = trace w ++ es
    /\ ThreadNew i (ev_base_dir a +:+ "/" +:+ agent) (Z.of_nat i) ∈ es
    /\ ThreadNew j (ev_base_dir a +:+ "/" +:+ agent) (Z.of_nat j) ∈ es
    /\ filter (fun e => is_output e = true) (thread_events i es)
       = filter (fun e => is_output e = true) (thread_events j es).
Proof.
  intros Hi Hj.
  destruct (evaluate_spec sched a w) as (created & es & Hrun & Hmain & Hthreads & _).
  exists es. rewrite Hrun. split; [reflexivity|].
  split; [apply (main_thread_new _ _ _ _ _ _ _ _ Hmain); eauto|].
  split; [apply (main_thread_new _ _ _ _ _ _ _ _ Hmain); eauto|].
  rewrite (Hthreads i agent Hi), (Hthreads j agent Hj).
  apply worker_script_outputs.
Qed.

Lemma repeated_agent_same_output_witness :
  exists es,
    trace (evaluate [] (Sample.evaluate_agents "a,a") Sample.trained).2 = es
    /\ filter (fun e => is_output e = true) (thread_events 0 es)
       = filter (fun e => is_output e = true) (thread_events 1 es).
Proof.
  destruct (repeated_agent_same_output [] (Sample.evaluate_agents "a,a")
              Sample.trained 0 1 "a" eq_refl eq_refl)
    as (es & Htrace & _ & _ & Hsame).
  exists es. split; [exact Htrace|exact Hsame].
Defined.

(** ** Schedules *)

Lemma thread_events_cons_main i e l :
  is_main e = true -> thread_events i (e :: l) = thread_events i l.
Proof. intros He. destruct e; try reflexivity. discriminate He. Qed.

Lemma thread_events_cons_own i e l :
  thread_events i (InThread i e :: l) = e :: thread_events i l.
Proof. unfold thread_events. cbn. by rewrite decide_True. Qed.

Lemma thread_events_cons_other i j e l :
  j <> i -> thread_events i (InThread j e :: l) = thread_events i l.
Proof. intros Hne. unfold thread_events. cbn. by rewrite decide_False. Qed.

Lemma threads_cons_absent j e l (ids : list nat) :
  j ∉ ids ->
  flat_map (fun i => map (InThread i) (thread_events i (InThread j e :: l))) ids
  = flat_map (fun i => map (InThread i) (thread_events i l)) ids.
Proof.
  induction ids as [|i ids IH]; [reflexivity|].
  rewrite not_elem_of_cons. intros [Hne Hnot]. cbn [flat_map].
  rewrite thread_events_cons_other, IH by done. reflexivity.
Qed.

Lemma threads_cons_present j e l (ids : list nat) :
  NoDup ids -> j ∈ ids ->
  flat_map (fun i => map (InThread i) (thread_events i (InThread j e :: l))) ids
  ≡ₚ InThread j e :: flat_map (fun i => map (InThread i) (thread_events i l)) ids.
Proof.
  induction 1 as [|i ids Hnot Hnodup IH]; [intros Hin; by apply elem_of_nil in Hin|].
  cbn [flat_map]. destruct (decide (j = i)) as [->|Hne].
  - intros _. rewrite thread_events_cons_own, threads_cons_absent by exact Hnot.
    reflexivity.
  - intros [Heq|Hin]%elem_of_cons; [done|].
    rewrite thread_events_cons_other by done. rewrite IH by exact Hin.
    symmetry. apply Permutation_middle.
Qed.

(** A trace is its main thread's events and those of each worker,
    reordered. *)
Lemma events_by_thread n l :
  (forall i e, InThread i e ∈ l -> (i < n)%nat) ->
  l ≡ₚ main_events l ++ threads_part n l.
Proof.
  induction l as [|e l IH]; intros Hbound.
  - unfold threads_part. cbn. induction (seq 0 n); [reflexivity|assumption].
  - assert (IH' : l ≡ₚ main_events l ++ threads_part n l).
    { apply IH. intros i e' Hin. eapply Hbound, list_elem_of_further, Hin. }
    destruct (is_main e) eqn:He.
    + unfold main_events. rewrite filter_cons_True by exact He.
      assert (Hsame : threads_part n (e :: l) = threads_part n l).
      { unfold threads_part. apply flat_map_ext. intros i.
        by rewrite thread_events_cons_main. }
      rewrite Hsame. cbn [app]. by constructor.
    + destruct e; try discriminate He.
      unfold main_events. rewrite filter_cons_False by (cbn; discriminate).
      unfold threads_part. rewrite threads_cons_present.
      * rewrite <- Permutation_middle. by constructor.
      * apply NoDup_seq.
      * apply elem_of_seq. specialize (Hbound i e (list_elem_of_here _ _)). lia.
Qed.

(** The run of [evaluate] once the directories [init_dir] made are known. *)
Lemma evaluate_after_init sched a w d created :
  let base := ev_base_dir a in
  let agents := str_split ","%char (ev_agents a) in
  let eva_data := role_path base "eva_data" in
  let policy_type := ev_evaluation_policy_type a in
  let disk := evaluate_disk a w in
  init_dir base (Some ["eva_data"; "eva_log"]) w
  = (Ok (dirs_of base ["eva_data"; "eva_log"]),
     {| fs_dirs := d; fs_conf := fs_conf w; fs_ckpt := fs_ckpt w;
        trace := trace w ++ map Mkdir created |}) ->
  exists es,
    evaluate sched a w = (Ok tt, with_trace disk (trace w ++ es))
    /\ main_events es
       = setup_events a created ++ spawn_events base (enumerate agents)
         ++ map ThreadJoin (seq 0 (length agents))
    /\ (forall i agent, agents !! i = Some agent ->
          thread_events i es
          = worker_script disk (base +:+ "/" +:+ agent) eva_data (Z.of_nat i) policy_type)
    /\ (forall i, (length agents <= i)%nat -> thread_events i es = []).
Proof.
  cbv zeta. intros Hrun. unfold evaluate_disk.
  unfold evaluate, mbind, M_bind. rewrite Hrun.
  cbn [default from_option id dirs_of snd with_trace fs_dirs fs_conf fs_ckpt trace].
  unfold getitem at 1. rewrite lookup_insert_ne, lookup_insert_eq by done.
  cbn [mret M_ret init_log emit print logging_info fs_dirs fs_conf fs_ckpt trace].
  unfold getitem at 1. rewrite lookup_insert_eq.
  cbn [mret M_ret get_world].
  set (disk := {| fs_dirs := d; fs_conf := fs_conf w; fs_ckpt := fs_ckpt w; trace := [] |}).
  set (w1 := {| fs_dirs := d |}).
  set (agents := str_split ","%char (ev_agents a)).
  set (eva := role_path (ev_base_dir a) "eva_data").
  set (pol := ev_evaluation_policy_type a).
  set (s0 := hrun w1 (ev_base_dir a) eva pol sched (harness_init agents)).
  assert (Hs0 : hinv disk (ev_base_dir a) eva pol agents s0).
  { apply (hinv_hrun disk). apply hinv_init. }
  destruct (finish_returns disk (ev_base_dir a) eva pol agents
              (remaining w1 (ev_base_dir a) eva pol s0) s0 Hs0 (le_n _))
    as [Hret Hfin].
  change (finish disk (ev_base_dir a) eva pol)
    with (finish w1 (ev_base_dir a) eva pol) in Hret, Hfin.
  set (s := finish w1 (ev_base_dir a) eva pol (remaining w1 (ev_base_dir a) eva pol s0) s0)
    in *.
  exists (setup_events a created ++ out s).
  rewrite Hret. split.
  { unfold setup_events, emits, with_trace.
    cbn [mret M_ret fs_dirs fs_conf fs_ckpt trace w1].
    rewrite <- !app_assoc. reflexivity. }
  destruct Hfin as [Hpool Hfresh Hpcinv]. rewrite Hret in Hpcinv.
  destruct Hpcinv as (Hlen & Hdone & Hmain).
  split; [|split].
  - rewrite main_events_app, Hmain, main_events_all by apply setup_events_main.
    reflexivity.
  - intros i agent Hi.
    rewrite thread_events_app, thread_events_main by apply setup_events_main.
    destruct (lookup_lt_is_Some_2 (pool s) i) as [t Ht].
    { rewrite Hlen. eapply lookup_lt_Some, Hi. }
    destruct (Hpool i t Ht) as (agent' & Hag & _ & _ & Hscript).
    rewrite Hi in Hag. injection Hag as <-.
    rewrite (Hdone i t Ht), app_nil_r in Hscript. exact Hscript.
  - intros i Hi.
    rewrite thread_events_app, thread_events_main by apply setup_events_main.
    apply Hfresh. lia.
Qed.

Lemma threads_part_ext n l1 l2 :
  (forall i, thread_events i l1 = thread_events i l2) ->
  threads_part n l1 = threads_part n l2.
Proof. intros Hsame. unfold threads_part. apply flat_map_ext. intros i. by rewrite Hsame. Qed.

(** X8: the schedule changes the order of the events and nothing else.
    Under any two schedules [evaluate] returns normally and leaves the
    same disk; the events of the main thread are the same in the same
    order, so are those of each worker, and one trace is a permutation of
    the other. *)
Theorem schedule_changes_order_only (sched1 sched2 : list choice) (a : evaluate_args)
    (w : world) :
  exists es1 es2,
    evaluate sched1 a w = (Ok tt, with_trace (evaluate_disk a w) (trace w ++ es1))
    /\ evaluate sched2 a w = (Ok tt, with_trace (evaluate_disk a w) (trace w ++ es2))
    /\ main_events es1 = main_events es2
    /\ (forall i, thread_events i es1 = thread_events i es2)
    /\ es1 ≡ₚ es2.
Proof.
  destruct (init_dir_run (ev_base_dir a) (Some ["eva_data"; "eva_log"]) w)
    as (d & created & Hinit & _).
  destruct (evaluate_after_init sched1 a w d created Hinit)
    as (es1 & Hrun1 & Hmain1 & Hthreads1 & Hnone1).
  destruct (evaluate_after_init sched2 a w d created Hinit)
    as (es2 & Hrun2 & Hmain2 & Hthreads2 & Hnone2).
  exists es1, es2. split; [exact Hrun1|]. split; [exact Hrun2|].
  assert (Hmain : main_events es1 = main_events es2) by congruence.
  assert (Hthreads : forall i, thread_events i es1 = thread_events i es2).
  { intros i. destruct (str_split ","%char (ev_agents a) !! i) as [agent|] eqn:Hi.
    - by rewrite (Hthreads1 i agent Hi), (Hthreads2 i agent Hi).
    - apply lookup_ge_None in Hi. by rewrite Hnone1, Hnone2. }
  split; [exact Hmain|]. split; [exact Hthreads|].
  set (n := length (str_split ","%char (ev_agents a))).
  assert (Hbound : forall es, (forall i, (n <= i)%nat -> thread_events i es = []) ->
                     forall i e, InThread i e ∈ es -> (i < n)%nat).
  { intros es Hnone i e Hin. apply elem_of_thread_events in Hin.
    destruct (decide (i < n)%nat) as [|Hge]; [done|].
    rewrite Hnone in Hin by lia. by apply elem_of_nil in Hin. }
  rewrite (events_by_thread n es1) by (apply Hbound, Hnone1).
  rewrite (events_by_thread n es2) by (apply Hbound, Hnone2).
  by rewrite Hmain, (threads_part_ext n es1 es2 Hthreads).
Qed.

Lemma evaluate_thread_events sched a w i e :
  InThread i e ∈ trace (evaluate sched a w).2 ->
  InThread i e ∈ trace w
  \/ exists agent,
       str_split ","%char (ev_agents a) !! i = Some agent
       /\ e ∈ worker_script (evaluate_disk a w) (ev_base_dir a +:+ "/" +:+ agent)
                (role_path (ev_base_dir a) "eva_data") (Z.of_nat i)
                (ev_evaluation_policy_type a).
Proof.
  destruct (evaluate_spec sched a w) as (created & es & Hrun & _ & Hthreads & Hnone).
  rewrite Hrun. cbn [snd with_trace trace].
  intros [Hin|Hin]%elem_of_app; [auto|]. right.
  apply elem_of_thread_events in Hin.
  destruct (str_split ","%char (ev_agents a) !! i) as [agent|] eqn:Hi.
  - exists agent. split; [reflexivity|]. by rewrite <- (Hthreads i agent Hi).
  - apply lookup_ge_None in Hi. rewrite Hnone in Hin by exact Hi.
    by apply elem_of_nil in Hin.
Qed.

(** ** How a training run ends *)

Lemma init_test_flag_raises mode e :
  init_test_flag mode = Raise e ->
  e = InvalidModeError mode /\ mode ∉ test_mode_choices.
Proof.
  intros Hraise. destruct (decide (mode ∈ test_mode_choices)) as [Hin|Hnot].
  - apply init_test_flag_choice in Hin as [flags Hflags]. congruence.
  - rewrite (init_test_flag_other mode Hnot) in Hraise. by injection Hraise as <-.
Qed.

Lemma int_of_float_raises x e :
  int_of_float x = Raise e -> e = OverflowError \/ exists text, e = ValueError text.
Proof.
  unfold int_of_float. destruct (Prim2SF x); intros [= <-]; eauto.
Qed.

Section TrainFailures.
Context `{Platform}.

Lemma train_raises a w :
  wp (train a) w (fun r _ => forall e, r = Raise e -> train_failure a e).
Proof.
  destruct w as [D C K T]. unfold train.
  repeat wp_train_step.
  all: intros e' [= <-]; unfold train_failure.
  all: try (match goal with
            | Hr : init_test_flag _ = Raise _ |- _ =>
                apply init_test_flag_raises in Hr as [-> Hr]
            | Hr : int_of_float _ = Raise _ |- _ =>
                apply int_of_float_raises in Hr as [->|[text ->]]
            end).
  all: eauto 12.
  all: try (do 5 right; left; eexists; split; [|reflexivity];
            repeat first [ apply list_elem_of_here | apply list_elem_of_further ]).
Qed.

End TrainFailures.

Section TrainRuns.
Context `{Platform}.

Lemma train_run a w in_test post_test total test log seed :
  train_ready a w in_test post_test total test log seed ->
  wp (train a) w
     (fun r w' =>
        r = Ok tt
        /\ exists created,
             trace w' = trace w
                        ++ train_events a created in_test post_test total test log seed).
Proof.
  intros (cfg & Hcfg & Hmode
          & (x1 & (sec1 & t1 & v1 & Hsec1 & Ht1 & Hv1 & Hx1) & Hn1)
          & (x2 & (sec2 & t2 & v2 & Hsec2 & Ht2 & Hv2 & Hx2) & Hn2)
          & (x3 & (sec3 & t3 & v3 & Hsec3 & Ht3 & Hv3 & Hx3) & Hn3)
          & (env & ts & vs & Henv & Hts & Hvs & Hseed) & [model Hmodel]).
  assert (sec2 = sec1) as -> by congruence.
  assert (sec3 = sec1) as -> by congruence.
  clear Hsec2 Hsec3.
  destruct w as [D C K T]. cbn [fs_conf] in Hcfg. unfold train.
  repeat wp_train_step.
  all: split; [reflexivity|].
  all: eexists; unfold train_events; cbn [Counter.init Counter.total_step Counter.cur_step];
    rewrite <- ?app_assoc; cbn [app]; reflexivity.
Qed.

Lemma train_ok_ready a w :
  wp (train a) w
     (fun r _ =>
        r = Ok tt ->
        exists in_test post_test total test log seed,
          train_ready a w in_test post_test total test log seed).
Proof.
  destruct w as [D C K T]. unfold train.
  repeat wp_train_step.
  all: intros Hok; try discriminate Hok.
  all: eexists _, _, _, _, _, _; unfold train_ready; cbn [fs_conf].
  all: eexists; split; [eassumption|].
  all: split; [eassumption|].
  all: unfold reads_step, reads_float, reads_seed.
  all: repeat (split; [eauto 10; fail|]).
  all: eauto.
Qed.

(** X9: [train] returns normally exactly when its inputs are sound: the
    configuration file exists and parses, the test mode is one of the
    four, the three schedule options of [TRAIN_CONFIG] are there and,
    once interpolated, read as finite floats, [ENV_CONFIG] has a [seed]
    that, once interpolated, reads as an integer, and [MODEL_CONFIG] is
    there.  The collaborators ([init_dir], the simulator, the model, the
    trainer) are taken to return. *)
Theorem train_returns_iff (a : train_args) (w : world) :
  (train a w).1 = Ok tt
  <-> exists in_test post_test total test log seed,
        train_ready a w in_test post_test total test log seed.
Proof.
  split.
  - apply (train_ok_ready a w).
  - intros (in_test & post_test & total & test & log & seed & Hready).
    apply (train_run a w _ _ _ _ _ _ Hready).
Qed.

(** X10: with sound inputs [train] returns normally and does this, in
    this order, and nothing else: the directories are made, the log is
    set up, the configuration is copied into the data directory, the
    simulator is bound to port 1, the counter is built from the truncated
    schedule, the model is built with the truncated budget and the seed,
    the log writer is opened, the training loop runs, the offline test
    runs if the mode asks for it, and the model is saved under
    [base_dir/model] at the step the counter ended on. *)
Theorem train_completes (a : train_args) (w : world) (in_test post_test : bool)
    (total test log seed : Z) :
  train_ready a w in_test post_test total test log seed ->
  (train a w).1 = Ok tt
  /\ exists created,
       trace (train a w).2
       = trace w ++ train_events a created in_test post_test total test log seed.
Proof. intros Hready. apply (train_run a w _ _ _ _ _ _ Hready). Qed.

(** X11: the exceptions with which the statements of [train] itself can
    end it, the collaborators taken to return: the copy of a missing
    configuration file, a file that [read] cannot take, a test mode
    outside the four (and only then), a missing [ENV_CONFIG],
    [TRAIN_CONFIG] or [MODEL_CONFIG], a missing schedule option or seed,
    an option value that cannot be interpolated, a text that is no
    number, and an infinite budget.  No other: the lookups in the
    dictionary of directories never fail. *)
Theorem train_failure_modes (a : train_args) (w : world) (e : exn) :
  (train a w).1 = Raise e -> train_failure a e.
Proof. intros Hraise. apply (train_raises a w e Hraise). Qed.

End TrainRuns.

Lemma train_completes_witness :
  exists es,
    trace (train (H := Sample.strict) (Sample.train_with "all_test")
             (Sample.disk {[ "c.ini" := Some Sample.short_config ]})).2 = es
    /\ SaveModel "run/model" 3 ∈ es.
Proof.
  destruct (train_completes (H := Sample.strict) (Sample.train_with "all_test")
              (Sample.disk {[ "c.ini" := Some Sample.short_config ]})
              true true 3 2 10 42)
    as (_ & created & Htrace).
  - exists Sample.short_config. split; [reflexivity|]. split; [reflexivity|].
    split; [exists 3%float; split; [eexists _, _, _; repeat split; reflexivity|reflexivity]|].
    split; [exists 2%float; split; [eexists _, _, _; repeat split; reflexivity|reflexivity]|].
    split; [exists 10%float; split; [eexists _, _, _; repeat split; reflexivity|reflexivity]|].
    split; [eexists _, _, _; repeat split; reflexivity|].
    eexists; reflexivity.
  - eexists. split; [exact Htrace|].
    apply elem_of_app. right. unfold train_events. rewrite !elem_of_app.
    right. right. right. right. apply list_elem_of_further, list_elem_of_here.
Defined.

Lemma train_failure_modes_witness :
  train_failure (Sample.train_with "no_test") (KeyError "ENV_CONFIG").
Proof.
  apply (train_failure_modes (H := Sample.strict) (Sample.train_with "no_test")
           (Sample.disk {[ "c.ini" := Some Sample.no_env_config ]})).
  reflexivity.
Defined.

(** ** What a training run takes *)

Lemma count_events_app p l1 l2 :
  count_events p (l1 ++ l2) = (count_events p l1 + count_events p l2)%nat.
Proof. unfold count_events. by rewrite filter_app, length_app. Qed.

Lemma count_events_nil p : count_events p [] = 0%nat.
Proof. reflexivity. Qed.

Lemma count_events_cons p e l :
  count_events p (e :: l) = ((if p e then 1 else 0) + count_events p l)%nat.
Proof.
  unfold count_events. rewrite filter_cons.
  destruct (p e); [rewrite decide_True by done|rewrite decide_False by done]; reflexivity.
Qed.

Lemma count_events_none p l :
  Forall (fun e => negb (p e) = true) l -> count_events p l = 0%nat.
Proof.
  induction 1 as [|e l He _ IH]; [reflexivity|].
  rewrite count_events_cons, IH. by destruct (p e).
Qed.

Ltac count_resources :=
  repeat first [ rewrite count_events_app | rewrite count_events_cons ];
  rewrite ?(count_events_none _ (map Mkdir _))
    by (apply (mkdirs_forall (fun e => negb (uses _ e))); intros; reflexivity);
  rewrite ?(count_events_none _ (loop_events _ _ _))
    by (apply (loop_events_forall (fun e => negb (uses _ e))); intros; reflexivity);
  rewrite ?count_events_nil; cbn [uses]; lia.

Lemma last_further {A} (x y : A) l l' : last (x :: l ++ y :: l') = last (y :: l').
Proof. apply (last_app_cons (x :: l)). Qed.

Ltac last_event :=
  repeat first [ rewrite last_app_cons | rewrite last_cons_cons | rewrite last_further ];
  reflexivity.

Section TrainResources.
Context `{Platform}.

Lemma train_saves a w :
  wp (train a) w
     (fun r w' =>
        exists es,
          trace w' = trace w ++ es
          /\ match r with
             | Ok _ =>
                 count_events (uses ModelSaved) es = 1%nat
                 /\ exists step,
                      last es = Some (SaveModel (role_path (tr_base_dir a) "model") step)
             | Raise _ => count_events (uses ModelSaved) es = 0%nat
             end).
Proof.
  destruct w as [D C K T]. unfold train.
  repeat wp_train_step.
  all: eexists; (split; [reflexivity|]).
  all: try (split; [|eexists; last_event]).
  all: count_resources.
Qed.

End TrainResources.

Lemma int_of_float_unbounded x :
  float_fraction x = None ->
  int_of_float x = Raise OverflowError
  \/ int_of_float x = Raise (ValueError "cannot convert float NaN to integer").
Proof.
  unfold float_fraction, int_of_float. destruct (Prim2SF x); try discriminate; auto.
Qed.

Section TrainEdges.
Context `{Platform}.

(** X12: whatever the inputs and however the run ends, [train] copies
    the configuration at most once, binds at most one simulator port,
    builds at most one counter, one model and one log writer, runs at
    most one offline pass, and saves at most once. *)
Theorem train_takes_each_resource_once (a : train_args) (w : world) :
  exists es,
    trace (train a w).2 = trace w ++ es
    /\ forall k, (count_events (uses k) es <= 1)%nat.
Proof.
  enough (Hwp : wp (train a) w
                  (fun r w' =>
                     exists es,
                       trace w' = trace w ++ es
                       /\ forall k, (count_events (uses k) es <= 1)%nat))
    by exact Hwp.
  destruct w as [D C K T]. unfold train.
  repeat wp_train_step.
  all: eexists; (split; [reflexivity|]).
  all: intros k; destruct k; count_resources.
Qed.

(** X13: [train] saves the model exactly once when it returns normally,
    as the last thing it does and under [base_dir/model]; a run that ends
    in an exception saves nothing. *)
Theorem model_saved_iff_returns (a : train_args) (w : world) :
  exists es,
    trace (train a w).2 = trace w ++ es
    /\ ((train a w).1 = Ok tt <-> count_events (uses ModelSaved) es = 1%nat)
    /\ ((train a w).1 <> Ok tt <-> count_events (uses ModelSaved) es = 0%nat)
    /\ ((train a w).1 = Ok tt ->
        exists step,
          last es = Some (SaveModel (role_path (tr_base_dir a) "model") step)).
Proof.
  pose proof (train_saves a w) as (es & Htrace & Hsave). unfold wp in *.
  exists es. split; [exact Htrace|].
  destruct (train a w).1 as [[]|e].
  - destruct Hsave as [Hone Hlast]. rewrite Hone.
    split; [done|]. split; [|intros _; exact Hlast].
    split; [done|discriminate].
  - rewrite Hsave. split; [split; discriminate|]. split; [done|discriminate].
Qed.

(** X14: a [total_step] that reads as an infinity or as NaN ends the run
    in [int], with [OverflowError] or [ValueError].  By then the
    directories are made, the configuration is copied and the simulator
    is bound to port 1; no counter and no model were built. *)
Theorem unbounded_budget_aborts (a : train_args) (w : world) (cfg : config) (x : float) :
  fs_conf w !! tr_config_dir a = Some (Some cfg) ->
  tr_test_mode a ∈ test_mode_choices ->
  is_Some (cfg !! "ENV_CONFIG") ->
  reads_float cfg "total_step" x ->
  float_fraction x = None ->
  ((train a w).1 = Raise OverflowError
   \/ (train a w).1 = Raise (ValueError "cannot convert float NaN to integer"))
  /\ exists created,
       trace (train a w).2
       = trace w ++ map Mkdir created
         ++ [LogInit (role_path (tr_base_dir a) "log");
             CopyFile (tr_config_dir a)
               (role_path (tr_base_dir a) "data" +:+ "/"
                +:+ last_piece (str_split "/"%char (tr_config_dir a)));
             EnvBind 1;
             Log INFO "Training: s dim, a dim, s dim ls, a dim ls"].
Proof.
  intros Hcfg [flags Hmode]%init_test_flag_choice [env Henv]
    (sec & text & value & Hsec & Htext & Hvalue & Hx) Hfrac.
  enough (Hwp : wp (train a) w
                  (fun r w' =>
                     (r = Raise OverflowError
                      \/ r = Raise (ValueError "cannot convert float NaN to integer"))
                     /\ exists created,
                          trace w'
                          = trace w ++ map Mkdir created
                            ++ [LogInit (role_path (tr_base_dir a) "log");
                                CopyFile (tr_config_dir a)
                                  (role_path (tr_base_dir a) "data" +:+ "/"
                                   +:+ last_piece (str_split "/"%char (tr_config_dir a)));
                                EnvBind 1;
                                Log INFO "Training: s dim, a dim, s dim ls, a dim ls"]))
    by exact Hwp.
  destruct (int_of_float_unbounded x Hfrac) as [Hint|Hint].
  all: destruct w as [D C K T]; cbn [fs_conf] in Hcfg; unfold train.
  all: repeat wp_train_step.
  all: split; [auto|eexists; reflexivity].
Qed.

Ltac events_inv_test Hin :=
  repeat first
    [ apply elem_of_nil in Hin; destruct Hin
    | apply elem_of_app in Hin as [Hin|Hin]
    | apply elem_of_cons in Hin as [Hin|Hin]
    | apply list_elem_of_fmap in Hin as (? & Hin & _)
    | apply loop_events_elem in Hin as [(? & Hin)|(-> & ? & Hin)] ];
  try discriminate Hin.

Lemma train_tests a w :
  wp (train a) w
     (fun r w' =>
        exists es,
          trace w' = trace w ++ es
          /\ (forall dir c, OfflineTest dir c ∈ es ->
                (exists in_test, init_test_flag (tr_test_mode a) = Ok (in_test, true))
                /\ r = Ok tt
                /\ dir = role_path (tr_base_dir a) "data"
                /\ Counter.is_done c = true)
          /\ (forall step, InLoopTest step ∈ es ->
                exists post_test, init_test_flag (tr_test_mode a) = Ok (true, post_test))).
Proof.
  destruct w as [D C K T]. unfold train.
  repeat wp_train_step.
  all: eexists; (split; [reflexivity|]).
  all: split; [intros dir c Hin|intros step Hin]; events_inv_test Hin.
  all: try (injection Hin as -> ->).
  all: try (split; [eauto|]; split; [reflexivity|]; split; [reflexivity|];
            apply loop_final_done; reflexivity).
  all: eauto.
Qed.

(** X15: tests run only in the modes that ask for them.  An offline test
    happens only under [after_train_test] and [all_test], only in a run
    that goes on to return normally, on the data directory and with the
    counter done; a test inside the loop happens only under
    [in_train_test] and [all_test]. *)
Theorem tests_follow_mode (a : train_args) (w : world) :
  exists es,
    trace (train a w).2 = trace w ++ es
    /\ (forall dir c, OfflineTest dir c ∈ es ->
          (tr_test_mode a = "after_train_test" \/ tr_test_mode a = "all_test")
          /\ (train a w).1 = Ok tt
          /\ dir = role_path (tr_base_dir a) "data"
          /\ Counter.is_done c = true)
    /\ (forall step, InLoopTest step ∈ es ->
          tr_test_mode a = "in_train_test" \/ tr_test_mode a = "all_test").
Proof.
  destruct (train_tests a w) as (es & Htrace & Hoff & Hin).
  assert (Hmodes : forall i p, init_test_flag (tr_test_mode a) = Ok (i, p) ->
            (i = true -> tr_test_mode a = "in_train_test" \/ tr_test_mode a = "all_test")
            /\ (p = true -> tr_test_mode a = "after_train_test"
                            \/ tr_test_mode a = "all_test")).
  { intros i p. unfold init_test_flag.
    repeat match goal with
           | |- context [String.eqb ?m ?s] => destruct (String.eqb_spec m s) as [->|_]
           end; intros [= <- <-]; split; intros; auto; discriminate. }
  exists es. split; [exact Htrace|]. split.
  - intros dir c Hc. destruct (Hoff dir c Hc) as ([i Hi] & Hok & Hdir & Hdone).
    split; [apply (Hmodes i true Hi), eq_refl|]. auto.
  - intros step Hs. destruct (Hin step Hs) as [p Hp].
    apply (Hmodes true p Hp), eq_refl.
Qed.

Lemma train_models a w :
  wp (train a) w
     (fun r w' =>
        exists es,
          trace w' = trace w ++ es
          /\ forall n seed, NewModel n seed ∈ es ->
               exists cfg s,
                 fs_conf w !! tr_config_dir a = Some (Some cfg)
                 /\ seed = Some s /\ reads_seed cfg s /\ reads_step cfg "total_step" n).
Proof.
  destruct w as [D C K T]. unfold train.
  repeat wp_train_step.
  all: eexists; (split; [reflexivity|]).
  all: intros n seed Hin; events_inv Hin.
  all: injection Hin as -> ->.
  all: cbn [fs_conf]; eexists _, _.
  all: split; [reflexivity || eassumption|].
  all: split; [reflexivity|].
  all: unfold reads_seed, reads_step, reads_float.
  all: split; [do 3 eexists; repeat split; eassumption|].
  all: eexists; split; [do 3 eexists; repeat split; eassumption|eassumption].
Qed.

(** X16: [train] builds its model with the seed read from [ENV_CONFIG]
    and with the truncated [total_step]: a run with sound inputs builds
    that model, and no run builds another.  [evaluate_fn] builds its
    model with the budget 0 and no seed: it does so whenever the
    configuration it found has [ENV_CONFIG] and [MODEL_CONFIG], and it
    builds no other, in every worker of [evaluate] under every
    schedule. *)
Theorem models_and_seeds (a : train_args) (w : world) :
  (exists es,
     trace (train a w).2 = trace w ++ es
     /\ (forall in_test post_test total test log seed,
           train_ready a w in_test post_test total test log seed ->
           NewModel total (Some seed) ∈ es)
     /\ forall n seed, NewModel n seed ∈ es ->
          exists cfg s,
            fs_conf w !! tr_config_dir a = Some (Some cfg)
            /\ seed = Some s /\ reads_seed cfg s /\ reads_step cfg "total_step" n)
  /\ (forall agent_dir output_dir port policy_type w0,
        (forall path c,
           is_Some (fs_dirs w0 !! agent_dir) ->
           find_config w0 (agent_dir +:+ "/data/") = Some path ->
           fs_conf w0 !! path = Some (Some c) ->
           is_Some (c !! "ENV_CONFIG") ->
           is_Some (c !! "MODEL_CONFIG") ->
           NewModel 0 None
             ∈ trace (evaluate_fn agent_dir output_dir port policy_type w0).2)
        /\ forall n seed,
             NewModel n seed
               ∈ trace (evaluate_fn agent_dir output_dir port policy_type w0).2 ->
             NewModel n seed ∈ trace w0 \/ n = 0 /\ seed = None)
  /\ (forall sched ea w0 i n seed,
        InThread i (NewModel n seed) ∈ trace (evaluate sched ea w0).2 ->
        InThread i (NewModel n seed) ∈ trace w0 \/ n = 0 /\ seed = None).
Proof.
  assert (Hscript : forall w0 agent_dir output_dir port policy_type n seed,
            NewModel n seed ∈ worker_script w0 agent_dir output_dir port policy_type ->
            n = 0 /\ seed = None).
  { intros w0 agent_dir output_dir port policy_type n seed.
    rewrite worker_script_run.
    destruct (task_verdict w0 agent_dir) as [| |e [|]| |]; cbn;
      rewrite ?elem_of_cons, ?elem_of_nil; intros Hin;
      repeat match goal with
             | Hor : _ \/ _ |- _ => destruct Hor as [Hor|Hor]
             | Heq : NewModel _ _ = NewModel _ _ |- _ => injection Heq as -> ->
             | Hf : False |- _ => destruct Hf
             | Heq : _ = _ |- _ => discriminate Heq
             end; auto. }
  split; [|split].
  - destruct (train_models a w) as (es & Htrace & Hmodels).
    exists es. split; [exact Htrace|]. split; [|exact Hmodels].
    intros in_test post_test total test log seed Hready.
    destruct (train_run a w _ _ _ _ _ _ Hready) as (_ & created & Hrun).
    unfold wp in Htrace. rewrite Htrace in Hrun.
    apply app_inv_head in Hrun. rewrite Hrun. unfold train_events.
    rewrite !elem_of_app. right. left.
    repeat first [ apply list_elem_of_here | apply list_elem_of_further ].
  - intros agent_dir output_dir port policy_type w0. split.
    + intros path c Hdir Hfind Hpath [env Henv] [model Hmodel].
      rewrite evaluate_fn_run. unfold task_verdict.
      rewrite bool_decide_eq_true_2, Hfind, Hpath, Henv, Hmodel by exact Hdir.
      cbn [snd add_events trace]. apply elem_of_app. right.
      destruct (decide (agent_dir +:+ "/model/" ∈ fs_ckpt w0));
        cbn [task_events bound_events app];
        repeat first [ apply list_elem_of_here | apply list_elem_of_further ].
    + intros n seed [Hin|Hin]%evaluate_fn_trace; [auto|]. right. eapply Hscript, Hin.
  - intros sched ea w0 i n seed [Hin|(agent & _ & Hin)]%evaluate_thread_events; [auto|].
    right. eapply Hscript, Hin.
Qed.

End TrainEdges.

Lemma unbounded_budget_aborts_witness :
  (train (H := Sample.strict) (Sample.train_with "no_test")
     (Sample.disk {[ "c.ini" := Some (<["TRAIN_CONFIG" := Sample.schedule "inf" "20" "10"]>
                                         Sample.full_config) ]})).1
  = Raise OverflowError
  \/ (train (H := Sample.strict) (Sample.train_with "no_test")
        (Sample.disk {[ "c.ini" := Some (<["TRAIN_CONFIG" := Sample.schedule "inf" "20" "10"]>
                                            Sample.full_config) ]})).1
     = Raise (ValueError "cannot convert float NaN to integer").
Proof.
  apply (unbounded_budget_aborts (H := Sample.strict) (Sample.train_with "no_test") _
           (<["TRAIN_CONFIG" := Sample.schedule "inf" "20" "10"]> Sample.full_config)
           infinity).
  - reflexivity.
  - apply (bool_decide_unpack _); exact I.
  - eexists; reflexivity.
  - eexists _, _, _. repeat split; reflexivity.
  - reflexivity.
Defined.

(** ** The entry point as a whole *)

Section MainFacts.
Context `{Platform}.


(** X18: an [evaluate] command line returns normally under every
    schedule.  Every output a worker writes goes to [base_dir/eva_data],
    carries the policy type as typed (or the default), and is named after
    the last component of the agent at the position of the worker.  With
    [--agents] left out there is one worker, for [naive], with port 0. *)
Theorem main_evaluate_outputs (sched : list choice) (base agents policy : option string)
    (w : world) :
  let raw := {| raw_base_dir := base; raw_option := Some (RawEvaluate agents policy) |} in
  let base_dir := default default_base_dir base in
  let names := str_split ","%char (default "naive" agents) in
  (main sched raw w).1 = Ok tt
  /\ (forall i x y z,
        InThread i (EvalOutput x y z) ∈ trace (main sched raw w).2 ->
        InThread i (EvalOutput x y z) ∈ trace w
        \/ (y = role_path base_dir "eva_data" /\ z = default "default" policy
            /\ exists agent, names !! i = Some agent
                             /\ x = last_piece (str_split "/"%char agent)))
  /\ (agents = None ->
      exists es,
        trace (main sched raw w).2 = trace w ++ es
        /\ ThreadNew 0 (base_dir +:+ "/naive") 0 ∈ es
        /\ forall i d p, ThreadNew i d p ∈ es -> i = 0%nat).
Proof.
  cbv zeta. unfold main, lift, mbind, M_bind, parse_args.
  cbn [raw_option raw_base_dir].
  set (a := {| ev_base_dir := default default_base_dir base;
               ev_agents := default "naive" agents;
               ev_evaluation_policy_type := default "default" policy |}).
  split; [|split].
  - destruct (evaluate_spec sched a w) as (created & es & Hrun & _).
    rewrite Hrun. reflexivity.
  - intros i x y z [Hin|(agent & Hi & Hin)]%evaluate_thread_events; [auto|]. right.
    apply worker_script_output in Hin as (-> & -> & -> & _).
    split; [reflexivity|]. split; [reflexivity|].
    exists agent. split; [exact Hi|]. apply agent_name.
  - intros ->. destruct (evaluate_spec sched a w) as (created & es & Hrun & Hmain & _).
    exists es. rewrite Hrun. split; [reflexivity|]. split.
    + apply (main_thread_new _ _ _ _ _ _ _ _ Hmain). exists "naive". done.
    + intros i d p Hin. apply (main_thread_new _ _ _ _ _ _ _ _ Hmain) in Hin
        as (agent & Hi & _).
      apply lookup_lt_Some in Hi. cbn in Hi. lia.
Qed.

End MainFacts.

(** ** A task that goes through *)

Lemma task_ready_verdict w agent_dir :
  task_ready w agent_dir <-> task_verdict w agent_dir = Ready.
Proof.
  unfold task_ready, task_verdict. split.
  - intros (Hdir & (path & c & Hfind & Hpath & [env Henv] & [model Hmodel]) & Hckpt).
    rewrite bool_decide_eq_true_2, Hfind, Hpath, Henv, Hmodel by exact Hdir.
    by rewrite decide_True.
  - destruct (bool_decide (is_Some (fs_dirs w !! agent_dir))) eqn:Hdir; [|discriminate].
    apply bool_decide_eq_true in Hdir.
    destruct (find_config w (agent_dir +:+ "/data/")) as [path|] eqn:Hfind;
      [|discriminate].
    destruct (fs_conf w !! path) as [[c|]|] eqn:Hpath; try discriminate.
    destruct (c !! "ENV_CONFIG") as [env|] eqn:Henv; [|discriminate].
    destruct (c !! "MODEL_CONFIG") as [model|] eqn:Hmodel; [|discriminate].
    destruct (decide (agent_dir +:+ "/model/" ∈ fs_ckpt w)) as [Hckpt|]; [|discriminate].
    intros _. split; [exact Hdir|]. split; [|exact Hckpt].
    exists path, c. rewrite Henv, Hmodel. repeat split; try done; by eexists.
Qed.

(** X19: a task goes through exactly when the agent directory exists,
    its data directory holds a configuration file that parses and has
    [ENV_CONFIG] and [MODEL_CONFIG], and the parameters can be loaded.
    Then, and only then, [evaluate_fn] writes an output; it returns
    normally after binding the simulator to its port, building the model,
    loading the parameters, printing the name of the agent and the one
    the environment had before, and running the evaluator on the
    environment renamed to the agent. *)
Theorem evaluation_output_iff (agent_dir output_dir : string) (port : Z)
    (policy_type : string) (w : world) :
  let agent := last_piece (str_split "/"%char agent_dir) in
  let run := evaluate_fn agent_dir output_dir port policy_type w in
  (task_ready w agent_dir
   <-> run = (Ok tt,
              add_events w
                [EnvBind port;
                 Log INFO "Evaluation: s dim, a dim, s dim ls, a dim ls";
                 NewModel 0 None;
                 LoadModel (agent_dir +:+ "/model/") true;
                 Print ("agent " +:+ agent);
                 Print "env.agent ";
                 EvalOutput agent output_dir policy_type]))
  /\ (task_ready w agent_dir
      <-> exists es x y z, trace run.2 = trace w ++ es /\ EvalOutput x y z ∈ es).
Proof.
  cbv zeta. rewrite task_ready_verdict, evaluate_fn_run. split.
  - split.
    + intros ->. reflexivity.
    + destruct (task_verdict w agent_dir) as [| |e [|]| |]; try done;
        cbn [task_result task_events bound_events app]; intros [= Heq];
        apply app_inv_head in Heq; discriminate Heq.
  - cbn [snd add_events trace]. split.
    + intros ->. eexists _, _, _, _. split; [reflexivity|].
      cbn. repeat first [ apply list_elem_of_here | apply list_elem_of_further ].
    + intros (es & x & y & z & Heq & Hin). apply app_inv_head in Heq. subst es.
      destruct (task_verdict w agent_dir) as [| |e [|]| |]; try done;
        cbn [task_events app] in Hin; unfold bound_events in Hin;
        cbn [app] in Hin;
        rewrite ?elem_of_cons, ?elem_of_nil in Hin;
        repeat match goal with
               | Hor : _ \/ _ |- _ => destruct Hor as [Hor|Hor]
               | Hf : False |- _ => destruct Hf
               | Heq : _ = _ |- _ => discriminate Heq
               end.
Qed.

(** ** Training and evaluation apart *)

Lemma worker_script_no_training w agent_dir output_dir port policy_type :
  Forall (fun e => negb (of_training e) = true)
    (worker_script w agent_dir output_dir port policy_type).
Proof.
  rewrite worker_script_run.
  destruct (task_verdict w agent_dir) as [| |e [|]| |]; repeat constructor.
Qed.

Lemma spawn_events_no_training base ias :
  Forall (fun e => no_training e = true) (spawn_events base ias).
Proof.
  induction ias as [|ia ias IH]; [constructor|].
  cbn [spawn_events flat_map app]. repeat (constructor; [reflexivity|]). exact IH.
Qed.

Section Separation.
Context `{Platform}.

(** X20: training and evaluation keep apart.  A training run starts no
    thread, loads no parameters and writes no evaluation output.  An
    evaluation, in its main thread and in every worker under every
    schedule, copies no configuration, builds no counter, takes no
    training step, runs no test and saves no model. *)
Theorem training_and_evaluation_apart (a : train_args) (sched : list choice)
    (ea : evaluate_args) (w : world) :
  (exists es,
     trace (train a w).2 = trace w ++ es
     /\ Forall (fun e => of_evaluation e = false) es)
  /\ (exists es,
        trace (evaluate sched ea w).2 = trace w ++ es
        /\ Forall (fun e => no_training e = true) es).
Proof.
  split.
  - enough (Hwp : wp (train a) w
                    (fun _ w' =>
                       exists es,
                         trace w' = trace w ++ es
                         /\ Forall (fun e => negb (of_evaluation e) = true) es)).
    { destruct Hwp as (es & Htrace & Hall). exists es. split; [exact Htrace|].
      eapply Forall_impl; [exact Hall|]. intros e He. by apply negb_true_iff. }
    destruct w as [D C K T]. unfold train.
    repeat wp_train_step.
    all: eexists; (split; [reflexivity|]).
    all: forall_events.
  - destruct (evaluate_spec sched ea w) as (created & es & Hrun & Hmain & Hthreads & Hnone).
    exists es. rewrite Hrun. split; [reflexivity|].
    apply Forall_forall. intros e Hin.
    destruct (is_main e) eqn:He.
    + apply (elem_of_main_events e es He) in Hin. rewrite Hmain in Hin.
      rewrite !elem_of_app in Hin. destruct Hin as [Hin|[Hin|Hin]].
      * unfold setup_events in Hin. rewrite elem_of_app in Hin.
        destruct Hin as [(p & -> & _)%list_elem_of_fmap|Hin]; [reflexivity|].
        rewrite !elem_of_cons, elem_of_nil in Hin.
        destruct Hin as [->|[->|[->|[]]]]; reflexivity.
      * pose proof (spawn_events_no_training (ev_base_dir ea)
                      (enumerate (str_split ","%char (ev_agents ea)))) as Hall.
        rewrite Forall_forall in Hall. apply Hall, Hin.
      * apply list_elem_of_fmap in Hin as (k & -> & _). reflexivity.
    + destruct e; try discriminate He. cbn [no_training].
      apply elem_of_thread_events in Hin.
      destruct (str_split ","%char (ev_agents ea) !! i) as [agent|] eqn:Hi.
      * rewrite (Hthreads i agent Hi) in Hin.
        pose proof (worker_script_no_training (evaluate_disk ea w)
                      (ev_base_dir ea +:+ "/" +:+ agent)
                      (role_path (ev_base_dir ea) "eva_data") (Z.of_nat i)
                      (ev_evaluation_policy_type ea)) as Hall.
        rewrite Forall_forall in Hall. apply Hall, Hin.
      * apply lookup_ge_None in Hi. rewrite Hnone in Hin by exact Hi.
        by apply elem_of_nil in Hin.
Qed.

End Separation.
